(* ===== verification/_CoqProject ===== *)
-Q . S2P
Prelude.v
RustStr.v
NetConfig.v
Ssh.v
World.v
Linux.v
Tap.v
CloudInit.v
ClearSeed.v
Seeder.v
Frame.v
Hypervisor.v
TestBoot.v
