(* ===== verification/Prelude.v ===== *)
(** * A verification development of the boot-test harness of rust-hypervisor-firmware

    The program verified here is [src/src/integration.rs], the integration
    test harness of the firmware.  A test ([test_boot]) makes a temporary
    directory, draws a guest network identity from a process-wide counter
    and the random source, builds a cloud-init seed image for the guest
    ([trait CloudInit]), copies the OS disk image, brings a tap interface
    up, launches a virtual machine monitor (QEMU or Cloud Hypervisor) with
    the firmware as kernel, waits, shuts the guest down over SSH (retrying
    with linear backoff until the guest answers), kills and reaps the VMM
    and deletes the tap.  Each part is one file, leaf to root:

    - [Prelude] (this file): Rust's [Result] as [result]; code that may
      panic as the state-and-panic monad [ST S A := S -> outcome A * S]
      (the state is kept on a panic, so what a failed test leaves on the
      host can be stated); [expect], [unwrap], [assert!], [for_each];
      [st_finally], a value's [Drop] at the end of its scope and during
      unwinding; [checked], debug-build overflow checks on [u8];
      [preserves P m], an invariant of a computation on every path, with
      its rules, the notation [{{ P }} m] and the tactic [preserves_solve];
      the string, list and
      integer lemmas the files share, the hint databases [harness],
      [harness_run] and [preserves] and the [mrun] tactic.
    - [RustStr]: what the harness uses of Rust's [str] and [format!]:
      [str::replace] ([Replace.str_replace], with the fuel the length of
      the text, enough because every step consumes a character),
      [str::split] on a character, ["{}"] and ["{:02x}"] ([Fmt]); library
      code, modelled from its documentation.
    - [NetConfig]: [GuestNetworkConfig::new] (lines 31-60) with the random
      bytes as an argument, and [COUNTER.fetch_add(1) as u8] (line 345).
    - [Ssh]: [SSHCommandError] and [ssh_command] (lines 228-281) over the
      class [SshLib] of the [TcpStream]/[ssh2] calls it makes; the loop is
      a [Fixpoint] with fuel [DEFAULT_SSH_RETRIES] = 6, which is enough
      (theorem [ssh_command_fuel_enough]).  [GuestSsh] is an instance: a
      guest whose SSH service answers according to the time, and a clock
      that [thread::sleep] advances.
    - [World]: the host as a record: files ([gmap] from absolute path to
      file, directory or FAT image), working and home directories, taps,
      child processes, [COUNTER], the random and temporary-name sources,
      the guest network, and a log of what the harness asked of the
      system.  The [std::fs], [std::process], [tempdir] and [dirs] calls
      are operations on it; what external programs do is the class
      [Host].  [on_net] lifts the SSH library to the host, with a
      simulation lemma.
    - [Linux]: the [Host] instance: [mkdosfs], [mcopy] (a file, or with
      [-s] a directory tree) and the [ip] commands as the tools' manuals
      describe them (not code of the repository).
    - [Tap]: [prepare_tap] and [cleanup_tap] (lines 191-226).
    - [CloudInit]: the trait as a class, [ClearCloudInit] and
      [UbuntuCloudInit] (lines 62-178), step by step, and the Ubuntu
      seeder run on the Linux host.
    - [ClearSeed]: the Clear seeder run on the Linux host: the config
      drive it builds.
    - [Seeder]: the contract [seeder_spec] the boot test needs of
      [CloudInit::prepare] (it returns [<tmp>/cloudinit], writes under the
      temporary directory only and leaves the OS image's name free), met
      by both seeders on the Linux host; it is the interface between the
      seeders and [TestBoot].
    - [Frame]: the file steps and both seeders leave the interfaces and
      the children alone.
    - [Hypervisor]: [spawn_ch], [spawn_qemu] and [HypervisorSpawn] (lines
      283-341), the contract [spawn_ok] the boot test relies on, and the
      VMMs' option parsers (not code of the repository): QEMU's
      [QemuOpts] lexer [qemu_lex], where [,,] is an escaped comma, and
      Cloud Hypervisor's 2020 [OptionParser] [ch_opts].
    - [TestBoot]: [prepare_os_disk], [test_boot] and the six test functions
      (lines 180-189, 343-395), run on the Linux host.

    What the theorems show (the claims C1-C25, most important first):
    - one boot test on a prepared Linux host, with either seeder and
      either VMM, succeeds and restores the host's files and interfaces,
      the VMM killed and reaped (C1); when the guest never answers, it
      panics and leaks the tap and the running VMM, although the
      temporary directory is removed, and the leak makes the next
      process's test with the same counter fail (C2); a test whose tap
      name is taken never starts its VMM (C5); a VMM that fails to start
      leaks the tap as well (C6); a missing OS image makes the test panic
      before the tap, and the [TempDir]'s drop takes the seed image with
      it (C7); a successful test raises the tap fully before it starts
      the VMM and deletes it only after killing and reaping the VMM (C8);
    - the Ubuntu seed image holds exactly the templates, the network one
      seeded (C3); the Clear config drive holds [openstack/latest] with
      [meta_data.json] and the seeded [user_data] (C4); seeding is exact
      substitution (C9); a failing [mkdosfs]/[mcopy] goes unnoticed (C14);
    - [ssh_command] refines a bounded linear-backoff retry for every SSH
      library (C10), reaches a guest that comes up within 150 seconds
      (C17), gives up after six attempts otherwise (C18), succeeds at once
      on a guest that serves (C22), and its fuel is enough (C23);
    - the identity's MAC is locally administered and unicast (C11), tap
      names are distinct over 256 tests and repeat after (C12, C19), fit
      IFNAMSIZ (C24), and reach both VMMs intact (C15); its addresses are
      the IPv4 hosts .1 and .2 of the counter's /24 (C25); QEMU reads the
      OS disk path intact exactly when it has no comma, since the launcher
      does not double commas as QEMU's syntax asks (C16);
    - the tap lifecycle (C13, C20, C21).
    Each theorem with hypotheses has a witness that applies it to a
    concrete host.

    Bounds and fuel: [replace_scan] takes the text's length (plus one) as
    fuel, enough since every round consumes a character; the SSH loop
    takes [DEFAULT_SSH_RETRIES], enough by C23; the QEMU lexer is
    structural; the boot test itself has no loop.

    Not modelled: the VMMs, the firmware and the guest images (external
    programs: only their start is modelled); the test runner that calls the
    test functions (threads, panic capture, reporting), so tests run one
    after the other here and a new process is a reset [COUNTER]; the bytes
    of the images [mkdosfs]/[mcopy] write (an image is the map of the files
    it holds); [TempDir::new]'s retries on a name clash (a clash is
    reported); Cloud Hypervisor's later option syntax (quotes and brackets
    grouping commas, trimmed values), since the harness targets the 2020
    releases that split at every comma; a tap still held by a running
    VMM ([ip tuntap del] is modelled as succeeding, as it does for an
    absent name).
*)

From stdpp Require Export base list strings.
From Stdlib Require Export ZArith String Ascii.
From Stdlib Require Import Lia.

Declare Scope harness_scope.
Delimit Scope harness_scope with harness.
Open Scope string_scope.

(** ** Rust's [Result] and the outcome of code that may panic *)

Inductive result (T E : Type) : Type :=
| Ok (t : T)
| Err (e : E).
Arguments Ok {T E} t.
Arguments Err {T E} e.

(** [Result::map_err]. *)
Definition map_err {T E F : Type} (f : E -> F) (r : result T E) : result T F :=
  match r with
  | Ok t => Ok t
  | Err e => Err (f e)
  end.

Inductive outcome (A : Type) : Type :=
| Normal (a : A)
| Panic (msg : string).
Arguments Normal {A} a.
Arguments Panic {A} msg.

(** ** The state-and-panic monad *)

Definition ST (S A : Type) : Type := S -> outcome A * S.

#[export] Instance st_ret {S : Type} : MRet (ST S) :=
  fun A a s => (Normal a, s).

#[export] Instance st_bind {S : Type} : MBind (ST S) :=
  fun A B k m s =>
    match m s with
    | (Normal a, s') => k a s'
    | (Panic e, s') => (Panic e, s')
    end.

Definition st_get {S : Type} : ST S S := fun s => (Normal s, s).
Definition st_put {S : Type} (s : S) : ST S unit := fun _ => (Normal tt, s).
Definition st_modify {S : Type} (f : S -> S) : ST S unit :=
  fun s => (Normal tt, f s).

(** [panic!], [Result::expect], [Result::unwrap], [Option::unwrap] and
    [assert!]. *)
Definition panic {S A : Type} (msg : string) : ST S A := fun s => (Panic msg, s).

Definition expect {S T E : Type} (msg : string) (r : result T E) : ST S T :=
  match r with
  | Ok t => mret t
  | Err _ => panic msg
  end.

Definition unwrap {S T E : Type} (r : result T E) : ST S T :=
  expect "called `Result::unwrap()` on an `Err` value" r.

Definition unwrap_option {S T : Type} (o : option T) : ST S T :=
  match o with
  | Some t => mret t
  | None => panic "called `Option::unwrap()` on a `None` value"
  end.

Definition expect_option {S T : Type} (msg : string) (o : option T) : ST S T :=
  match o with
  | Some t => mret t
  | None => panic msg
  end.

(** A value's [Drop] at the end of its scope, which also runs while a
    panic unwinds: [fin] runs after [m] whatever [m]'s outcome, and the
    outcome is [m]'s unless [fin] itself panics. *)
Definition st_finally {S A : Type} (m : ST S A) (fin : ST S unit) : ST S A := fun s =>
  let '(r, s1) := m s in
  let '(r2, s2) := fin s1 in
  (match r2 with Panic msg => Panic msg | Normal _ => r end, s2).

Definition assert_true {S : Type} (msg : string) (b : bool) : ST S unit :=
  if b then mret tt else panic msg.

(** [for_each] over a list of items, as the harness's [vec![..].iter()
    .for_each(..)]. *)
Fixpoint st_for_each {S A : Type} (f : A -> ST S unit) (l : list A) : ST S unit :=
  match l with
  | [] => mret tt
  | x :: l' => f x ;; st_for_each f l'
  end.

(** ** Running the monad *)

Create HintDb harness discriminated.
Create Rewrite HintDb harness_run.

Section Run.
Context {S A B : Type}.

Lemma run_ret (a : A) (s : S) : (mret a : ST S A) s = (Normal a, s).
Proof. reflexivity. Qed.

Lemma run_bind (m : ST S A) (k : A -> ST S B) (s : S) :
  (m ≫= k) s =
  match m s with
  | (Normal a, s') => k a s'
  | (Panic e, s') => (Panic e, s')
  end.
Proof. reflexivity. Qed.

Lemma run_bind_normal (m : ST S A) (k : A -> ST S B) (s s' : S) (a : A) :
  m s = (Normal a, s') -> (m ≫= k) s = k a s'.
Proof. intros H. by rewrite run_bind, H. Qed.

Lemma run_bind_panic (m : ST S A) (k : A -> ST S B) (s s' : S) (e : string) :
  m s = (Panic e, s') -> (m ≫= k) s = (Panic e, s').
Proof. intros H. by rewrite run_bind, H. Qed.

(** The monad laws, pointwise in the state. *)
Lemma bind_ret_l (a : A) (k : A -> ST S B) (s : S) : (mret a ≫= k) s = k a s.
Proof. reflexivity. Qed.

Lemma bind_ret_r (m : ST S A) (s : S) : (m ≫= mret) s = m s.
Proof. unfold mbind, st_bind. by destruct (m s) as [[a|e] s']. Qed.

Lemma bind_assoc {C : Type} (m : ST S A) (f : A -> ST S B) (g : B -> ST S C) (s : S) :
  ((m ≫= f) ≫= g) s = (m ≫= (fun x => f x ≫= g)) s.
Proof. unfold mbind, st_bind. by destruct (m s) as [[a|e] s']. Qed.

Lemma run_panic (msg : string) (s : S) : (panic msg : ST S A) s = (Panic msg, s).
Proof. reflexivity. Qed.

Lemma run_expect_ok {E : Type} (msg : string) (t : A) (s : S) :
  (expect msg (Ok t : result A E) : ST S A) s = (Normal t, s).
Proof. reflexivity. Qed.

Lemma run_expect_err {E : Type} (msg : string) (e : E) (s : S) :
  (expect msg (Err e : result A E) : ST S A) s = (Panic msg, s).
Proof. reflexivity. Qed.
Lemma run_finally (m : ST S A) (fin : ST S unit) (s s1 s2 : S) (r : outcome A) :
  m s = (r, s1) -> fin s1 = (Normal tt, s2) -> st_finally m fin s = (r, s2).
Proof. intros Hm Hf. unfold st_finally. by rewrite Hm, Hf. Qed.

Lemma run_unwrap_ok {E : Type} (t : A) (s : S) :
  (unwrap (Ok t : result A E) : ST S A) s = (Normal t, s).
Proof. reflexivity. Qed.
End Run.

(** ** Invariants of a computation

    [preserves P m]: from a state satisfying [P], [m] ends, normally or
    by a panic, in a state satisfying [P].  A program built with the
    monad's operations preserves [P] when each primitive step does. *)
Definition preserves {S A : Type} (P : S -> Prop) (m : ST S A) : Prop :=
  forall s, P s -> P (snd (m s)).

(** [{{ P }} m]: [m] keeps the invariant [P]. *)
Notation "{{ P }} m" := (preserves P m) (at level 20, P at level 200, m at level 20) : harness_scope.

Section Preserves.
Context {S : Type} (P : S -> Prop).

Lemma preserves_ret {A : Type} (a : A) : preserves P (mret a).
Proof. by intros s. Qed.

Lemma preserves_panic {A : Type} (msg : string) : preserves P (panic msg : ST S A).
Proof. by intros s. Qed.

Lemma preserves_bind {A B : Type} (m : ST S A) (k : A -> ST S B) :
  preserves P m -> (forall a, preserves P (k a)) -> preserves P (m ≫= k).
Proof.
  intros Hm Hk s Hs. rewrite run_bind. specialize (Hm s Hs).
  destruct (m s) as [[a|e] s']; [by apply Hk|done].
Qed.

Lemma preserves_expect {T E : Type} (msg : string) (r : result T E) : preserves P (expect msg r).
Proof. destruct r; [apply preserves_ret|apply preserves_panic]. Qed.

Lemma preserves_unwrap {T E : Type} (r : result T E) : preserves P (unwrap r).
Proof. apply preserves_expect. Qed.

Lemma preserves_expect_option {T : Type} (msg : string) (o : option T) : preserves P (expect_option msg o).
Proof. destruct o; [apply preserves_ret|apply preserves_panic]. Qed.

Lemma preserves_assert_true (msg : string) (b : bool) : preserves P (assert_true msg b).
Proof. destruct b; [apply preserves_ret|apply preserves_panic]. Qed.

Lemma preserves_for_each {A : Type} (f : A -> ST S unit) (l : list A) :
  (forall x, preserves P (f x)) -> preserves P (st_for_each f l).
Proof.
  intros Hf. induction l as [|x l IH]; [apply preserves_ret|].
  apply preserves_bind; [apply Hf|intros _; exact IH].
Qed.

Lemma preserves_finally {A : Type} (m : ST S A) (fin : ST S unit) :
  preserves P m -> preserves P fin -> preserves P (st_finally m fin).
Proof.
  intros Hm Hf s Hs. unfold st_finally. specialize (Hm s Hs).
  destruct (m s) as [r s1]. specialize (Hf s1 Hm). by destruct (fin s1) as [r2 s2].
Qed.

Lemma preserves_ext {A : Type} (m m' : ST S A) :
  (forall s, m s = m' s) -> preserves P m' -> preserves P m.
Proof. intros E Hm s Hs. rewrite E. by apply Hm. Qed.
End Preserves.

Create HintDb preserves discriminated.
#[export] Hint Resolve preserves_ret preserves_panic preserves_expect preserves_unwrap
  preserves_expect_option preserves_assert_true : preserves.

(** Split a program into its steps and close each one with the hints. *)
Ltac preserves_solve :=
  repeat first
    [ progress cbv zeta
    | solve [eauto with preserves]
    | apply preserves_bind; [|intros ?]
    | apply preserves_finally
    | apply preserves_for_each; intros ?
    | case_match ].

#[export] Hint Rewrite @run_ret @run_panic @run_expect_ok @run_expect_err @run_unwrap_ok : harness_run.

(** [mrun] unfolds the monad's plumbing so that a run on a concrete or
    partly concrete state computes. *)
Ltac mrun :=
  cbn [mret mbind st_ret st_bind st_get st_put st_modify panic expect unwrap
       unwrap_option assert_true map_err st_for_each] in *.

(** ** Strings *)

Section Strings.
Implicit Types s t u p : string.

(** The defining equations of [String.append], which stdpp keeps from
    [simpl]. *)
Lemma str_app_nil_l s : "" ++ s = s.
Proof. reflexivity. Qed.

Lemma str_app_cons (a : ascii) s t : String a s ++ t = String a (s ++ t).
Proof. reflexivity. Qed.

Lemma str_app_assoc s t u : (s ++ t) ++ u = s ++ (t ++ u).
Proof. induction s; rewrite ?str_app_nil_l, ?str_app_cons; congruence. Qed.

Lemma str_app_nil_r s : s ++ "" = s.
Proof. induction s; rewrite ?str_app_nil_l, ?str_app_cons; congruence. Qed.

Lemma str_length_app s t : String.length (s ++ t) = String.length s + String.length t.
Proof. induction s; rewrite ?str_app_nil_l, ?str_app_cons; simpl; lia. Qed.

Lemma str_prefix_app p s : String.prefix p (p ++ s) = true.
Proof.
  induction p as [|a p IH]; [by destruct s|].
  simpl. destruct (ascii_dec a a); [exact IH|congruence].
Qed.

Lemma str_prefix_inv p s : String.prefix p s = true -> exists r, s = p ++ r.
Proof.
  revert s. induction p as [|a p IH]; intros s H; [by exists s|].
  destruct s as [|b s]; [discriminate|]. simpl in H.
  destruct (ascii_dec a b) as [->|]; [|discriminate].
  destruct (IH s H) as [r ->]. by exists r.
Qed.

Lemma str_prefix_spec p s : String.prefix p s = true <-> exists r, s = p ++ r.
Proof.
  split; [apply str_prefix_inv|]. intros [r ->]. apply str_prefix_app.
Qed.

Lemma str_prefix_length p s :
  String.prefix p s = true -> String.length p <= String.length s.
Proof. intros [r ->]%str_prefix_inv. rewrite str_length_app. lia. Qed.
End Strings.

#[export] Hint Rewrite str_app_nil_l str_app_cons str_app_assoc str_app_nil_r str_length_app str_prefix_app : harness_run.
#[export] Hint Resolve str_prefix_app : harness.

(** Characters of a string, as a list, for membership arguments. *)
Fixpoint str_chars (s : string) : list ascii :=
  match s with
  | EmptyString => []
  | String c s' => c :: str_chars s'
  end.

Lemma str_chars_app (s t : string) : str_chars (s ++ t) = (str_chars s ++ str_chars t)%list.
Proof. induction s; rewrite ?str_app_nil_l, ?str_app_cons; simpl; congruence. Qed.

#[export] Hint Rewrite str_chars_app : harness_run.

(** A character absent from a literal, by evaluation. *)
Lemma char_notin_lit (c : ascii) (s : string) :
  forallb (fun d => negb (Ascii.eqb d c)) (str_chars s) = true -> c ∉ str_chars s.
Proof.
  intros H Hin. rewrite forallb_forall in H. apply list_elem_of_In, H in Hin.
  by rewrite Ascii.eqb_refl in Hin.
Qed.

(** ** Integers *)

(** A [w]-bit unsigned value and the wrap-around of Rust's [as] casts and
    wrapping arithmetic. *)
Definition wrap (w : Z) (z : Z) : Z := (z mod 2 ^ w)%Z.

Lemma wrap_range (w z : Z) : (0 <= w -> 0 <= wrap w z < 2 ^ w)%Z.
Proof. intros Hw. unfold wrap. apply Z.mod_pos_bound. lia. Qed.

Lemma wrap_small (w z : Z) : (0 <= z < 2 ^ w)%Z -> wrap w z = z.
Proof. intros H. unfold wrap. by apply Z.mod_small. Qed.

#[export] Hint Resolve wrap_range : harness.

(** A property of every [u8] value follows from a boolean check of the 256
    values, which [vm_compute] decides. *)
Lemma u8_forall (P : Z -> Prop) (f : Z -> bool) :
  (forall z, f z = true -> P z) ->
  forallb (fun n => f (Z.of_nat n)) (seq 0 256) = true ->
  forall z, (0 <= z < 256)%Z -> P z.
Proof.
  intros Hf Hall z Hz. apply Hf.
  rewrite forallb_forall in Hall.
  replace z with (Z.of_nat (Z.to_nat z)) by lia.
  apply Hall. apply in_seq. lia.
Qed.

Lemma str_app_eq_nil (s t : string) : s ++ t = "" -> s = "" /\ t = "".
Proof. destruct s; [done|]. rewrite str_app_cons. discriminate. Qed.

Lemma str_app_inv_l (p s t : string) : p ++ s = p ++ t -> s = t.
Proof. induction p as [|a p IH]; rewrite ?str_app_nil_l, ?str_app_cons; [done|]. intros H. injection H. apply IH. Qed.

Lemma str_app_inv_r (p s t : string) : s ++ p = t ++ p -> s = t.
Proof.
  revert t. induction s as [|a s IH]; intros t H; destruct t as [|b t];
    rewrite ?str_app_nil_l, ?str_app_cons in H; try done.
  - apply (f_equal String.length) in H. simpl in H. rewrite str_length_app in H. lia.
  - apply (f_equal String.length) in H. simpl in H. rewrite str_length_app in H. lia.
  - injection H as -> H. by rewrite (IH t H).
Qed.

(** Rust integer arithmetic in a debug build: a result outside [0, 2^w)
    panics ("attempt to add with overflow"). *)
Definition checked {S : Type} (w : Z) (what : string) (z : Z) : ST S Z :=
  if ((0 <=? z) && (z <? 2 ^ w))%Z then mret z
  else panic ("attempt to " ++ what ++ " with overflow").

Lemma run_checked_ok {S : Type} (w : Z) (what : string) (z : Z) (s : S) :
  (0 <= z < 2 ^ w)%Z -> checked w what z s = (Normal z, s).
Proof.
  intros H. unfold checked.
  replace ((0 <=? z) && (z <? 2 ^ w))%Z with true; [done|].
  symmetry. apply andb_true_iff. split; [apply Z.leb_le|apply Z.ltb_lt]; lia.
Qed.
