(* ===== verification/RustStr.v ===== *)
(** * The text operations of Rust's standard library the harness uses

    [Replace] models [str::replace] (the harness substitutes placeholders
    in the cloud-init templates with it, src/src/integration.rs lines
    95-98 and 148-151); [Fmt] models the [format!] conversions of
    [GuestNetworkConfig::new] (lines 48-57): ["{}"] on a [u8] and
    ["{:02x}"].  The library's own source is not under src/: these are
    translations of the library's documented behaviour.  Decoders that the
    program does not contain ([uint_of_string], [parse_02x]) appear only
    in the statements of round trips. *)

From S2P Require Import Prelude.
From Stdlib Require Import Lia DecimalString DecimalNat.

Module Replace.

(** [&s[n..]] on an ASCII string. *)
Fixpoint str_drop (n : nat) (s : string) : string :=
  match n, s with
  | O, _ => s
  | S _, EmptyString => EmptyString
  | S n', String _ s' => str_drop n' s'
  end.

(** The scan of [str::replace]: walk the text left to right, and where
    the pattern starts, emit the replacement and resume after the match
    (so matches never overlap and the leftmost one wins).  The fuel is
    the text's length: each round consumes at least one character. *)
Fixpoint replace_scan (fuel : nat) (from to s : string) : string :=
  match fuel, s with
  | O, _ => s
  | S _, EmptyString => EmptyString
  | S fuel', String c s' =>
      if String.prefix from s
      then to ++ replace_scan fuel' from to (str_drop (String.length from) s)
      else String c (replace_scan fuel' from to s')
  end.

(** An empty pattern matches at every character boundary:
    ["abc".replace("", "x") = "xaxbxcx"]. *)
Fixpoint replace_empty (to s : string) : string :=
  match s with
  | EmptyString => to
  | String c s' => to ++ String c (replace_empty to s')
  end.

(** [s.replace(from, to)]. *)
Definition str_replace (s from to : string) : string :=
  match from with
  | EmptyString => replace_empty to s
  | String _ _ => replace_scan (String.length s) from to s
  end.

(** Whether [pat] occurs in [s] ([s.contains(pat)]). *)
Fixpoint str_contains (pat s : string) : bool :=
  String.prefix pat s ||
  match s with
  | EmptyString => false
  | String _ s' => str_contains pat s'
  end.

(** Whether an occurrence of [pat] starts inside [a] in the text
    [a ++ b]. *)
Fixpoint match_starts_in (pat a b : string) : bool :=
  match a with
  | EmptyString => false
  | String c a' => String.prefix pat (String c a' ++ b) || match_starts_in pat a' b
  end.

Fixpoint str_last (s : string) : option ascii :=
  match s with
  | EmptyString => None
  | String c EmptyString => Some c
  | String _ s' => str_last s'
  end.

Definition str_head (s : string) : option ascii :=
  match s with
  | EmptyString => None
  | String c _ => Some c
  end.

Definition char_in (c : ascii) (pat : string) : bool :=
  bool_decide (c ∈ str_chars pat).

(** A boundary between [a] and what follows it, [b], that no occurrence
    of [pat] can straddle: a character next to it is not one of
    [pat]'s, or nothing follows. *)
Definition boundary_ok (pat a b : string) : bool :=
  match str_last a with
  | Some d => negb (char_in d pat)
  | None => true
  end ||
  match str_head b with
  | Some d => negb (char_in d pat)
  | None => true
  end.

Fixpoint str_concat (ss : list string) : string :=
  match ss with
  | [] => EmptyString
  | s :: ss' => s ++ str_concat ss'
  end.

(** A text cut into segments each of which is exactly [pat], or free of
    it and closed by a boundary no occurrence of [pat] straddles. *)
Fixpoint segs_safe (pat : string) (ss : list string) : bool :=
  match ss with
  | [] => true
  | s :: ss' =>
      (String.eqb s pat
       || negb (str_contains pat s) && boundary_ok pat s (str_concat ss'))
      && segs_safe pat ss'
  end.

Definition subst_seg (pat to s : string) : string :=
  if String.eqb s pat then to else s.

(** ** Lemmas *)

Lemma str_drop_app (p r : string) : str_drop (String.length p) (p ++ r) = r.
Proof. induction p; [done|]. rewrite str_app_cons. exact IHp. Qed.

Lemma prefix_nonempty_shorter (from s : string) (c : ascii) :
  from <> EmptyString -> String.prefix from s = true ->
  String.length (str_drop (String.length from) s) < String.length s.
Proof.
  intros Hne [r ->]%str_prefix_inv. rewrite str_drop_app, str_length_app.
  destruct from; [done|]. simpl. lia.
Qed.

Lemma replace_scan_fuel (from to s : string) (n m : nat) :
  from <> EmptyString ->
  String.length s <= n -> String.length s <= m ->
  replace_scan n from to s = replace_scan m from to s.
Proof.
  intros Hne. revert s m. induction n as [|n IH]; intros s m Hn Hm.
  - destruct s; [by destruct m|simpl in Hn; lia].
  - destruct m as [|m]; [destruct s; [done|simpl in Hm; lia]|].
    destruct s as [|c s']; [done|]. cbn [replace_scan].
    destruct (String.prefix from (String c s')) eqn:Hp.
    + pose proof (prefix_nonempty_shorter from (String c s') c Hne Hp) as Hl.
      simpl in Hl, Hn, Hm. f_equal. apply IH; lia.
    + simpl in Hn, Hm. f_equal. apply IH; lia.
Qed.

Lemma replace_scan_step (n : nat) (from to : string) (c : ascii) (s : string) :
  replace_scan (S n) from to (String c s) =
  if String.prefix from (String c s)
  then to ++ replace_scan n from to (str_drop (String.length from) (String c s))
  else String c (replace_scan n from to s).
Proof. reflexivity. Qed.

Lemma str_replace_scan (s from to : string) :
  from <> EmptyString ->
  str_replace s from to = replace_scan (String.length s) from to s.
Proof. intros Hne. by destruct from. Qed.

Section Equations.
Context (from to : string) (Hne : from <> EmptyString).

Lemma replace_nil : str_replace EmptyString from to = EmptyString.
Proof. by rewrite str_replace_scan. Qed.

Lemma replace_hit (s : string) :
  str_replace (from ++ s) from to = to ++ str_replace s from to.
Proof.
  rewrite !str_replace_scan by done.
  destruct from as [|a f]; [done|].
  rewrite str_app_cons.
  change (String.length (String a (f ++ s))) with (S (String.length (f ++ s))).
  rewrite replace_scan_step, <- str_app_cons, str_prefix_app, str_drop_app.
  f_equal. apply replace_scan_fuel; [done| |done].
  rewrite str_length_app. lia.
Qed.

Lemma replace_miss (c : ascii) (s : string) :
  String.prefix from (String c s) = false ->
  str_replace (String c s) from to = String c (str_replace s from to).
Proof.
  intros Hp. rewrite !str_replace_scan by done.
  cbn [String.length replace_scan]. by rewrite Hp.
Qed.
End Equations.

(** A prefix of [x ++ y] is a prefix of [x], or it covers [x] and runs
    into [y]. *)
Lemma prefix_app_cases (p x y : string) :
  String.prefix p (x ++ y) = true ->
  String.prefix p x = true \/
  exists q, p = x ++ q /\ q <> EmptyString /\ String.prefix q y = true.
Proof.
  revert p. induction x as [|c x IH]; intros p H.
  - destruct p as [|d p]; [by left|]. right. by exists (String d p).
  - destruct p as [|d p]; [by left|].
    rewrite str_app_cons in H. simpl in H.
    destruct (ascii_dec d c) as [->|]; [|discriminate].
    destruct (IH p H) as [Hx|(q & -> & Hq & Hy)].
    + left. simpl. by destruct (ascii_dec c c).
    + right. exists q. by rewrite str_app_cons.
Qed.

Lemma prefix_contains (p s : string) :
  String.prefix p s = true -> str_contains p s = true.
Proof. intros H. destruct s; cbn [str_contains]; by rewrite H. Qed.

Lemma str_last_cons (c : ascii) (a : string) : exists d, str_last (String c a) = Some d.
Proof.
  revert c. induction a as [|c' a IH]; intros c; [by exists c|].
  destruct (IH c') as [d Hd]. exists d. exact Hd.
Qed.

Lemma str_last_in (x q : string) (d : ascii) :
  str_last x = Some d -> d ∈ str_chars (x ++ q).
Proof.
  induction x as [|c x IH]; [done|]. intros Hl.
  rewrite str_app_cons. simpl.
  destruct x as [|c' x']; simpl in Hl.
  - injection Hl as ->. apply list_elem_of_here.
  - apply list_elem_of_further, IH, Hl.
Qed.

Lemma str_head_in (x q y : string) (d : ascii) :
  q <> EmptyString -> String.prefix q y = true -> str_head y = Some d ->
  d ∈ str_chars (x ++ q).
Proof.
  intros Hq [r ->]%str_prefix_inv Hd.
  destruct q as [|c q]; [done|]. simpl in Hd. injection Hd as ->.
  rewrite str_chars_app. apply elem_of_app. right. apply list_elem_of_here.
Qed.

(** No occurrence starts inside a segment free of [pat] whose boundary
    with the rest is safe. *)
Lemma starts_in_safe (pat a b : string) :
  str_contains pat a = false -> boundary_ok pat a b = true ->
  match_starts_in pat a b = false.
Proof.
  unfold boundary_ok, char_in.
  induction a as [|c a IH]; intros Hc Hb; [done|]. cbn [match_starts_in].
  cbn [str_contains] in Hc. apply orb_false_iff in Hc as [Hp Hc'].
  apply orb_false_iff. split.
  - destruct (String.prefix pat (String c a ++ b)) eqn:Hpb; [|done].
    destruct (prefix_app_cases _ _ _ Hpb) as [Hx|(q & -> & Hq & Hy)];
      [congruence|].
    exfalso. apply orb_true_iff in Hb as [Hb|Hb].
    + destruct (str_last_cons c a) as [d Hl]. rewrite Hl in Hb.
      apply negb_true_iff, bool_decide_eq_false in Hb. apply Hb.
      by apply str_last_in.
    + destruct (str_head b) as [d|] eqn:Hh.
      * apply negb_true_iff, bool_decide_eq_false in Hb. apply Hb.
        by eapply str_head_in.
      * destruct b; [|done]. apply str_prefix_inv in Hy as [r Hy].
        destruct q; [done|discriminate].
  - destruct a as [|c' a']; [done|]. apply IH; [done|].
    apply orb_true_iff in Hb as [Hb|Hb]; apply orb_true_iff; [left|by right].
    exact Hb.
Qed.

Lemma replace_app_skip (from to a b : string) :
  from <> EmptyString -> match_starts_in from a b = false ->
  str_replace (a ++ b) from to = a ++ str_replace b from to.
Proof.
  intros Hne. induction a as [|c a IH]; intros Hm; [done|].
  cbn [match_starts_in] in Hm. apply orb_false_iff in Hm as [Hp Hm].
  rewrite str_app_cons, replace_miss, IH by (rewrite ?str_app_cons in Hp; done).
  done.
Qed.

(** ** Theorems *)

(** Replacing a pattern that does not occur changes nothing. *)
Theorem replace_absent (s from to : string) :
  from <> EmptyString -> str_contains from s = false ->
  str_replace s from to = s.
Proof.
  intros Hne. induction s as [|c s IH]; intros Hc; [by apply replace_nil|].
  cbn [str_contains] in Hc. apply orb_false_iff in Hc as [Hp Hc].
  rewrite replace_miss by done. by rewrite IH.
Qed.

(** On a text cut into safe segments, [str_replace] replaces exactly the
    segments equal to the pattern and keeps every other byte. *)
Theorem replace_segments (from to : string) (ss : list string) :
  from <> EmptyString -> segs_safe from ss = true ->
  str_replace (str_concat ss) from to = str_concat (map (subst_seg from to) ss).
Proof.
  intros Hne. induction ss as [|s ss IH]; intros Hs; simpl; [by apply replace_nil|].
  apply andb_true_iff in Hs as [Hs Hss]. unfold subst_seg at 1.
  destruct (String.eqb_spec s from) as [->|Hneq].
  - rewrite replace_hit by done. by rewrite IH.
  - simpl in Hs. apply andb_true_iff in Hs as [Hc Hb].
    rewrite replace_app_skip, IH; [done|done|done|].
    apply starts_in_safe; [by apply negb_true_iff|done].
Qed.

End Replace.

(** [s.split(sep)] for a one-character separator. *)
Fixpoint split_on (sep : ascii) (s : string) : list string :=
  match s with
  | EmptyString => [EmptyString]
  | String c s' =>
      if Ascii.eqb c sep then EmptyString :: split_on sep s'
      else match split_on sep s' with
           | [] => [String c EmptyString]
           | w :: ws => String c w :: ws
           end
  end.

(** Splitting [x ++ sep ++ y] where [x] has no [sep] cuts at that [sep]. *)
Lemma split_on_app_sep (sep : ascii) (x y : string) :
  sep ∉ str_chars x -> split_on sep (x ++ String sep y) = x :: split_on sep y.
Proof.
  induction x as [|c x IH]; intros Hx.
  - cbn [split_on]. rewrite str_app_nil_l. cbn [split_on]. by rewrite Ascii.eqb_refl.
  - rewrite str_app_cons. cbn [split_on]. simpl in Hx.
    apply not_elem_of_cons in Hx as [Hc Hx].
    rewrite (proj2 (Ascii.eqb_neq c sep)) by congruence. by rewrite IH.
Qed.

Lemma split_on_nosep (sep : ascii) (x : string) :
  sep ∉ str_chars x -> split_on sep x = [x].
Proof.
  induction x as [|c x IH]; intros Hx; [done|]. cbn [split_on]. simpl in Hx.
  apply not_elem_of_cons in Hx as [Hc Hx].
  rewrite (proj2 (Ascii.eqb_neq c sep)) by congruence. by rewrite IH.
Qed.

(** Splitting words joined by [sep] gives the words back. *)
Lemma split_on_concat (sep : ascii) (ws : list string) :
  Forall (fun w => sep ∉ str_chars w) ws -> ws <> [] ->
  split_on sep (String.concat (String sep EmptyString) ws) = ws.
Proof.
  induction ws as [|w ws IH]; intros Hf Hne; [done|].
  inversion_clear Hf as [|? ? Hw Hws]. destruct ws as [|w' ws'].
  - by apply split_on_nosep.
  - change (String.concat (String sep EmptyString) (w :: w' :: ws'))
      with (w ++ String sep EmptyString ++ String.concat (String sep EmptyString) (w' :: ws')).
    rewrite str_app_cons, str_app_nil_l, split_on_app_sep by done.
    by rewrite IH.
Qed.

(** Every character of [s] is one of [allowed]'s. *)
Definition chars_in (allowed s : string) : bool :=
  forallb (fun c => Replace.char_in c allowed) (str_chars s).

Lemma chars_in_app (allowed s t : string) :
  chars_in allowed (s ++ t) = chars_in allowed s && chars_in allowed t.
Proof. unfold chars_in. by rewrite str_chars_app, forallb_app. Qed.

Lemma chars_in_notin (allowed s : string) (c : ascii) :
  chars_in allowed s = true -> c ∉ str_chars allowed -> c ∉ str_chars s.
Proof.
  unfold chars_in, Replace.char_in. rewrite forallb_forall. intros H Hc Hin.
  apply list_elem_of_In, H, bool_decide_eq_true in Hin. done.
Qed.

(** The first occurrence of a character. *)
Lemma str_first_occurrence (c : ascii) (s : string) :
  c ∈ str_chars s -> exists a b, s = a ++ String c b /\ c ∉ str_chars a.
Proof.
  induction s as [|d s IH]; intros Hin; [by apply not_elem_of_nil in Hin|].
  destruct (ascii_dec d c) as [->|Hne].
  - exists "", s. split; [done|apply not_elem_of_nil].
  - simpl in Hin. apply elem_of_cons in Hin as [->|Hin]; [done|].
    destruct (IH Hin) as (a & b & -> & Ha). exists (String d a), b.
    split; [done|]. simpl. apply not_elem_of_cons. split; [congruence|done].
Qed.

Lemma str_notin_app (c : ascii) (s t : string) :
  c ∉ str_chars s -> c ∉ str_chars t -> c ∉ str_chars (s ++ t).
Proof. rewrite str_chars_app. intros Hs Ht [?|?]%elem_of_app; auto. Qed.

(** A wider character class, checked over the 256 characters. *)
Lemma chars_in_sub (a b s : string) :
  forallb (fun n => implb (Replace.char_in (ascii_of_nat n) a) (Replace.char_in (ascii_of_nat n) b))
    (seq 0 256) = true ->
  chars_in a s = true -> chars_in b s = true.
Proof.
  intros Hab Hs. unfold chars_in in *. rewrite forallb_forall in *. intros c Hc.
  specialize (Hab (nat_of_ascii c)). rewrite ascii_nat_embedding, Hs in Hab by done.
  apply Hab, in_seq. pose proof (nat_ascii_bounded c). lia.
Qed.

Module Fmt.

(** ["{}"] on an unsigned integer: its decimal digits, without sign or
    leading zeros. *)
Definition fmt_dec (n : Z) : string :=
  NilEmpty.string_of_uint (Nat.to_uint (Z.to_nat n)).

Definition hex_digit (d : Z) : ascii :=
  ascii_of_nat (Z.to_nat (if (d <? 10)%Z then 48 + d else 87 + d)%Z).

(** ["{:02x}"] on a [u8]: two lowercase hexadecimal digits, high nibble
    first. *)
Definition fmt_02x (b : Z) : string :=
  String (hex_digit (Z.shiftr b 4)) (String (hex_digit (Z.land b 15)) EmptyString).

(** Decoders, for the round trips. *)
Definition hex_value (c : ascii) : option Z :=
  let n := Z.of_nat (nat_of_ascii c) in
  if ((48 <=? n) && (n <=? 57))%Z then Some (n - 48)%Z
  else if ((97 <=? n) && (n <=? 102))%Z then Some (n - 87)%Z
  else None.

Definition parse_02x (s : string) : option Z :=
  match s with
  | String h (String l EmptyString) =>
      match hex_value h, hex_value l with
      | Some x, Some y => Some (x * 16 + y)%Z
      | _, _ => None
      end
  | _ => None
  end.

Definition parse_dec (s : string) : option Z :=
  option_map (fun u => Z.of_nat (Nat.of_uint u)) (NilEmpty.uint_of_string s).

Definition is_digit (c : ascii) : bool :=
  let n := nat_of_ascii c in ((48 <=? n) && (n <=? 57))%nat.

(** [fmt_02x] of a byte: two hexadecimal digits (no [':']), that decode
    back to the byte. *)
Definition fmt_02x_ok (b : Z) : bool :=
  match fmt_02x b with
  | String h (String l EmptyString) =>
      negb (Ascii.eqb h ":") && negb (Ascii.eqb l ":")
      && bool_decide (parse_02x (fmt_02x b) = Some b)
  | _ => false
  end.

Lemma fmt_02x_ok_all (b : Z) : (0 <= b < 256)%Z -> fmt_02x_ok b = true.
Proof.
  apply (u8_forall (fun b => fmt_02x_ok b = true) fmt_02x_ok); [done|].
  vm_compute. reflexivity.
Qed.

Theorem parse_fmt_02x (b : Z) : (0 <= b < 256)%Z -> parse_02x (fmt_02x b) = Some b.
Proof.
  intros Hb. pose proof (fmt_02x_ok_all b Hb) as H. unfold fmt_02x_ok in H.
  destruct (fmt_02x b) as [|h [|l [|]]] eqn:E; try discriminate.
  apply andb_true_iff in H as [_ H]. by apply bool_decide_eq_true in H.
Qed.

Lemma fmt_02x_shape (b : Z) :
  (0 <= b < 256)%Z ->
  exists h l, fmt_02x b = String h (String l EmptyString) /\ h <> ":"%char /\ l <> ":"%char.
Proof.
  intros Hb. pose proof (fmt_02x_ok_all b Hb) as H. unfold fmt_02x_ok in H.
  destruct (fmt_02x b) as [|h [|l [|]]]; try discriminate.
  exists h, l. apply andb_true_iff in H as [H _]. apply andb_true_iff in H as [H1 H2].
  apply negb_true_iff, Ascii.eqb_neq in H1, H2. done.
Qed.

Theorem parse_fmt_dec (n : Z) : (0 <= n)%Z -> parse_dec (fmt_dec n) = Some n.
Proof.
  intros Hn. unfold parse_dec, fmt_dec. rewrite NilEmpty.usu. simpl.
  rewrite Unsigned.of_to. f_equal. lia.
Qed.

Lemma fmt_dec_inj (n m : Z) : (0 <= n)%Z -> (0 <= m)%Z -> fmt_dec n = fmt_dec m -> n = m.
Proof.
  intros Hn Hm H. apply (f_equal parse_dec) in H.
  rewrite !parse_fmt_dec in H by done. congruence.
Qed.

Lemma string_of_uint_digits (d : Decimal.uint) :
  forallb is_digit (str_chars (NilEmpty.string_of_uint d)) = true.
Proof. induction d; simpl; rewrite ?IHd; reflexivity. Qed.

Lemma fmt_dec_digits (n : Z) : forallb is_digit (str_chars (fmt_dec n)) = true.
Proof. apply string_of_uint_digits. Qed.

(** The characters of the two formats. *)
Definition HEX_CHARS : string := "0123456789abcdef".
Definition DEC_CHARS : string := "0123456789".

Lemma fmt_02x_hex (b : Z) : (0 <= b < 256)%Z -> chars_in HEX_CHARS (fmt_02x b) = true.
Proof.
  apply (u8_forall (fun b => chars_in HEX_CHARS (fmt_02x b) = true) (fun b => chars_in HEX_CHARS (fmt_02x b)));
    [done|]. vm_compute. reflexivity.
Qed.

Lemma is_digit_dec (c : ascii) : is_digit c = true -> Replace.char_in c DEC_CHARS = true.
Proof.
  assert (Hall : forallb (fun n => implb (is_digit (ascii_of_nat n)) (Replace.char_in (ascii_of_nat n) DEC_CHARS))
                   (seq 0 256) = true) by (vm_compute; reflexivity).
  rewrite forallb_forall in Hall. intros Hc.
  specialize (Hall (nat_of_ascii c)). rewrite ascii_nat_embedding, Hc in Hall.
  apply Hall, in_seq. pose proof (nat_ascii_bounded c). lia.
Qed.

Lemma fmt_dec_chars (n : Z) : chars_in DEC_CHARS (fmt_dec n) = true.
Proof.
  pose proof (fmt_dec_digits n) as H. unfold chars_in. rewrite forallb_forall in *.
  intros c Hc. by apply is_digit_dec, H.
Qed.

End Fmt.
