(* ===== verification/NetConfig.v ===== *)
(** * The guest network identity: [GuestNetworkConfig] and [COUNTER]

    Models src/src/integration.rs lines 31-60: the process-wide
    [static COUNTER: AtomicUsize] (initial value 6), the conversion
    [COUNTER.fetch_add(1, Ordering::SeqCst) as u8] of [test_boot]
    (line 345), and [GuestNetworkConfig::new], which draws six random bytes,
    overwrites the first with [0x2e] and prints the MAC, the two addresses
    of the test's /24 and the tap name.  The random bytes are an argument
    of [new]: every theorem holds for all of them. *)

From S2P Require Import Prelude RustStr.
From Stdlib Require Import Lia.
Import RustStr.Fmt.

Module NetConfig.

Record GuestNetworkConfig := mkGuestNetworkConfig {
  guest_ip : string;
  host_ip : string;
  guest_mac : string;
  tap_name : string;
}.

(** [m[i]] on a [[u8; 6]]: the index is always in range for the six
    indices the code uses. *)
Definition byte_at (m : list Z) (i : nat) : Z := default 0%Z (m !! i).

(** [format!("{:02x}:{:02x}:{:02x}:{:02x}:{:02x}:{:02x}", m[0], .., m[5])] *)
Definition fmt_mac (m : list Z) : string :=
  fmt_02x (byte_at m 0) ++ ":" ++ fmt_02x (byte_at m 1) ++ ":" ++
  fmt_02x (byte_at m 2) ++ ":" ++ fmt_02x (byte_at m 3) ++ ":" ++
  fmt_02x (byte_at m 4) ++ ":" ++ fmt_02x (byte_at m 5).

(** The locally administered first octet the code forces. *)
Definition LAA_OCTET : Z := 0x2e%Z.

(** [GuestNetworkConfig::new(counter)], the random array [rand] being
    [rand::thread_rng().gen::<[u8; 6]>()]. *)
Definition new (counter : Z) (rand : list Z) : GuestNetworkConfig :=
  let m := <[0%nat := LAA_OCTET]> rand in
  {| guest_mac := fmt_mac m;
     host_ip := "192.168." ++ fmt_dec counter ++ ".1";
     guest_ip := "192.168." ++ fmt_dec counter ++ ".2";
     tap_name := "fwtap" ++ fmt_dec counter |}.

(** [static COUNTER: AtomicUsize = AtomicUsize::new(6)]. *)
Definition COUNTER_INIT : Z := 6%Z.

(** [AtomicUsize::fetch_add]: returns the old value and stores the sum,
    wrapping at [2^64]. *)
Definition fetch_add (delta counter : Z) : Z * Z :=
  (counter, wrap 64 (counter + delta)).

(** [x as u8]: truncation to the low eight bits. *)
Definition as_u8 (x : Z) : Z := wrap 8 x.

(** The [u8] counters that [n] successive [test_boot]s of one process
    obtain, starting from the counter value [c]. *)
Fixpoint draws (n : nat) (c : Z) : list Z :=
  match n with
  | O => []
  | S n' => let '(old, c') := fetch_add 1 c in as_u8 old :: draws n' c'
  end.

(** The kernel's [IFNAMSIZ]: an interface name has at most
    [IFNAMSIZ - 1] bytes. *)
Definition IFNAMSIZ : nat := 16.

(** ** Decoding, for the statements *)

Definition parse_mac (s : string) : option (list Z) :=
  mapM parse_02x (split_on ":" s).

(** A dotted-quad IPv4 address, as [ip addr add], cloud-hypervisor's
    [--net ip=] and the SSH client's [SocketAddr] parse it: four decimal
    bytes. *)
Definition parse_ipv4 (s : string) : option (list Z) :=
  match mapM parse_dec (split_on "." s) with
  | Some ps => if (Nat.eqb (List.length ps) 4 && forallb (fun b => b <? 256) ps)%Z then Some ps else None
  | None => None
  end.

(** A [[u8; n]]: [n] values in [0, 256). *)
Definition is_u8_array (n : nat) (m : list Z) : Prop :=
  List.length m = n /\ Forall (fun b => (0 <= b < 256)%Z) m.

(** ** Lemmas *)

Lemma split_on_byte (b : Z) (r : string) :
  (0 <= b < 256)%Z ->
  split_on ":" (fmt_02x b ++ String ":" r) = fmt_02x b :: split_on ":" r.
Proof.
  intros Hb. destruct (fmt_02x_shape b Hb) as (h & l & -> & Hh & Hl).
  rewrite !str_app_cons, str_app_nil_l. cbn [split_on].
  rewrite (proj2 (Ascii.eqb_neq _ _) Hh), (proj2 (Ascii.eqb_neq _ _) Hl).
  by rewrite Ascii.eqb_refl.
Qed.

Lemma split_on_last (b : Z) :
  (0 <= b < 256)%Z -> split_on ":" (fmt_02x b) = [fmt_02x b].
Proof.
  intros Hb. destruct (fmt_02x_shape b Hb) as (h & l & -> & Hh & Hl).
  cbn [split_on].
  by rewrite (proj2 (Ascii.eqb_neq _ _) Hh), (proj2 (Ascii.eqb_neq _ _) Hl).
Qed.

Lemma is_u8_array_insert (n : nat) (m : list Z) (i : nat) (b : Z) :
  (0 <= b < 256)%Z -> is_u8_array n m -> is_u8_array n (<[i := b]> m).
Proof.
  intros Hb [Hl Hf]. split; [by rewrite length_insert|].
  by apply Forall_insert.
Qed.

Lemma as_u8_range (x : Z) : (0 <= as_u8 x < 256)%Z.
Proof. apply (wrap_range 8). lia. Qed.

Lemma new_counter_fields (c1 c2 : Z) (r1 r2 : list Z) :
  (0 <= c1)%Z -> (0 <= c2)%Z ->
  (tap_name (new c1 r1) = tap_name (new c2 r2) \/
   host_ip (new c1 r1) = host_ip (new c2 r2) \/
   guest_ip (new c1 r1) = guest_ip (new c2 r2)) -> c1 = c2.
Proof.
  intros H1 H2 Heq. apply fmt_dec_inj; [done|done|]. simpl in Heq.
  destruct Heq as [H|[H|H]]; apply str_app_inv_l in H; [done| |];
    by apply str_app_inv_r in H.
Qed.

Lemma length_draws (n : nat) (c : Z) : List.length (draws n c) = n.
Proof. revert c. induction n; intros c; simpl; [done|by rewrite IHn]. Qed.

Lemma draws_lookup (n : nat) (c : Z) (k : nat) :
  (0 <= c)%Z -> (c + Z.of_nat n < 2 ^ 64)%Z -> k < n ->
  draws n c !! k = Some (as_u8 (c + Z.of_nat k)).
Proof.
  revert c k. induction n as [|n IH]; intros c k Hc Hn Hk; [lia|].
  cbn [draws fetch_add]. rewrite (wrap_small 64) by lia.
  destruct k as [|k]; cbn [lookup list_lookup].
  - by rewrite Z.add_0_r.
  - rewrite IH by lia. do 2 f_equal. lia.
Qed.

Lemma byte_at_range (n : nat) (m : list Z) (i : nat) :
  is_u8_array n m -> (0 <= byte_at m i < 256)%Z.
Proof.
  intros [_ Hf]. unfold byte_at. destruct (m !! i) eqn:E; cbn; [|lia].
  by eapply Forall_lookup_1 in E; [|exact Hf].
Qed.

(** The characters of the generated names. *)
Definition MAC_CHARS : string := HEX_CHARS ++ ":".
Definition TAP_CHARS : string := "fwtap" ++ DEC_CHARS.
Definition IP_CHARS : string := DEC_CHARS ++ ".".

Lemma fmt_mac_chars (m : list Z) : is_u8_array 6 m -> chars_in MAC_CHARS (fmt_mac m) = true.
Proof.
  intros Hm. unfold fmt_mac. rewrite !chars_in_app.
  assert (Hb : forall i, chars_in MAC_CHARS (fmt_02x (byte_at m i)) = true).
  { intros i. apply (chars_in_sub HEX_CHARS); [vm_compute; reflexivity|]. apply fmt_02x_hex.
    by eapply byte_at_range. }
  rewrite !Hb. reflexivity.
Qed.

Lemma new_chars (c : Z) (r : list Z) :
  is_u8_array 6 r ->
  chars_in MAC_CHARS (guest_mac (new c r)) = true /\ chars_in TAP_CHARS (tap_name (new c r)) = true /\
  chars_in IP_CHARS (host_ip (new c r)) = true /\ chars_in IP_CHARS (guest_ip (new c r)) = true.
Proof.
  intros Hr. cbn [new guest_mac tap_name host_ip guest_ip].
  assert (Hd : forall a, forallb (fun n => implb (Replace.char_in (ascii_of_nat n) DEC_CHARS)
                                  (Replace.char_in (ascii_of_nat n) a)) (seq 0 256) = true ->
                 chars_in a (fmt_dec c) = true)
    by (intros a Ha; eapply chars_in_sub; [exact Ha|apply fmt_dec_chars]).
  split_and!.
  - apply fmt_mac_chars. apply is_u8_array_insert; [unfold LAA_OCTET; lia|done].
  - rewrite chars_in_app, Hd; [reflexivity|vm_compute; reflexivity].
  - rewrite !chars_in_app, Hd; [reflexivity|vm_compute; reflexivity].
  - rewrite !chars_in_app, Hd; [reflexivity|vm_compute; reflexivity].
Qed.

(** A well-formed identity for the shell commands built from it: tap name
    and host address are single words. *)
Definition net_wf (net : GuestNetworkConfig) : Prop :=
  (" "%char ∉ str_chars (tap_name net)) /\ (" "%char ∉ str_chars (host_ip net)) /\
  (" "%char ∉ str_chars (guest_ip net)) /\ tap_name net <> "".

Lemma fmt_dec_not_char (c : ascii) (n : Z) : is_digit c = false -> c ∉ str_chars (fmt_dec n).
Proof.
  intros Hc Hin. pose proof (fmt_dec_digits n) as H. rewrite forallb_forall in H.
  apply list_elem_of_In, H in Hin. congruence.
Qed.

Lemma fmt_dec_no_space (n : Z) : " "%char ∉ str_chars (fmt_dec n).
Proof. by apply fmt_dec_not_char. Qed.

(** The address [192.168.<c>.<x>] of the test's /24. *)
Lemma parse_subnet (c v : Z) (x : string) :
  (0 <= c < 256)%Z -> "."%char ∉ str_chars x -> parse_dec x = Some v -> (v < 256)%Z ->
  parse_ipv4 ("192.168." ++ fmt_dec c ++ "." ++ x) = Some [192; 168; c; v]%Z.
Proof.
  intros Hc Hx Hv Hv'.
  change ("192.168." ++ fmt_dec c ++ "." ++ x)
    with ("192" ++ String "." ("168" ++ String "." (fmt_dec c ++ String "." x))).
  unfold parse_ipv4. rewrite !split_on_app_sep, split_on_nosep;
    [|done|by apply fmt_dec_not_char|apply char_notin_lit; reflexivity..].
  cbn [mapM]. rewrite parse_fmt_dec, Hv by lia. cbn.
  rewrite (proj2 (Z.ltb_lt c 256)), (proj2 (Z.ltb_lt v 256)) by lia. reflexivity.
Qed.

Lemma new_wf (c : Z) (r : list Z) : net_wf (new c r).
Proof.
  split_and!; cbn [tap_name host_ip guest_ip new]; [..|done];
    rewrite !str_chars_app; intros Hin;
    repeat match goal with H : _ ∈ (_ ++ _)%list |- _ => apply elem_of_app in H as [H|H] end;
    try (by apply fmt_dec_no_space in Hin);
    apply list_elem_of_In in Hin; simpl in Hin; intuition discriminate.
Qed.

(** ** Theorems *)

(** The MAC text decodes to the six bytes it was printed from. *)
Theorem parse_fmt_mac (m : list Z) : is_u8_array 6 m -> parse_mac (fmt_mac m) = Some m.
Proof.
  intros [Hl Hf].
  destruct m as [|b0 [|b1 [|b2 [|b3 [|b4 [|b5 [|]]]]]]]; try discriminate.
  repeat match goal with H : Forall _ (_ :: _) |- _ => inversion_clear H end.
  unfold parse_mac, fmt_mac, byte_at. cbn [lookup list_lookup default].
  rewrite ?str_app_cons, ?str_app_nil_l.
  rewrite !split_on_byte, split_on_last by done.
  cbn [mapM]. rewrite !parse_fmt_02x by done. reflexivity.
Qed.

(** C11: The MAC of every generated configuration decodes to [0x2e] followed
    by the last five random bytes, and its first octet has the locally
    administered bit (bit 1) set and the multicast bit (bit 0) clear. *)
Theorem new_mac_locally_administered (c : Z) (rand : list Z) :
  is_u8_array 6 rand ->
  exists b0, parse_mac (guest_mac (new c rand)) = Some (b0 :: drop 1 rand) /\
    b0 = LAA_OCTET /\ Z.testbit b0 1 = true /\ Z.testbit b0 0 = false.
Proof.
  intros Hr. exists LAA_OCTET. split; [|done].
  simpl. rewrite parse_fmt_mac.
  - destruct Hr as [Hl _]. by destruct rand.
  - apply is_u8_array_insert; [unfold LAA_OCTET; lia|done].
Qed.

(** C19: Two tests get the same tap name, and the same host and guest
    addresses, exactly when their [COUNTER] values agree modulo 256. *)
Theorem new_collision_iff (c1 c2 : Z) (r1 r2 : list Z) :
  let n1 := new (as_u8 c1) r1 in
  let n2 := new (as_u8 c2) r2 in
  (tap_name n1 = tap_name n2 <-> (c1 mod 256 = c2 mod 256)%Z) /\
  (host_ip n1 = host_ip n2 <-> (c1 mod 256 = c2 mod 256)%Z) /\
  (guest_ip n1 = guest_ip n2 <-> (c1 mod 256 = c2 mod 256)%Z).
Proof.
  cbv zeta. pose proof (as_u8_range c1) as R1. pose proof (as_u8_range c2) as R2.
  assert (Hc : as_u8 c1 = as_u8 c2 <-> (c1 mod 256 = c2 mod 256)%Z) by done.
  split_and!; rewrite <- Hc; split; intros Heq;
    solve [apply (new_counter_fields _ _ r1 r2); [lia|lia|auto] | by rewrite Heq].
Qed.

(** C24: The tap name of a [u8] counter has at most eight bytes, within the
    kernel's interface-name limit. *)
Theorem tap_name_fits (c : Z) (r : list Z) :
  (0 <= c < 256)%Z ->
  String.length (tap_name (new c r)) <= 8 /\ String.length (tap_name (new c r)) < IFNAMSIZ.
Proof.
  intros Hc. cut (String.length ("fwtap" ++ fmt_dec c) <= 8);
    [intros H; unfold IFNAMSIZ; cbn [tap_name new]; lia|].
  revert c Hc.
  apply (u8_forall _ (fun c => Nat.leb (String.length ("fwtap" ++ fmt_dec c)) 8)).
  - intros c H. by apply Nat.leb_le.
  - vm_compute. reflexivity.
Qed.

(** C25: The identity of every test has the shape its consumers parse:
    for each [u8] counter [c], whatever the random bytes, the host and
    guest addresses are the IPv4 addresses [192.168.c.1] and
    [192.168.c.2], two hosts of the one /24 that [ip addr add .../24] and
    the VMM's netmask [255.255.255.0] set up. *)
Theorem new_addresses_ipv4 (c : Z) (r : list Z) :
  parse_ipv4 (host_ip (new (as_u8 c) r)) = Some [192; 168; as_u8 c; 1]%Z /\
  parse_ipv4 (guest_ip (new (as_u8 c) r)) = Some [192; 168; as_u8 c; 2]%Z.
Proof. split; apply parse_subnet; solve [apply as_u8_range | apply char_notin_lit; reflexivity | done]. Qed.

(** C12: Among the first 256 tests of a process, no two get the same tap name
    (nor, by the collision theorem above, the same addresses). *)
Theorem draws_tap_names_distinct (n i j : nat) (ci cj : Z) (ri rj : list Z) :
  n <= 256 -> i <> j ->
  draws n COUNTER_INIT !! i = Some ci -> draws n COUNTER_INIT !! j = Some cj ->
  tap_name (new ci ri) <> tap_name (new cj rj).
Proof.
  intros Hn Hij Hi Hj Heq.
  pose proof (lookup_lt_Some _ _ _ Hi) as Li. pose proof (lookup_lt_Some _ _ _ Hj) as Lj.
  rewrite length_draws in Li, Lj.
  rewrite draws_lookup in Hi, Hj by (unfold COUNTER_INIT; lia).
  injection Hi as <-. injection Hj as <-.
  assert (Hc : as_u8 (COUNTER_INIT + Z.of_nat i) = as_u8 (COUNTER_INIT + Z.of_nat j)).
  { apply (new_counter_fields _ _ ri rj); [apply as_u8_range|apply as_u8_range|by left]. }
  unfold as_u8, wrap, COUNTER_INIT in Hc. apply Hij.
  apply Nat2Z.inj. change (2 ^ 8)%Z with 256%Z in Hc.
  Z.div_mod_to_equations. lia.
Qed.

(** ** Witnesses *)

Definition sample_rand : list Z := [0xab; 0x01; 0x23; 0x45; 0x67; 0x89]%Z.

Lemma sample_rand_ok : is_u8_array 6 sample_rand.
Proof. split; [reflexivity|repeat constructor; lia]. Qed.

Lemma new_mac_locally_administered_witness :
  is_u8_array 6 sample_rand /\
  exists b0, parse_mac (guest_mac (new 7 sample_rand)) = Some (b0 :: drop 1 sample_rand) /\
    b0 = LAA_OCTET /\ Z.testbit b0 1 = true /\ Z.testbit b0 0 = false.
Proof.
  split; [exact sample_rand_ok|].
  apply (new_mac_locally_administered 7 sample_rand sample_rand_ok).
Defined.

Lemma tap_name_fits_witness :
  (0 <= 255 < 256)%Z /\
  String.length (tap_name (new 255 sample_rand)) <= 8 /\
  String.length (tap_name (new 255 sample_rand)) < IFNAMSIZ.
Proof. split; [lia|]. apply (tap_name_fits 255 sample_rand). lia. Defined.

Lemma draws_tap_names_distinct_witness :
  draws 5 COUNTER_INIT !! 0 = Some 6%Z /\ draws 5 COUNTER_INIT !! 4 = Some 10%Z /\
  tap_name (new 6 sample_rand) <> tap_name (new 10 sample_rand).
Proof.
  split; [reflexivity|]. split; [reflexivity|].
  apply (draws_tap_names_distinct 5 0 4); [lia|lia|reflexivity|reflexivity].
Defined.

End NetConfig.
