(* ===== verification/Ssh.v ===== *)
(** * The readiness prober: [ssh_command]

    Models src/src/integration.rs lines 228-281.  [SSHCommandError] is an
    inductive type with the source's constructors.  The library calls the
    closure makes ([TcpStream::connect], [ssh2::Session]'s [handshake],
    [userauth_password], [authenticated], [channel_session], and the
    channel's [exec], [read_to_string], [close], [wait_close]) and
    [thread::sleep] form the interface [SshLib] over an abstract host state
    [S]: the loop's theorems hold for every implementation of it.  The
    session and channel handles are implicit in that state (one session per
    attempt); [set_tcp_stream] has no effect that can fail and is not a
    separate operation.

    The loop counter is a [u8] (it is compared with the [u8] constant
    [DEFAULT_SSH_RETRIES]), and so is [timeout * counter]: both are
    [checked] at 8 bits, as a debug build (the one [cargo test] runs)
    panics on overflow.  The loop is a [Fixpoint] with fuel; the fuel
    [ssh_command] gives, [DEFAULT_SSH_RETRIES], is shown to be enough. *)

From S2P Require Import Prelude.
From Stdlib Require Import Lia.

Module Ssh.

Inductive io_error := IoError (kind : string).
Inductive ssh2_error := Ssh2Error (code : Z) (msg : string).

(** [enum SSHCommandError] *)
Inductive SSHCommandError :=
| Connection (e : io_error)
| Handshake (e : ssh2_error)
| Authentication (e : ssh2_error)
| ChannelSession (e : ssh2_error)
| Command (e : ssh2_error).

(** What one attempt of the closure asks of the libraries. *)
Class SshLib (State : Type) := {
  tcp_connect : string -> ST State (result unit io_error);
  session_new : ST State (option unit);
  handshake : ST State (result unit ssh2_error);
  userauth_password : string -> string -> ST State (result unit ssh2_error);
  authenticated : ST State bool;
  channel_session : ST State (result unit ssh2_error);
  channel_exec : string -> ST State (result unit ssh2_error);
  (** the text read; it is appended even when the read then fails *)
  channel_read_to_string : ST State (string * result nat io_error);
  channel_close : ST State (result unit ssh2_error);
  channel_wait_close : ST State (result unit ssh2_error);
  thread_sleep : Z -> ST State unit;
}.

Section Prober.
Context {State : Type} `{SshLib State}.

(** [e?] after [.map_err(f)]: an error leaves the closure at once. *)
Definition try_map {A B E F : Type} (m : ST State (result A E)) (f : E -> F)
    (k : A -> ST State (result B F)) : ST State (result B F) :=
  r ← m;
  match r with
  | Ok a => k a
  | Err e => mret (Err (f e))
  end.

(** The closure of one attempt (lines 247-269).  [s] is the [String] it
    captures by reference; a successful attempt returns it with the
    channel's output appended. *)
Definition ssh_attempt (ip command s : string) : ST State (result string SSHCommandError) :=
  try_map (tcp_connect (ip ++ ":22")) Connection (fun _ =>
  sess ← session_new;
  unwrap_option sess;;
  try_map handshake Handshake (fun _ =>
  try_map (userauth_password "cloud" "cloud123") Authentication (fun _ =>
  a ← authenticated;
  assert_true "assertion failed: sess.authenticated()" a;;
  try_map channel_session ChannelSession (fun _ =>
  try_map (channel_exec command) Command (fun _ =>
  '(out, _) ← channel_read_to_string;
  channel_close;;
  channel_wait_close;;
  mret (Ok (s ++ out))))))).

Definition DEFAULT_SSH_RETRIES : Z := 6.
Definition DEFAULT_SSH_TIMEOUT : Z := 10.

(** The [loop] of lines 246-279, from the value [counter] of the attempt
    counter on. *)
Fixpoint ssh_loop (fuel : nat) (ip command : string) (retries timeout counter : Z)
    (s : string) : ST State (result string SSHCommandError) :=
  match fuel with
  | O => panic "ssh_command: iteration bound reached"
  | S fuel' =>
      r ← ssh_attempt ip command s;
      match r with
      | Ok s' => mret (Ok s')
      | Err e =>
          counter' ← checked 8 "add" (counter + 1);
          if (retries <=? counter')%Z then mret (Err e)
          else
            secs ← checked 8 "multiply" (timeout * counter');
            thread_sleep secs;;
            ssh_loop fuel' ip command retries timeout counter' s
      end
  end.

(** [ssh_command(ip, command)]. *)
Definition ssh_command (ip command : string) : ST State (result string SSHCommandError) :=
  ssh_loop (Z.to_nat DEFAULT_SSH_RETRIES) ip command
    DEFAULT_SSH_RETRIES DEFAULT_SSH_TIMEOUT 0 "".

(** ** The contract: a bounded retry with linear backoff

    What the loop is meant to be (the spec's retry combinator): run [op];
    on an error, if [n] more attempts remain, sleep [base * k] after the
    [k]-th failed attempt and retry, else return that error. *)
Fixpoint retry_linear {A E : Type} (n : nat) (k base : Z) (op : ST State (result A E))
    : ST State (result A E) :=
  r ← op;
  match r with
  | Ok a => mret (Ok a)
  | Err e =>
      match n with
      | O => mret (Err e)
      | S n' => thread_sleep (base * k);; retry_linear n' (k + 1) base op
      end
  end.

(** ** Lemmas *)

Lemma run_try_map {A B E F : Type} (m : ST State (result A E)) (f : E -> F)
    (k : A -> ST State (result B F)) (st : State) :
  try_map m f k st =
  match m st with
  | (Normal (Ok a), st') => k a st'
  | (Normal (Err e), st') => (Normal (Err (f e)), st')
  | (Panic msg, st') => (Panic msg, st')
  end.
Proof. unfold try_map. rewrite run_bind. by destruct (m st) as [[[a|e]|msg] st']. Qed.

Lemma retry_linear_unfold {A E : Type} (n : nat) (k base : Z) (op : ST State (result A E)) :
  retry_linear n k base op =
  (r ← op;
   match r with
   | Ok a => mret (Ok a)
   | Err e =>
       match n with
       | O => mret (Err e)
       | S n' => thread_sleep (base * k);; retry_linear n' (k + 1) base op
       end
   end).
Proof. by destruct n. Qed.

(** One round of the loop at counter [counter < 6] is one round of the
    retry combinator with [5 - counter] retries left. *)
Lemma ssh_loop_retry (fuel : nat) (ip command s : string) (counter : Z) (st : State) :
  (0 <= counter < DEFAULT_SSH_RETRIES)%Z ->
  Z.to_nat (DEFAULT_SSH_RETRIES - counter) <= fuel ->
  ssh_loop fuel ip command DEFAULT_SSH_RETRIES DEFAULT_SSH_TIMEOUT counter s st =
  retry_linear (Z.to_nat (DEFAULT_SSH_RETRIES - 1 - counter)) (counter + 1)
    DEFAULT_SSH_TIMEOUT (ssh_attempt ip command s) st.
Proof.
  unfold DEFAULT_SSH_RETRIES, DEFAULT_SSH_TIMEOUT.
  revert counter st. induction fuel as [|fuel IH]; intros counter st Hc Hf; [lia|].
  cbn [ssh_loop]. rewrite retry_linear_unfold, !run_bind.
  destruct (ssh_attempt ip command s st) as [[[s'|e]|msg] st']; [done| |done].
  rewrite run_bind, run_checked_ok by lia.
  destruct (Z.leb_spec 6 (counter + 1)) as [Hle|Hlt].
  - by replace (Z.to_nat (6 - 1 - counter)) with 0 by lia.
  - replace (Z.to_nat (6 - 1 - counter)) with (S (Z.to_nat (6 - 1 - (counter + 1)))) by lia.
    rewrite run_bind, run_checked_ok by lia. rewrite !run_bind.
    destruct (thread_sleep (10 * (counter + 1)) st') as [[[]|msg] st''];
      [|done].
    rewrite IH; [done|lia|lia].
Qed.

(** ** Theorems *)

(** C10: [ssh_command] is the bounded retry with linear backoff: at most
    [DEFAULT_SSH_RETRIES] = 6 attempts, a sleep of [10 * k] seconds after
    the [k]-th failed attempt when another follows, the first successful
    attempt's output, else the error of the sixth attempt; and none of its
    [u8] operations overflows.  It holds for every implementation of the
    libraries and every host state. *)
Theorem ssh_command_refines_retry (ip command : string) (st : State) :
  ssh_command ip command st =
  retry_linear 5 1 DEFAULT_SSH_TIMEOUT (ssh_attempt ip command "") st.
Proof. unfold ssh_command. rewrite ssh_loop_retry; [done|unfold DEFAULT_SSH_RETRIES; lia|done]. Qed.

(** C23: The fuel [ssh_command] gives its loop is enough: any larger
    bound gives the same result, so the bound is never what ends the loop. *)
Theorem ssh_command_fuel_enough (fuel : nat) (ip command : string) (st : State) :
  Z.to_nat DEFAULT_SSH_RETRIES <= fuel ->
  ssh_loop fuel ip command DEFAULT_SSH_RETRIES DEFAULT_SSH_TIMEOUT 0 "" st =
  ssh_command ip command st.
Proof.
  intros Hf. unfold ssh_command.
  rewrite !ssh_loop_retry; [done|unfold DEFAULT_SSH_RETRIES in *; lia..].
Qed.

End Prober.

End Ssh.

(** * A guest's SSH service on a clock

    An implementation of [SshLib]: the guest answers the attempt made at
    time [t] as [ns_reply t] says (nothing listening yet, a failing phase,
    or serving the command's output), only at its address [ns_addr]; the
    clock advances only by [thread_sleep] (an attempt takes no time); every
    connection, command and sleep is logged. *)
Module GuestSsh.
Import Ssh.

Inductive sshd_reply :=
| Refuse (e : io_error)
| BadHandshake (e : ssh2_error)
| RejectLogin (e : ssh2_error)
| NoAuth
| NoChannel (e : ssh2_error)
| NoExec (e : ssh2_error)
| Serve (out : string).

Inductive ssh_event :=
| EvConnect (addr : string) (t : Z)
| EvExec (command : string)
| EvSleep (secs : Z).

Record net_state := mkNet {
  ns_clock : Z;
  ns_addr : string;
  ns_reply : Z -> sshd_reply;
  ns_cur : sshd_reply;
  ns_log : list ssh_event;
}.

Definition ns_set (cur : sshd_reply) (ev : list ssh_event) (dt : Z) (st : net_state) : net_state :=
  mkNet (ns_clock st + dt) (ns_addr st) (ns_reply st) cur (ns_log st ++ ev).

Definition ns_fail {A : Type} (f : sshd_reply -> option A) : ST net_state (result unit A) :=
  fun st => (Normal (match f (ns_cur st) with Some e => Err e | None => Ok tt end), st).

#[export] Instance guest_ssh_lib : SshLib net_state := {
  tcp_connect addr := fun st =>
    let r := if String.eqb addr (ns_addr st) then ns_reply st (ns_clock st)
             else Refuse (IoError "no route to host") in
    (Normal (match r with Refuse e => Err e | _ => Ok tt end),
     ns_set r [EvConnect addr (ns_clock st)] 0 st);
  session_new := mret (Some tt);
  handshake := ns_fail (fun r => match r with BadHandshake e => Some e | _ => None end);
  userauth_password _ _ := ns_fail (fun r => match r with RejectLogin e => Some e | _ => None end);
  authenticated := fun st => (Normal (match ns_cur st with NoAuth => false | _ => true end), st);
  channel_session := ns_fail (fun r => match r with NoChannel e => Some e | _ => None end);
  channel_exec command := fun st =>
    ns_fail (fun r => match r with NoExec e => Some e | _ => None end)
      (ns_set (ns_cur st) [EvExec command] 0 st);
  channel_read_to_string := fun st =>
    match ns_cur st with
    | Serve out => (Normal (out, Ok (String.length out)), st)
    | _ => (Normal (EmptyString, Ok 0), st)
    end;
  channel_close := mret (Ok tt);
  channel_wait_close := mret (Ok tt);
  thread_sleep secs := fun st => (Normal tt, ns_set (ns_cur st) [EvSleep secs] secs st);
}.

(** The sum [k + (k+1) + .. + (k+n-1)] of the backoff factors of [n]
    sleeps from the [k]-th failed attempt on. *)
Fixpoint backoff_total (n : nat) (k : Z) : Z :=
  match n with
  | O => 0
  | S n' => k + backoff_total n' (k + 1)
  end.

(** The log of attempts that all fail at the connection, from the [k]-th
    on, [n] of them followed by a sleep, the last one not. *)
Fixpoint refused_log (addr : string) (t : Z) (n : nat) (k : Z) : list ssh_event :=
  match n with
  | O => [EvConnect addr t]
  | S n' => EvConnect addr t :: EvSleep (10 * k) :: refused_log addr (t + 10 * k) n' (k + 1)
  end.

Section Runs.
Context (ip command : string).

Lemma attempt_refused (st : net_state) (e : io_error) :
  ns_addr st = ip ++ ":22" -> ns_reply st (ns_clock st) = Refuse e ->
  ssh_attempt ip command "" st =
  (Normal (Err (Connection e)), ns_set (Refuse e) [EvConnect (ip ++ ":22") (ns_clock st)] 0 st).
Proof.
  intros Ha Hr. unfold ssh_attempt. rewrite run_try_map. cbn [tcp_connect guest_ssh_lib].
  rewrite Ha, String.eqb_refl, Hr. done.
Qed.

Lemma attempt_served (st : net_state) (out : string) :
  ns_addr st = ip ++ ":22" -> ns_reply st (ns_clock st) = Serve out ->
  ssh_attempt ip command "" st =
  (Normal (Ok out),
   ns_set (Serve out) [EvExec command] 0 (ns_set (Serve out) [EvConnect (ip ++ ":22") (ns_clock st)] 0 st)).
Proof.
  intros Ha Hr. unfold ssh_attempt. rewrite run_try_map. cbn [tcp_connect guest_ssh_lib].
  rewrite Ha, String.eqb_refl, Hr. done.
Qed.

Lemma ns_set_clock (cur : sshd_reply) (ev : list ssh_event) (dt : Z) (st : net_state) :
  ns_clock (ns_set cur ev dt st) = (ns_clock st + dt)%Z.
Proof. done. Qed.

Lemma ssh_command_retry (st : net_state) :
  ssh_command ip command st = retry_linear 5 1 DEFAULT_SSH_TIMEOUT (ssh_attempt ip command "") st.
Proof. unfold ssh_command. rewrite ssh_loop_retry; [done|unfold DEFAULT_SSH_RETRIES; lia|done]. Qed.

Lemma retry_all_refused (n : nat) (k : Z) (st : net_state) (e : io_error) :
  ns_addr st = ip ++ ":22" -> (forall t, ns_reply st t = Refuse e) ->
  exists cur, retry_linear n k DEFAULT_SSH_TIMEOUT (ssh_attempt ip command "") st =
  (Normal (Err (Connection e)),
   mkNet (ns_clock st + 10 * backoff_total n k) (ns_addr st) (ns_reply st) cur
     (ns_log st ++ refused_log (ip ++ ":22") (ns_clock st) n k)).
Proof.
  revert k st. induction n as [|n IH]; intros k st Ha Hr;
    rewrite retry_linear_unfold, run_bind, (attempt_refused _ e) by done.
  - exists (Refuse e). simpl. do 3 f_equal; lia.
  - rewrite run_bind. cbn [thread_sleep guest_ssh_lib].
    lazymatch goal with
    | |- exists _, retry_linear _ _ _ _ ?s2 = _ => destruct (IH (k + 1)%Z s2) as [cur Hcur]; [done|done|]
    end.
    exists cur. unfold DEFAULT_SSH_TIMEOUT in *. rewrite Hcur. cbn.
    rewrite Z.add_0_r. f_equal. f_equal; [lia|]. by rewrite <- !app_assoc.
Qed.

Lemma retry_ready (n : nat) (k T : Z) (out : string) (st : net_state) :
  ns_addr st = ip ++ ":22" ->
  (forall t, (t < T)%Z -> exists e, ns_reply st t = Refuse e) ->
  (forall t, (T <= t)%Z -> ns_reply st t = Serve out) ->
  (T <= ns_clock st + 10 * backoff_total n k)%Z ->
  exists st', retry_linear n k DEFAULT_SSH_TIMEOUT (ssh_attempt ip command "") st =
  (Normal (Ok out), st').
Proof.
  revert k st. induction n as [|n IH]; intros k st Ha Hb Hs HT;
    rewrite retry_linear_unfold, run_bind;
    destruct (Z.lt_ge_cases (ns_clock st) T) as [Hlt|Hge];
    try (rewrite (attempt_served _ out) by (done || apply Hs; lia); by eexists).
  - simpl in HT. lia.
  - destruct (Hb _ Hlt) as [e He]. rewrite (attempt_refused _ e) by done.
    rewrite run_bind. cbn [thread_sleep guest_ssh_lib].
    apply IH; [done|done|done|]. simpl in HT |- *. unfold DEFAULT_SSH_TIMEOUT. lia.
Qed.

(** ** Theorems *)

(** C22: When the guest already serves logins at its address, [ssh_command]
    succeeds on the first attempt with the command's output, after one
    connection and one command, without sleeping. *)
Theorem ssh_command_first_attempt (st : net_state) (out : string) :
  ns_addr st = ip ++ ":22" -> ns_reply st (ns_clock st) = Serve out ->
  exists st', ssh_command ip command st = (Normal (Ok out), st') /\
    ns_clock st' = ns_clock st /\
    ns_log st' = (ns_log st ++ [EvConnect (ip ++ ":22") (ns_clock st); EvExec command])%list.
Proof.
  intros Ha Hr. rewrite ssh_command_retry, retry_linear_unfold, run_bind.
  rewrite (attempt_served _ out) by done. eexists. split; [done|].
  simpl. rewrite <- app_assoc. split; [lia|done].
Qed.

(** C18: When nothing ever listens at the guest's address, [ssh_command]
    makes exactly six connection attempts, sleeps 10, 20, 30, 40 and 50
    seconds between them (150 seconds in all), and returns the sixth
    attempt's [Connection] error. *)
Theorem ssh_command_exhausts (st : net_state) (e : io_error) :
  ns_addr st = ip ++ ":22" -> (forall t, ns_reply st t = Refuse e) ->
  exists st', ssh_command ip command st = (Normal (Err (Connection e)), st') /\
    ns_clock st' = (ns_clock st + 150)%Z /\
    ns_log st' = (ns_log st ++
      (let a := (ip ++ ":22")%string in let t := ns_clock st in
       [EvConnect a t; EvSleep 10; EvConnect a (t + 10); EvSleep 20;
        EvConnect a (t + 30); EvSleep 30; EvConnect a (t + 60); EvSleep 40;
        EvConnect a (t + 100); EvSleep 50; EvConnect a (t + 150)]%Z))%list.
Proof.
  intros Ha Hr. rewrite ssh_command_retry.
  destruct (retry_all_refused 5 1 st e Ha Hr) as [cur ->].
  eexists. split; [done|]. simpl. split; [lia|]. f_equal.
  rewrite <- !Z.add_assoc. reflexivity.
Qed.

(** C17: A guest whose SSH service comes up at time [T] (refusing before,
    serving after) is reached by [ssh_command] whenever [T] is at most 150
    seconds after the first attempt: the backoff schedule covers the whole
    window. *)
Theorem ssh_command_ready_in_window (st : net_state) (T : Z) (out : string) :
  ns_addr st = ip ++ ":22" ->
  (forall t, (t < T)%Z -> exists e, ns_reply st t = Refuse e) ->
  (forall t, (T <= t)%Z -> ns_reply st t = Serve out) ->
  (T <= ns_clock st + 150)%Z ->
  exists st', ssh_command ip command st = (Normal (Ok out), st').
Proof.
  intros Ha Hb Hs HT. rewrite ssh_command_retry.
  apply retry_ready with T; [done|done|done|]. simpl. lia.
Qed.

End Runs.

(** ** Witnesses *)

Definition guest_at (reply : Z -> sshd_reply) : net_state :=
  mkNet 20 "192.168.6.2:22" reply NoAuth [].

Definition boots_at_100 (t : Z) : sshd_reply :=
  if (t <? 100)%Z then Refuse (IoError "connection refused") else Serve "".

Lemma ssh_command_fuel_enough_witness :
  Z.to_nat DEFAULT_SSH_RETRIES <= 9 /\
  ssh_loop 9 "192.168.6.2" "sudo shutdown -h now" DEFAULT_SSH_RETRIES DEFAULT_SSH_TIMEOUT 0 ""
    (guest_at boots_at_100) =
  ssh_command "192.168.6.2" "sudo shutdown -h now" (guest_at boots_at_100).
Proof. split; [vm_compute; lia|]. apply ssh_command_fuel_enough. vm_compute. lia. Defined.

Lemma ssh_command_first_attempt_witness :
  ns_addr (guest_at (fun _ => Serve "bye")) = "192.168.6.2" ++ ":22" /\
  exists st', ssh_command "192.168.6.2" "sudo shutdown -h now" (guest_at (fun _ => Serve "bye")) =
    (Normal (Ok "bye"), st') /\
    ns_clock st' = ns_clock (guest_at (fun _ => Serve "bye")) /\
    ns_log st' = (ns_log (guest_at (fun _ => Serve "bye")) ++
      [EvConnect ("192.168.6.2" ++ ":22") (ns_clock (guest_at (fun _ => Serve "bye")));
       EvExec "sudo shutdown -h now"])%list.
Proof. split; [reflexivity|]. apply ssh_command_first_attempt; reflexivity. Defined.

Lemma ssh_command_exhausts_witness :
  exists st', ssh_command "192.168.6.2" "sudo shutdown -h now"
      (guest_at (fun _ => Refuse (IoError "no route to host"))) =
    (Normal (Err (Connection (IoError "no route to host"))), st') /\
    ns_clock st' = (20 + 150)%Z /\
    ns_log st' =
      (let a := ("192.168.6.2" ++ ":22")%string in let t := 20%Z in
       [EvConnect a t; EvSleep 10; EvConnect a (t + 10); EvSleep 20;
        EvConnect a (t + 30); EvSleep 30; EvConnect a (t + 60); EvSleep 40;
        EvConnect a (t + 100); EvSleep 50; EvConnect a (t + 150)]%Z).
Proof.
  apply (ssh_command_exhausts "192.168.6.2" "sudo shutdown -h now"
           (guest_at (fun _ => Refuse (IoError "no route to host"))) (IoError "no route to host"));
    reflexivity.
Defined.

Lemma ssh_command_ready_in_window_witness :
  (100 <= 20 + 150)%Z /\
  exists st', ssh_command "192.168.6.2" "sudo shutdown -h now" (guest_at boots_at_100) =
    (Normal (Ok ""), st').
Proof.
  split; [lia|].
  apply (ssh_command_ready_in_window "192.168.6.2" "sudo shutdown -h now" _ 100);
    [reflexivity| | |simpl; lia].
  - intros t Ht. exists (IoError "connection refused"). cbn. unfold boots_at_100.
    by rewrite (proj2 (Z.ltb_lt t 100) Ht).
  - intros t Ht. cbn. unfold boots_at_100. by rewrite (proj2 (Z.ltb_ge t 100) Ht).
Defined.

End GuestSsh.
