(* ===== verification/World.v ===== *)
(** * The host the harness runs on, as explicit state

    The harness acts on its host only through the standard library
    ([std::fs], [std::env], [std::process], [std::thread]) and the crates
    [tempdir], [dirs], [rand] and [ssh2].  [world] is that host: its
    filesystem ([gmap] from absolute path to node; a FAT image made by
    [mkdosfs] is a node holding its own files), the working and home
    directories, the tap interfaces, the child processes, the process-wide
    [COUNTER], the random sources, the guest network of [GuestSsh] (whose
    clock is the host's clock), and a log of what the harness asked of the
    operating system.  The operations below are the library calls of
    src/src/integration.rs, each with the failures it can report; what an
    external program does when run is the [Host] class, given by [Linux]. *)

From S2P Require Import Prelude RustStr Ssh.
From stdpp Require Import gmap.
From Stdlib Require Import Lia.

Module World.
Import Ssh GuestSsh.

(** [std::process::Command]: a program and its arguments. *)
Record Command := mkCommand { program : string; args : list string }.

(** [Command::new], [.arg], [.args]. *)
Definition command_new (p : string) : Command := mkCommand p [].
Definition command_arg (c : Command) (a : string) : Command :=
  mkCommand (program c) (args c ++ [a]).
Definition command_args (c : Command) (l : list string) : Command :=
  mkCommand (program c) (args c ++ l).

Inductive node :=
| NFile (contents : string)
| NDir
| NImage (label : string) (files : gmap string string).

Record tap := mkTap { tap_addrs : list string; tap_up : bool }.

Record proc := mkProc { proc_cmd : Command; proc_alive : bool; proc_reaped : bool }.

(** What the harness asked of the operating system, in order. *)
Inductive event :=
| EvRun (c : Command) (exit_code : Z)
| EvSpawn (pid : nat) (c : Command)
| EvKill (pid : nat)
| EvWait (pid : nat)
| EvStderr (line : string).

Record world := mkWorld {
  w_fs : gmap string node;
  w_cwd : string;
  w_home : option string;
  w_tmp_names : nat -> string;
  w_tmp_next : nat;
  w_rng : nat -> list Z;
  w_rng_next : nat;
  w_counter : Z;
  w_taps : gmap string tap;
  w_procs : gmap nat proc;
  w_next_pid : nat;
  w_net : net_state;
  w_log : list event;
}.

(** ** Updating one part of the world *)

Definition set_fs (f : gmap string node -> gmap string node) (w : world) : world :=
  mkWorld (f (w_fs w)) (w_cwd w) (w_home w) (w_tmp_names w) (w_tmp_next w) (w_rng w)
    (w_rng_next w) (w_counter w) (w_taps w) (w_procs w) (w_next_pid w) (w_net w) (w_log w).

Definition set_taps (f : gmap string tap -> gmap string tap) (w : world) : world :=
  mkWorld (w_fs w) (w_cwd w) (w_home w) (w_tmp_names w) (w_tmp_next w) (w_rng w)
    (w_rng_next w) (w_counter w) (f (w_taps w)) (w_procs w) (w_next_pid w) (w_net w) (w_log w).

Definition set_procs (f : gmap nat proc -> gmap nat proc) (next : nat) (w : world) : world :=
  mkWorld (w_fs w) (w_cwd w) (w_home w) (w_tmp_names w) (w_tmp_next w) (w_rng w)
    (w_rng_next w) (w_counter w) (w_taps w) (f (w_procs w)) next (w_net w) (w_log w).

Definition set_net (n : net_state) (w : world) : world :=
  mkWorld (w_fs w) (w_cwd w) (w_home w) (w_tmp_names w) (w_tmp_next w) (w_rng w)
    (w_rng_next w) (w_counter w) (w_taps w) (w_procs w) (w_next_pid w) n (w_log w).

Definition set_counter (c : Z) (w : world) : world :=
  mkWorld (w_fs w) (w_cwd w) (w_home w) (w_tmp_names w) (w_tmp_next w) (w_rng w)
    (w_rng_next w) c (w_taps w) (w_procs w) (w_next_pid w) (w_net w) (w_log w).

Definition next_tmp (w : world) : world :=
  mkWorld (w_fs w) (w_cwd w) (w_home w) (w_tmp_names w) (S (w_tmp_next w)) (w_rng w)
    (w_rng_next w) (w_counter w) (w_taps w) (w_procs w) (w_next_pid w) (w_net w) (w_log w).

Definition next_rng (w : world) : world :=
  mkWorld (w_fs w) (w_cwd w) (w_home w) (w_tmp_names w) (w_tmp_next w) (w_rng w)
    (S (w_rng_next w)) (w_counter w) (w_taps w) (w_procs w) (w_next_pid w) (w_net w) (w_log w).

Definition log_event (e : event) (w : world) : world :=
  mkWorld (w_fs w) (w_cwd w) (w_home w) (w_tmp_names w) (w_tmp_next w) (w_rng w)
    (w_rng_next w) (w_counter w) (w_taps w) (w_procs w) (w_next_pid w) (w_net w)
    (w_log w ++ [e]).

(** What running or starting an external program does to the host: the
    exit code and the new host, or [None] when the program cannot be
    started (not found). *)
Class Host := {
  host_run : Command -> world -> option (Z * world);
  host_spawn : Command -> world -> option world;
}.

Section Ops.
Context `{Host}.

Definition io_err (kind : string) : io_error := IoError kind.

(** [Path::join] with a relative component. *)
Definition path_join (p c : string) : string := p ++ "/" ++ c.

(** The directories on the way to [p], outermost first: the ones
    [fs::create_dir_all(p)] makes when missing. *)
Fixpoint dir_chain_go (acc s : string) : list string :=
  match s with
  | EmptyString => [acc]
  | String c s' =>
      if Ascii.eqb c "/" then
        (if String.eqb acc "" then [] else [acc]) ++ dir_chain_go (acc ++ "/") s'
      else dir_chain_go (acc ++ String c EmptyString) s'
  end.

Definition dir_chain (p : string) : list string := dir_chain_go "" p.

(** [Path::parent], "/" for a top-level entry. *)
Definition path_parent (p : string) : string :=
  match reverse (dir_chain p) with
  | _ :: q :: _ => q
  | _ => "/"
  end.

Definition is_dir (w : world) (d : string) : bool :=
  String.eqb d "/" ||
  match w_fs w !! d with Some NDir => true | _ => false end.

Definition mkdir_one (d : string) : ST world (result unit io_error) := fun w =>
  match w_fs w !! d with
  | None => (Normal (Ok tt), set_fs (insert d NDir) w)
  | Some NDir => (Normal (Ok tt), w)
  | Some _ => (Normal (Err (io_err "File exists")), w)
  end.

Fixpoint mkdir_chain (ds : list string) : ST world (result unit io_error) :=
  match ds with
  | [] => mret (Ok tt)
  | d :: ds' =>
      r ← mkdir_one d;
      match r with
      | Ok _ => mkdir_chain ds'
      | Err e => mret (Err e)
      end
  end.

(** [fs::create_dir_all(p)]. *)
Definition create_dir_all (p : string) : ST world (result unit io_error) :=
  mkdir_chain (dir_chain p).

(** [fs::copy(src, dst)]: the bytes copied. *)
Definition fs_copy (src dst : string) : ST world (result nat io_error) := fun w =>
  match w_fs w !! src with
  | Some (NFile c) =>
      if is_dir w (path_parent dst) then
        match w_fs w !! dst with
        | Some NDir => (Normal (Err (io_err "Is a directory")), w)
        | _ => (Normal (Ok (String.length c)), set_fs (insert dst (NFile c)) w)
        end
      else (Normal (Err (io_err "No such file or directory")), w)
  | Some _ => (Normal (Err (io_err "the source path is not an existing regular file")), w)
  | None => (Normal (Err (io_err "No such file or directory")), w)
  end.

(** [fs::File::open(p)]: the handle is the path. *)
Definition file_open (p : string) : ST world (result string io_error) := fun w =>
  match w_fs w !! p with
  | Some _ => (Normal (Ok p), w)
  | None => (Normal (Err (io_err "No such file or directory")), w)
  end.

(** [file.read_to_string(&mut s)] into an empty [s]. *)
Definition read_to_string (h : string) : ST world (result string io_error) := fun w =>
  match w_fs w !! h with
  | Some (NFile c) => (Normal (Ok c), w)
  | Some NDir => (Normal (Err (io_err "Is a directory")), w)
  | Some (NImage _ _) => (Normal (Err (io_err "stream did not contain valid UTF-8")), w)
  | None => (Normal (Err (io_err "No such file or directory")), w)
  end.

(** [fs::File::create(p)]: creates or truncates. *)
Definition file_create (p : string) : ST world (result string io_error) := fun w =>
  if is_dir w (path_parent p) then
    match w_fs w !! p with
    | Some NDir => (Normal (Err (io_err "Is a directory")), w)
    | _ => (Normal (Ok p), set_fs (insert p (NFile "")) w)
    end
  else (Normal (Err (io_err "No such file or directory")), w).

(** [file.write_all(bytes)] on a file just created. *)
Definition write_all (h : string) (bytes : string) : ST world (result unit io_error) := fun w =>
  match w_fs w !! h with
  | Some (NFile c) => (Normal (Ok tt), set_fs (insert h (NFile (c ++ bytes))) w)
  | _ => (Normal (Err (io_err "Bad file descriptor")), w)
  end.

(** [std::env::current_dir()] and [dirs::home_dir()]. *)
Definition current_dir : ST world (result string io_error) := fun w => (Normal (Ok (w_cwd w)), w).
Definition home_dir : ST world (option string) := fun w => (Normal (w_home w), w).

(** [Command::output()] and [Command::status()]: the exit code; an [Err]
    only when the program cannot be started. *)
Definition command_output (c : Command) : ST world (result Z io_error) := fun w =>
  match host_run c w with
  | Some (code, w') => (Normal (Ok code), log_event (EvRun c code) w')
  | None => (Normal (Err (io_err "No such file or directory")), w)
  end.

Definition command_status (c : Command) : ST world (result Z io_error) := command_output c.

(** [ExitStatus::success()]. *)
Definition exit_success (code : Z) : bool := Z.eqb code 0.

(** [Command::spawn()]: the child's pid. *)
Definition command_spawn (c : Command) : ST world (result nat io_error) := fun w =>
  match host_spawn c w with
  | Some w' =>
      let pid := w_next_pid w' in
      (Normal (Ok pid),
       log_event (EvSpawn pid c) (set_procs (insert pid (mkProc c true false)) (S pid) w'))
  | None => (Normal (Err (io_err "No such file or directory")), w)
  end.

(** [Child::kill()]: an error once the child has been waited for. *)
Definition child_kill (pid : nat) : ST world (result unit io_error) := fun w =>
  match w_procs w !! pid with
  | Some p =>
      if proc_reaped p then (Normal (Err (io_err "invalid argument: can't kill an exited process")), w)
      else (Normal (Ok tt),
            log_event (EvKill pid)
              (set_procs (insert pid (mkProc (proc_cmd p) false false)) (w_next_pid w) w))
  | None => (Normal (Err (io_err "No such process")), w)
  end.

(** [Child::wait()]: reaps the child (which has exited: the harness kills
    it first). *)
Definition child_wait (pid : nat) : ST world (result unit io_error) := fun w =>
  match w_procs w !! pid with
  | Some p =>
      (Normal (Ok tt),
       log_event (EvWait pid) (set_procs (insert pid (mkProc (proc_cmd p) false true)) (w_next_pid w) w))
  | None => (Normal (Err (io_err "No child processes")), w)
  end.

(** [eprintln!]. *)
Definition eprintln (line : string) : ST world unit := fun w => (Normal tt, log_event (EvStderr line) w).

(** [TempDir::new(prefix)]: [fs::create_dir] of a fresh directory
    [/tmp/<prefix>.<random>], which fails when its parent is not a
    directory.  The crate retries on a name clash; here the random name is
    the next one of [w_tmp_names], and a clash is reported. *)
Definition tempdir_new (prefix : string) : ST world (result string io_error) := fun w =>
  let p := ("/tmp/" ++ prefix ++ "." ++ w_tmp_names w (w_tmp_next w))%string in
  match w_fs w !! p with
  | None =>
      if is_dir w (path_parent p) then (Normal (Ok p), set_fs (insert p NDir) (next_tmp w))
      else (Normal (Err (io_err "No such file or directory")), next_tmp w)
  | Some _ => (Normal (Err (io_err "File exists")), next_tmp w)
  end.

(** [Drop for TempDir]: [let _ = fs::remove_dir_all(path)]. *)
Definition in_tree (p k : string) : bool := String.eqb k p || String.prefix (p ++ "/") k.

Definition remove_dir_all (p : string) : ST world unit := fun w =>
  (Normal tt, set_fs (filter (fun kv : string * node => in_tree p kv.1 = false)) w).

(** [rand::thread_rng().gen::<[u8; 6]>()]. *)
Definition gen_u8_6 : ST world (list Z) := fun w => (Normal (w_rng w (w_rng_next w)), next_rng w).

(** [COUNTER.fetch_add(1, Ordering::SeqCst)]: the old value. *)
Definition counter_fetch_add (delta : Z) : ST world Z := fun w =>
  (Normal (w_counter w), set_counter (wrap 64 (w_counter w + delta)) w).

End Ops.

(** ** The guest network inside the host

    The SSH calls and [thread::sleep] act on [w_net]; the host's clock is
    the guest network's. *)
Definition on_net {A : Type} (m : ST net_state A) : ST world A := fun w =>
  let '(r, n') := m (w_net w) in (r, set_net n' w).

#[export] Instance world_ssh_lib : SshLib world := {
  tcp_connect a := on_net (@tcp_connect _ guest_ssh_lib a);
  session_new := on_net (@session_new _ guest_ssh_lib);
  handshake := on_net (@handshake _ guest_ssh_lib);
  userauth_password u p := on_net (@userauth_password _ guest_ssh_lib u p);
  authenticated := on_net (@authenticated _ guest_ssh_lib);
  channel_session := on_net (@channel_session _ guest_ssh_lib);
  channel_exec c := on_net (@channel_exec _ guest_ssh_lib c);
  channel_read_to_string := on_net (@channel_read_to_string _ guest_ssh_lib);
  channel_close := on_net (@channel_close _ guest_ssh_lib);
  channel_wait_close := on_net (@channel_wait_close _ guest_ssh_lib);
  thread_sleep secs := on_net (@thread_sleep _ guest_ssh_lib secs);
}.

Lemma set_net_set_net (n1 n2 : net_state) (w : world) : set_net n2 (set_net n1 w) = set_net n2 w.
Proof. done. Qed.

Lemma w_net_set_net (n : net_state) (w : world) : w_net (set_net n w) = n.
Proof. done. Qed.

(** [mw] does on the host what [mn] does on its guest network. *)
Definition sim {A : Type} (mw : ST world A) (mn : ST net_state A) : Prop :=
  forall w, mw w = on_net mn w.

Lemma set_net_id (w : world) : set_net (w_net w) w = w.
Proof. by destruct w. Qed.

Lemma sim_on_net {A : Type} (m : ST net_state A) : sim (on_net m) m.
Proof. by intros w. Qed.

Lemma sim_ret {A : Type} (a : A) : sim (mret a) (mret a).
Proof. intros w. unfold on_net. cbn. by rewrite set_net_id. Qed.

Lemma sim_panic {A : Type} (msg : string) : sim (panic msg : ST world A) (panic msg).
Proof. intros w. unfold on_net. cbn. by rewrite set_net_id. Qed.

Lemma sim_checked (wd : Z) (what : string) (z : Z) : sim (checked wd what z) (checked wd what z).
Proof. unfold checked. case_match; [apply sim_ret|apply sim_panic]. Qed.

Lemma sim_bind {A B : Type} (mw : ST world A) (mn : ST net_state A)
    (kw : A -> ST world B) (kn : A -> ST net_state B) :
  sim mw mn -> (forall a, sim (kw a) (kn a)) -> sim (mw ≫= kw) (mn ≫= kn).
Proof.
  intros Hm Hk w. rewrite run_bind, Hm. unfold on_net.
  rewrite run_bind. destruct (mn (w_net w)) as [[a|e] n']; [|done].
  rewrite Hk. unfold on_net. rewrite w_net_set_net. by destruct (kn a n').
Qed.

Ltac sim_solve :=
  repeat first
    [ apply sim_bind; [|intros ?]
    | apply sim_ret | apply sim_panic | apply sim_checked | apply sim_on_net
    | progress unfold try_map, unwrap_option, assert_true
    | case_match ].

(** One SSH attempt on the host is the attempt on its guest network, and
    so is the whole prober. *)
Lemma ssh_attempt_sim (ip command s : string) :
  sim (@ssh_attempt world _ ip command s) (@ssh_attempt net_state _ ip command s).
Proof. unfold ssh_attempt. sim_solve. Qed.

Lemma ssh_loop_sim (fuel : nat) (ip command : string) (retries timeout counter : Z) (s : string) :
  sim (@ssh_loop world _ fuel ip command retries timeout counter s)
      (@ssh_loop net_state _ fuel ip command retries timeout counter s).
Proof.
  revert counter. induction fuel as [|fuel IH]; intros counter; cbn [ssh_loop]; [apply sim_panic|].
  apply sim_bind; [apply ssh_attempt_sim|]. intros [s'|e]; [apply sim_ret|].
  apply sim_bind; [apply sim_checked|]. intros c'. case_match; [apply sim_ret|].
  apply sim_bind; [apply sim_checked|]. intros secs.
  apply sim_bind; [apply sim_on_net|]. intros _. apply IH.
Qed.

Lemma ssh_command_on_net (ip command : string) (w : world) :
  @ssh_command world _ ip command w = on_net (@ssh_command net_state _ ip command) w.
Proof. apply ssh_loop_sim. Qed.

(** ** Paths and directories *)

Section Paths.
Context `{Host}.

Lemma dir_chain_go_last (acc s : string) : exists l, dir_chain_go acc s = l ++ [(acc ++ s)%string].
Proof.
  revert acc. induction s as [|c s IH]; intros acc; cbn [dir_chain_go].
  - exists []. by rewrite str_app_nil_r.
  - destruct (Ascii.eqb c "/") eqn:E.
    + apply Ascii.eqb_eq in E as ->. destruct (IH (acc ++ "/")%string) as [l ->].
      exists ((if String.eqb acc "" then [] else [acc]) ++ l). by rewrite app_assoc, str_app_assoc.
    + destruct (IH (acc ++ String c "")%string) as [l ->]. exists l. by rewrite str_app_assoc.
Qed.

Lemma dir_chain_go_noslash (acc c : string) :
  "/"%char ∉ str_chars c -> dir_chain_go acc c = [(acc ++ c)%string].
Proof.
  revert acc. induction c as [|ch c IH]; intros acc Hc; cbn [dir_chain_go].
  - by rewrite str_app_nil_r.
  - simpl in Hc. apply not_elem_of_cons in Hc as [Hch Hc].
    rewrite (proj2 (Ascii.eqb_neq ch "/")) by done. rewrite IH by done. by rewrite str_app_assoc.
Qed.

Lemma dir_chain_go_snoc (acc s c : string) :
  "/"%char ∉ str_chars c -> (acc ++ s)%string <> "" ->
  dir_chain_go acc (s ++ String "/" c) = dir_chain_go acc s ++ [(acc ++ s ++ String "/" c)%string].
Proof.
  revert acc. induction s as [|ch s IH]; intros acc Hc Hne.
  - rewrite str_app_nil_l. cbn [dir_chain_go Ascii.eqb]. rewrite str_app_nil_r in Hne.
    destruct (String.eqb_spec acc "") as [->|_]; [done|].
    rewrite dir_chain_go_noslash by done. simpl. by rewrite str_app_assoc.
  - rewrite str_app_cons. cbn [dir_chain_go]. destruct (Ascii.eqb ch "/") eqn:E.
    + apply Ascii.eqb_eq in E as ->.
      rewrite IH; [|done|intros [[_ ?]%str_app_eq_nil _]%str_app_eq_nil; discriminate].
      rewrite app_assoc. do 2 f_equal. rewrite !str_app_assoc. done.
    + rewrite IH; [|done|intros [[_ ?]%str_app_eq_nil _]%str_app_eq_nil; discriminate].
      do 2 f_equal. by rewrite !str_app_assoc.
Qed.

Lemma dir_chain_join (p c : string) :
  p <> "" -> "/"%char ∉ str_chars c -> dir_chain (path_join p c) = dir_chain p ++ [path_join p c].
Proof.
  intros Hp Hc. unfold dir_chain, path_join. rewrite (str_app_cons "/"%char "" c), str_app_nil_l.
  rewrite dir_chain_go_snoc by done. by rewrite str_app_nil_l.
Qed.

Lemma path_parent_join (p c : string) :
  p <> "" -> "/"%char ∉ str_chars c -> path_parent (path_join p c) = p.
Proof.
  intros Hp Hc. unfold path_parent. rewrite dir_chain_join by done.
  destruct (dir_chain_go_last "" p) as [l Hl]. unfold dir_chain. rewrite Hl.
  rewrite reverse_app, reverse_singleton. simpl. rewrite reverse_app, reverse_singleton. done.
Qed.

(** A path either has no separator or ends in [/<name>]. *)
Lemma last_slash (k : string) :
  "/"%char ∉ str_chars k \/ exists s c, k = (s ++ String "/" c)%string /\ "/"%char ∉ str_chars c.
Proof.
  induction k as [|ch k IH]; [left; apply not_elem_of_nil|].
  destruct IH as [Hn|(s & c & -> & Hc)].
  - destruct (ascii_dec ch "/") as [->|Hch].
    + right. exists ""%string, k. split; [reflexivity|exact Hn].
    + left. simpl. by apply not_elem_of_cons.
  - right. by exists (String ch s), c.
Qed.

(** A top-level path is its own chain; any other one is its parent's
    chain and itself. *)
Lemma dir_chain_cases (p : string) :
  (dir_chain p = [p] /\ path_parent p = "/") \/
  (exists s c, p = (s ++ String "/" c)%string /\ s <> "" /\ path_parent p = s /\ dir_chain p = dir_chain s ++ [p]).
Proof.
  unfold path_parent.
  destruct (last_slash p) as [Hn|(s & c & -> & Hc)].
  - left. unfold dir_chain. by rewrite dir_chain_go_noslash by done.
  - destruct (String.eqb_spec s "") as [->|Hs].
    + left. unfold dir_chain. rewrite str_app_nil_l. cbn [dir_chain_go Ascii.eqb String.eqb].
      by rewrite dir_chain_go_noslash by done.
    + right. exists s, c.
      assert (Hd : dir_chain (s ++ String "/" c)%string = dir_chain s ++ [(s ++ String "/" c)%string]).
      { unfold dir_chain. by rewrite dir_chain_go_snoc by done. }
      split_and!; [done|done| |exact Hd]. rewrite Hd.
      destruct (dir_chain_go_last "" s) as [l Hl]. unfold dir_chain. rewrite Hl.
      rewrite !reverse_app, !reverse_singleton. reflexivity.
Qed.

Lemma mkdir_chain_app (l1 l2 : list string) (w : world) :
  mkdir_chain (l1 ++ l2) w =
  (r ← mkdir_chain l1; match r with Ok _ => mkdir_chain l2 | Err e => mret (Err e) end) w.
Proof.
  revert w. induction l1 as [|d l1 IH]; intros w; [done|].
  cbn [app mkdir_chain]. rewrite !run_bind. destruct (mkdir_one d w) as [[[[]|e]|m] w']; [|done..].
  by rewrite IH.
Qed.

Lemma mkdir_chain_dirs (l : list string) (w : world) :
  Forall (fun d => w_fs w !! d = Some NDir) l -> mkdir_chain l w = (Normal (Ok tt), w).
Proof.
  induction l as [|d l IH]; intros Hl; [done|]. inversion_clear Hl as [|? ? Hd Hl'].
  cbn [mkdir_chain]. rewrite run_bind. unfold mkdir_one at 1. rewrite Hd. by apply IH.
Qed.

Lemma mkdir_one_fresh (d : string) (w : world) :
  w_fs w !! d = None -> mkdir_one d w = (Normal (Ok tt), set_fs (insert d NDir) w).
Proof. intros Hd. unfold mkdir_one. by rewrite Hd. Qed.

End Paths.

(** ** Successful filesystem steps *)

Section FsRuns.
Context `{Host}.

Lemma set_fs_set_fs (f g : gmap string node -> gmap string node) (w : world) :
  set_fs f (set_fs g w) = set_fs (fun m => f (g m)) w.
Proof. done. Qed.

Lemma w_cwd_set_fs (f : gmap string node -> gmap string node) (w : world) :
  w_cwd (set_fs f w) = w_cwd w.
Proof. done. Qed.

Lemma fs_copy_run (src dst c : string) (w : world) :
  w_fs w !! src = Some (NFile c) -> is_dir w (path_parent dst) = true -> w_fs w !! dst = None ->
  fs_copy src dst w = (Normal (Ok (String.length c)), set_fs (insert dst (NFile c)) w).
Proof. intros Hs Hd Hn. unfold fs_copy. by rewrite Hs, Hd, Hn. Qed.

Lemma file_open_run (p : string) (n : node) (w : world) :
  w_fs w !! p = Some n -> file_open p w = (Normal (Ok p), w).
Proof. intros Hp. unfold file_open. by rewrite Hp. Qed.

Lemma read_to_string_run (p c : string) (w : world) :
  w_fs w !! p = Some (NFile c) -> read_to_string p w = (Normal (Ok c), w).
Proof. intros Hp. unfold read_to_string. by rewrite Hp. Qed.

Lemma file_create_run (p : string) (w : world) :
  is_dir w (path_parent p) = true -> w_fs w !! p = None ->
  file_create p w = (Normal (Ok p), set_fs (insert p (NFile "")) w).
Proof. intros Hd Hn. unfold file_create. by rewrite Hd, Hn. Qed.

Lemma write_all_fresh_run (p s : string) (w : world) :
  w_fs w !! p = Some (NFile "") ->
  write_all p s w = (Normal (Ok tt), set_fs (insert p (NFile s)) w).
Proof. intros Hp. unfold write_all. by rewrite Hp. Qed.

Lemma tempdir_new_run (prefix : string) (w : world) :
  let p := ("/tmp/" ++ prefix ++ "." ++ w_tmp_names w (w_tmp_next w))%string in
  w_fs w !! p = None -> is_dir w (path_parent p) = true ->
  tempdir_new prefix w = (Normal (Ok p), set_fs (insert p NDir) (next_tmp w)).
Proof. intros p Hp Hd. unfold tempdir_new. fold p. by rewrite Hp, Hd. Qed.

Lemma is_dir_insert_dir (d : string) (f : gmap string node -> gmap string node) (w : world) :
  is_dir (set_fs (fun m => <[d := NDir]> (f m)) w) d = true.
Proof. unfold is_dir. cbn. by rewrite lookup_insert_eq, orb_true_r. Qed.

(** [w'] differs from [w] at most in its files and its log. *)
Definition fs_log_only (w w' : world) : Prop :=
  w' = mkWorld (w_fs w') (w_cwd w) (w_home w) (w_tmp_names w) (w_tmp_next w) (w_rng w)
         (w_rng_next w) (w_counter w) (w_taps w) (w_procs w) (w_next_pid w) (w_net w) (w_log w').

Lemma fs_log_only_fields (w w' : world) :
  fs_log_only w w' ->
  w_cwd w' = w_cwd w /\ w_home w' = w_home w /\ w_counter w' = w_counter w /\
  w_taps w' = w_taps w /\ w_procs w' = w_procs w /\ w_next_pid w' = w_next_pid w /\ w_net w' = w_net w.
Proof. intros ->. done. Qed.

(** No entry under [p/]: what a freshly made temporary directory holds. *)
Definition fresh_under (fs : gmap string node) (p : string) : bool :=
  forallb (fun kv : string * node => negb (String.prefix (p ++ "/")%string kv.1)) (map_to_list fs).

Lemma fresh_under_lookup (fs : gmap string node) (p r : string) :
  fresh_under fs p = true -> fs !! (p ++ "/" ++ r)%string = None.
Proof.
  intros Hf. destruct (fs !! _) as [n|] eqn:E; [|done].
  apply elem_of_map_to_list in E. unfold fresh_under in Hf. rewrite forallb_forall in Hf.
  apply list_elem_of_In, Hf in E. cbn in E. rewrite <- str_app_assoc, str_prefix_app in E. done.
Qed.

Lemma fresh_under_spec (fs : gmap string node) (p : string) :
  fresh_under fs p = true <-> forall k n, fs !! k = Some n -> String.prefix (p ++ "/")%string k = false.
Proof.
  unfold fresh_under. rewrite forallb_forall. split.
  - intros Hf k n Hk. apply elem_of_map_to_list, list_elem_of_In, Hf in Hk. by apply negb_true_iff.
  - intros Hf [k n] Hk. apply list_elem_of_In, elem_of_map_to_list, Hf in Hk. by apply negb_true_iff.
Qed.

Lemma fresh_under_insert (fs : gmap string node) (p k : string) (n : node) :
  fresh_under fs p = true -> String.prefix (p ++ "/")%string k = false ->
  fresh_under (<[k := n]> fs) p = true.
Proof.
  rewrite !fresh_under_spec. intros Hf Hk k' n'. destruct (decide (k = k')) as [<-|Hne]; [done|].
  rewrite lookup_insert_ne by done. apply Hf.
Qed.

Lemma prefix_self_slash (p : string) : String.prefix (p ++ "/")%string p = false.
Proof.
  destruct (String.prefix _ p) eqn:E; [|done]. apply str_prefix_length in E.
  rewrite str_length_app in E. simpl in E. lia.
Qed.

End FsRuns.

(** ** A sample host, for the witnesses *)

(** A host with the given files, no interfaces, no children, [COUNTER] at
    its initial value and the given guest network; temporary directories
    are named [t0], [t1], .... *)
Definition sample_world (fs : gmap string node) (net : net_state) : world :=
  mkWorld fs "/work" (Some "/home/cloud") (fun n => ("t" ++ String (Ascii.ascii_of_nat (48 + n)) "")%string)
    0 (fun _ => [0; 1; 2; 3; 4; 5]%Z) 0 6 ∅ ∅ 100 net [].

End World.
