(* ===== verification/Linux.v ===== *)
(** * The external programs the harness runs, on a Linux host

    An instance of [World.Host]: what [mkdosfs], [mcopy], the [ip] commands
    run through [bash -c "sudo ..."], and the two VMMs do to the host.
    None of this is code of the repository; it is the behaviour the spec
    (section 6) and the tools' manuals describe, at the level the harness
    depends on: [mkdosfs -n L -C P 8192] makes an empty FAT image at [P]
    (failing if [P] exists), [mcopy -o -i P -s SRC ::] copies a file or a
    directory tree into the image's root, [ip tuntap add/de], [ip addr add]
    and [ip link set up] act on the tap table.  Any other program is not
    found. *)

From S2P Require Import Prelude RustStr Ssh World.
From stdpp Require Import gmap.
From Stdlib Require Import Lia.
Local Open Scope string_scope.

Module Linux.
Import World.

(** The last component of a path. *)
Fixpoint basename_go (acc s : string) : string :=
  match s with
  | EmptyString => acc
  | String c s' => if Ascii.eqb c "/" then basename_go "" s' else basename_go (acc ++ String c "") s'
  end.

Definition basename (p : string) : string := basename_go "" p.

Definition run_mkdosfs (a : list string) (w : world) : Z * world :=
  match a with
  | ["-n"; label; "-C"; path; _] =>
      match w_fs w !! path with
      | None => if is_dir w (path_parent path)
                then (0%Z, set_fs (insert path (NImage label ∅)) w) else (1%Z, w)
      | Some _ => (1%Z, w)
      end
  | _ => (1%Z, w)
  end.

(** The files under the directory [src], keyed in the image by
    [basename src/<relative path>]. *)
Definition tree_files (fs : gmap string node) (src : string) : list (string * string) :=
  omap (fun kv : string * node =>
          match kv.2 with
          | NFile c =>
              if String.prefix (src ++ "/") kv.1
              then Some (basename src ++ "/" ++
                         Replace.str_drop (String.length (src ++ "/")) kv.1, c)
              else None
          | _ => None
          end) (map_to_list fs).

Definition run_mcopy (a : list string) (w : world) : Z * world :=
  match a with
  | ["-o"; "-i"; img; "-s"; src; "::"] =>
      match w_fs w !! img with
      | Some (NImage label files) =>
          match w_fs w !! src with
          | Some (NFile c) =>
              (0%Z, set_fs (insert img (NImage label (<[basename src := c]> files))) w)
          | Some NDir =>
              (0%Z, set_fs (insert img (NImage label (list_to_map (tree_files (w_fs w) src) ∪ files))) w)
          | _ => (1%Z, w)
          end
      | _ => (1%Z, w)
      end
  | _ => (1%Z, w)
  end.

(** [bash -c "sudo ip ..."]: the four commands the harness issues. *)
Definition run_ip (script : string) (w : world) : Z * world :=
  match split_on " " script with
  | ["sudo"; "ip"; "tuntap"; "add"; "name"; n; "mode"; "tap"] =>
      match w_taps w !! n with
      | None => (0%Z, set_taps (insert n (mkTap [] false)) w)
      | Some _ => (1%Z, w)
      end
  | ["sudo"; "ip"; "addr"; "add"; a; "dev"; n] =>
      match w_taps w !! n with
      | Some t =>
          if bool_decide (a ∈ tap_addrs t) then (2%Z, w)
          else (0%Z, set_taps (insert n (mkTap (tap_addrs t ++ [a]) (tap_up t))) w)
      | None => (1%Z, w)
      end
  | ["sudo"; "ip"; "link"; "set"; "dev"; n; "up"] =>
      match w_taps w !! n with
      | Some t => (0%Z, set_taps (insert n (mkTap (tap_addrs t) true)) w)
      | None => (1%Z, w)
      end
  | ["sudo"; "ip"; "tuntap"; "de"; "name"; n; "mode"; "tap"] =>
      (0%Z, set_taps (delete n) w)
  | _ => (1%Z, w)
  end.

Definition linux_run (c : Command) (w : world) : option (Z * world) :=
  match program c, args c with
  | "mkdosfs", a => Some (run_mkdosfs a w)
  | "mcopy", a => Some (run_mcopy a w)
  | "bash", ["-c"; script] => Some (run_ip script w)
  | _, _ => None
  end.

Definition linux_spawn (c : Command) (w : world) : option world :=
  match program c with
  | "./cloud-hypervisor" | "qemu-system-x86_64" => Some w
  | _ => None
  end.

#[export] Instance linux : Host := {| host_run := linux_run; host_spawn := linux_spawn |}.

(** ** Lemmas *)

Lemma basename_go_noslash (acc c : string) : "/"%char ∉ str_chars c -> basename_go acc c = acc ++ c.
Proof.
  revert acc. induction c as [|ch c IH]; intros acc Hc; cbn [basename_go].
  - by rewrite str_app_nil_r.
  - simpl in Hc. apply not_elem_of_cons in Hc as [Hch Hc].
    rewrite (proj2 (Ascii.eqb_neq ch "/")) by done. rewrite IH by done. by rewrite str_app_assoc.
Qed.

Lemma basename_go_slash (acc x y : string) : basename_go acc (x ++ String "/" y) = basename_go "" y.
Proof.
  revert acc. induction x as [|ch x IH]; intros acc.
  - rewrite str_app_nil_l. cbn [basename_go]. by rewrite Ascii.eqb_refl.
  - rewrite str_app_cons. cbn [basename_go]. by destruct (Ascii.eqb ch "/").
Qed.

Lemma basename_join (p c : string) : "/"%char ∉ str_chars c -> basename (path_join p c) = c.
Proof.
  intros Hc. unfold basename, path_join. rewrite (str_app_cons "/"%char "" c), str_app_nil_l.
  by rewrite basename_go_slash, basename_go_noslash.
Qed.

Lemma run_mkdosfs_fresh (label path size : string) (w : world) :
  w_fs w !! path = None -> is_dir w (path_parent path) = true ->
  run_mkdosfs ["-n"; label; "-C"; path; size] w = (0%Z, set_fs (insert path (NImage label ∅)) w).
Proof. intros Hp Hd. cbn. by rewrite Hp, Hd. Qed.

Lemma run_mcopy_file (img src label : string) (files : gmap string string) (c : string) (w : world) :
  w_fs w !! img = Some (NImage label files) -> w_fs w !! src = Some (NFile c) ->
  run_mcopy ["-o"; "-i"; img; "-s"; src; "::"] w =
  (0%Z, set_fs (insert img (NImage label (<[basename src := c]> files))) w).
Proof. intros Hi Hs. cbn. by rewrite Hi, Hs. Qed.

Lemma run_mcopy_dir (img src label : string) (files : gmap string string) (w : world) :
  w_fs w !! img = Some (NImage label files) -> w_fs w !! src = Some NDir ->
  run_mcopy ["-o"; "-i"; img; "-s"; src; "::"] w =
  (0%Z, set_fs (insert img (NImage label (list_to_map (tree_files (w_fs w) src) ∪ files))) w).
Proof. intros Hi Hs. cbn. by rewrite Hi, Hs. Qed.

(** The files a directory copy puts in the image: each file under
    [src/], under the directory's own name. *)
Lemma tree_files_elem (fs : gmap string node) (src i c : string) :
  (i, c) ∈ tree_files fs src <->
  exists k, fs !! k = Some (NFile c) /\ String.prefix (src ++ "/") k = true /\
            i = basename src ++ "/" ++ Replace.str_drop (String.length (src ++ "/")) k.
Proof.
  unfold tree_files. rewrite list_elem_of_omap. split.
  - intros ([k n] & Hin & Hf). apply elem_of_map_to_list in Hin. cbn in Hf.
    destruct n as [c'| |]; [|done|done]. destruct (String.prefix _ k) eqn:Hp; [|done].
    injection Hf as <- <-. by exists k.
  - intros (k & Hk & Hp & ->). exists (k, NFile c). split; [by apply elem_of_map_to_list|].
    cbn. by rewrite Hp.
Qed.

End Linux.
