(* ===== verification/Tap.v ===== *)
(** * The virtual interface lifecycle: [prepare_tap] and [cleanup_tap]

    Models src/src/integration.rs lines 191-226.  Each step runs
    [bash -c "<command>"] with [.status()], panics through [.expect] when
    bash cannot be started and through [assert!] when the exit status is
    not success.  The theorems are proved on the [Linux] host, for every
    identity whose tap name and address are single words (which
    [NetConfig.new_wf] gives for every generated identity). *)

From S2P Require Import Prelude RustStr NetConfig Ssh World Linux.
From stdpp Require Import gmap.
From Stdlib Require Import Lia.
Local Open Scope string_scope.

Module Tap.
Import NetConfig World Linux.

(** [Command::new("bash").args(&["-c", script])] *)
Definition bash_c (script : string) : Command :=
  command_args (command_new "bash") ["-c"; script].

(** [assert!(Command::new("bash")...status().expect(msg).success())] *)
Definition run_asserted `{Host} (msg script : string) : ST world unit :=
  r ← command_status (bash_c script);
  status ← expect msg r;
  assert_true "assertion failed: status.success()" (exit_success status).

Definition tuntap_add (net : GuestNetworkConfig) : string :=
  "sudo ip tuntap add name " ++ tap_name net ++ " mode tap".
Definition addr_add (net : GuestNetworkConfig) : string :=
  "sudo ip addr add " ++ host_ip net ++ "/24 dev " ++ tap_name net.
Definition link_up (net : GuestNetworkConfig) : string :=
  "sudo ip link set dev " ++ tap_name net ++ " up".
Definition tuntap_del (net : GuestNetworkConfig) : string :=
  "sudo ip tuntap de name " ++ tap_name net ++ " mode tap".

(** [fn prepare_tap(net: &GuestNetworkConfig)] *)
Definition prepare_tap `{Host} (net : GuestNetworkConfig) : ST world unit :=
  run_asserted "Expected creating interface to work" (tuntap_add net);;
  run_asserted "Expected programming interface to work" (addr_add net);;
  run_asserted "Expected upping interface to work" (link_up net).

(** [fn cleanup_tap(net: &GuestNetworkConfig)] *)
Definition cleanup_tap `{Host} (net : GuestNetworkConfig) : ST world unit :=
  run_asserted "Expected deleting interface to work" (tuntap_del net).

(** ** Lemmas: the commands as [ip] reads them *)

Lemma tuntap_add_words (net : GuestNetworkConfig) :
  tuntap_add net = String.concat " " ["sudo"; "ip"; "tuntap"; "add"; "name"; tap_name net; "mode"; "tap"].
Proof. done. Qed.

Lemma addr_add_words (net : GuestNetworkConfig) :
  addr_add net = String.concat " " ["sudo"; "ip"; "addr"; "add"; host_ip net ++ "/24"; "dev"; tap_name net].
Proof. unfold addr_add. cbn [String.concat]. by rewrite !str_app_assoc. Qed.

Lemma link_up_words (net : GuestNetworkConfig) :
  link_up net = String.concat " " ["sudo"; "ip"; "link"; "set"; "dev"; tap_name net; "up"].
Proof. done. Qed.

Lemma tuntap_del_words (net : GuestNetworkConfig) :
  tuntap_del net = String.concat " " ["sudo"; "ip"; "tuntap"; "de"; "name"; tap_name net; "mode"; "tap"].
Proof. done. Qed.

(** The words of a command, for an identity whose tap name and address
    are single words. *)
Ltac words_ok :=
  repeat constructor;
  first [ assumption
        | apply char_notin_lit; reflexivity
        | rewrite str_chars_app; intros [?|?]%elem_of_app; [done|];
          by apply (char_notin_lit " " "/24") ].

Section Words.
Context (net : GuestNetworkConfig) (Hwf : net_wf net).

Lemma split_tuntap_add :
  split_on " " (tuntap_add net) = ["sudo"; "ip"; "tuntap"; "add"; "name"; tap_name net; "mode"; "tap"].
Proof. destruct Hwf as (? & ? & _). rewrite tuntap_add_words. apply split_on_concat; [words_ok|done]. Qed.

Lemma split_addr_add :
  split_on " " (addr_add net) = ["sudo"; "ip"; "addr"; "add"; host_ip net ++ "/24"; "dev"; tap_name net].
Proof. destruct Hwf as (? & ? & _). rewrite addr_add_words. apply split_on_concat; [words_ok|done]. Qed.

Lemma split_link_up :
  split_on " " (link_up net) = ["sudo"; "ip"; "link"; "set"; "dev"; tap_name net; "up"].
Proof. destruct Hwf as (? & ? & _). rewrite link_up_words. apply split_on_concat; [words_ok|done]. Qed.

Lemma split_tuntap_del :
  split_on " " (tuntap_del net) = ["sudo"; "ip"; "tuntap"; "de"; "name"; tap_name net; "mode"; "tap"].
Proof. destruct Hwf as (? & ? & _). rewrite tuntap_del_words. apply split_on_concat; [words_ok|done]. Qed.

End Words.

(** ** Running the steps on the Linux host *)

Lemma run_bash (script : string) (w : world) :
  @host_run linux (bash_c script) w = Some (run_ip script w).
Proof. done. Qed.

Lemma run_asserted_code (msg script : string) (w w' : world) (code : Z) :
  run_ip script w = (code, w') ->
  run_asserted msg script w =
  (if Z.eqb code 0 then Normal tt else Panic "assertion failed: status.success()",
   log_event (EvRun (bash_c script) code) w').
Proof.
  intros Hr. unfold run_asserted. rewrite run_bind. unfold command_status, command_output.
  rewrite run_bash, Hr. cbn. rewrite bind_ret_l. unfold assert_true, exit_success.
  by destruct (Z.eqb code 0).
Qed.

Section Steps.
Context (net : GuestNetworkConfig) (Hwf : net_wf net).

Lemma ip_tuntap_add (w : world) :
  run_ip (tuntap_add net) w =
  match w_taps w !! tap_name net with
  | None => (0%Z, set_taps (insert (tap_name net) (mkTap [] false)) w)
  | Some _ => (1%Z, w)
  end.
Proof. unfold run_ip. by rewrite split_tuntap_add. Qed.

Lemma ip_addr_add (w : world) (t : tap) :
  w_taps w !! tap_name net = Some t -> host_ip net ++ "/24" ∉ tap_addrs t ->
  run_ip (addr_add net) w =
  (0%Z, set_taps (insert (tap_name net) (mkTap (tap_addrs t ++ [host_ip net ++ "/24"]) (tap_up t))) w).
Proof.
  intros Ht Ha. unfold run_ip. rewrite split_addr_add by done. cbn.
  rewrite Ht. by rewrite bool_decide_eq_false_2.
Qed.

Lemma ip_link_up (w : world) (t : tap) :
  w_taps w !! tap_name net = Some t ->
  run_ip (link_up net) w = (0%Z, set_taps (insert (tap_name net) (mkTap (tap_addrs t) true)) w).
Proof. intros Ht. unfold run_ip. rewrite split_link_up by done. cbn. by rewrite Ht. Qed.

Lemma ip_tuntap_del (w : world) :
  run_ip (tuntap_del net) w = (0%Z, set_taps (delete (tap_name net)) w).
Proof. unfold run_ip. by rewrite split_tuntap_del. Qed.

End Steps.

(** ** The two operations on the Linux host *)

Section Runs.
Context (net : GuestNetworkConfig) (Hwf : net_wf net).

(** The host after a successful [prepare_tap]: three [ip] commands, the tap
    created, addressed and up. *)
Definition tap_up_world (w : world) : world :=
  let n := tap_name net in
  let a := host_ip net ++ "/24" in
  log_event (EvRun (bash_c (link_up net)) 0)
   (set_taps (insert n (mkTap [a] true))
    (log_event (EvRun (bash_c (addr_add net)) 0)
     (set_taps (insert n (mkTap [a] false))
      (log_event (EvRun (bash_c (tuntap_add net)) 0)
       (set_taps (insert n (mkTap [] false)) w))))).

Lemma prepare_tap_run (w : world) :
  w_taps w !! tap_name net = None -> prepare_tap net w = (Normal tt, tap_up_world w).
Proof.
  intros Hn. pose proof (ip_tuntap_add net Hwf w) as H1. rewrite Hn in H1.
  unfold prepare_tap. rewrite run_bind, (run_asserted_code _ _ _ _ _ H1). cbn [Z.eqb].
  set (w1 := log_event _ (set_taps _ w)).
  assert (L1 : w_taps w1 !! tap_name net = Some (mkTap [] false)) by (cbn; by rewrite lookup_insert_eq).
  rewrite run_bind, (run_asserted_code _ _ _ _ _ (ip_addr_add net Hwf w1 _ L1 (not_elem_of_nil _))).
  cbn [Z.eqb]. set (w2 := log_event _ (set_taps _ w1)).
  assert (L2 : w_taps w2 !! tap_name net = Some (mkTap [host_ip net ++ "/24"] false))
    by (cbn; by rewrite lookup_insert_eq).
  by rewrite (run_asserted_code _ _ _ _ _ (ip_link_up net Hwf w2 _ L2)).
Qed.

Lemma prepare_tap_busy_run (w : world) (t : tap) :
  w_taps w !! tap_name net = Some t ->
  prepare_tap net w =
  (Panic "assertion failed: status.success()", log_event (EvRun (bash_c (tuntap_add net)) 1) w).
Proof.
  intros Ht. pose proof (ip_tuntap_add net Hwf w) as H1. rewrite Ht in H1.
  unfold prepare_tap. by rewrite run_bind, (run_asserted_code _ _ _ _ _ H1).
Qed.

Lemma cleanup_tap_run (w : world) :
  cleanup_tap net w =
  (Normal tt, log_event (EvRun (bash_c (tuntap_del net)) 0) (set_taps (delete (tap_name net)) w)).
Proof. unfold cleanup_tap. by rewrite (run_asserted_code _ _ _ _ _ (ip_tuntap_del net Hwf w)). Qed.

(** ** Theorems *)

(** C13: On a host where the tap name is free, [prepare_tap] succeeds
    after running exactly the three [ip] commands, all with exit status 0,
    and leaves the tap present, carrying the host address /24 and up; it
    touches neither the files, nor the processes, nor the guest network. *)
Theorem prepare_tap_brings_up (w : world) :
  w_taps w !! tap_name net = None ->
  exists w', prepare_tap net w = (Normal tt, w') /\
    w_taps w' = <[tap_name net := mkTap [host_ip net ++ "/24"] true]> (w_taps w) /\
    w_log w' = (w_log w ++ [EvRun (bash_c (tuntap_add net)) 0;
                            EvRun (bash_c (addr_add net)) 0;
                            EvRun (bash_c (link_up net)) 0])%list /\
    w_fs w' = w_fs w /\ w_procs w' = w_procs w /\ w_net w' = w_net w.
Proof.
  intros Hn. eexists. split; [by apply prepare_tap_run|].
  cbn. rewrite !insert_insert_eq, <- !app_assoc. done.
Qed.

(** C21: [cleanup_tap] never fails on the Linux host, whether or not the
    interface exists (teardown is safe after a partial bring-up), and it
    removes exactly that interface. *)
Theorem cleanup_tap_total (w : world) :
  exists w', cleanup_tap net w = (Normal tt, w') /\
    w_taps w' = delete (tap_name net) (w_taps w) /\
    w_log w' = (w_log w ++ [EvRun (bash_c (tuntap_del net)) 0])%list.
Proof. eexists. split; [apply cleanup_tap_run|done]. Qed.

(** C20: Bringing a free tap up and tearing it down again leaves the
    host's interface table as it was. *)
Theorem tap_lifecycle_restores (w : world) :
  w_taps w !! tap_name net = None ->
  exists w', (prepare_tap net;; cleanup_tap net) w = (Normal tt, w') /\ w_taps w' = w_taps w.
Proof.
  intros Hn. rewrite run_bind, prepare_tap_run by done. eexists.
  split; [apply cleanup_tap_run|]. cbn. rewrite !insert_insert_eq.
  rewrite delete_insert_eq. by apply delete_id.
Qed.

End Runs.

(** ** Witnesses *)

Definition sample_net : GuestNetworkConfig := new 6 sample_rand.
Definition sample_host : world := sample_world ∅ (GuestSsh.mkNet 0 "" (fun _ => GuestSsh.Refuse (Ssh.IoError "down")) GuestSsh.NoAuth []).

Lemma prepare_tap_brings_up_witness :
  net_wf sample_net /\ w_taps sample_host !! tap_name sample_net = None /\
  exists w', prepare_tap sample_net sample_host = (Normal tt, w') /\
    w_taps w' = <[tap_name sample_net := mkTap [host_ip sample_net ++ "/24"] true]> (w_taps sample_host) /\
    w_log w' = (w_log sample_host ++ [EvRun (bash_c (tuntap_add sample_net)) 0;
                            EvRun (bash_c (addr_add sample_net)) 0;
                            EvRun (bash_c (link_up sample_net)) 0])%list /\
    w_fs w' = w_fs sample_host /\ w_procs w' = w_procs sample_host /\ w_net w' = w_net sample_host.
Proof.
  split; [apply new_wf|]. split; [reflexivity|].
  apply (prepare_tap_brings_up sample_net (new_wf _ _)). reflexivity.
Defined.

Lemma cleanup_tap_total_witness :
  net_wf sample_net /\
  exists w', cleanup_tap sample_net sample_host = (Normal tt, w') /\
    w_taps w' = delete (tap_name sample_net) (w_taps sample_host) /\
    w_log w' = (w_log sample_host ++ [EvRun (bash_c (tuntap_del sample_net)) 0])%list.
Proof. split; [apply new_wf|]. apply (cleanup_tap_total sample_net (new_wf _ _)). Defined.

Lemma tap_lifecycle_restores_witness :
  net_wf sample_net /\ w_taps sample_host !! tap_name sample_net = None /\
  exists w', (prepare_tap sample_net;; cleanup_tap sample_net) sample_host = (Normal tt, w') /\
    w_taps w' = w_taps sample_host.
Proof.
  split; [apply new_wf|]. split; [reflexivity|].
  apply (tap_lifecycle_restores sample_net (new_wf _ _)). reflexivity.
Defined.

End Tap.
