(* ===== verification/CloudInit.v ===== *)
(** * The guest image seeder: [trait CloudInit] and its two implementations

    Models src/src/integration.rs lines 62-178.  [substitute] is the three
    [str::replace] calls of lines 95-98 and 148-151, in their order (host
    address, guest address, MAC).  A template file is modelled as a list of
    [piece]s, literal text and placeholder slots; [pieces_wf] is the
    condition under which substitution is exact: no literal contains a
    placeholder, and next to every slot the literal text has a delimiter,
    a character that no address or MAC uses.  The theorems show the seeded
    text is the template with each slot replaced by the identity's value
    and no other byte changed, and that substitution is the identity on a
    text without placeholders.  [prepare] is run step by step: on the
    Linux host, with a fresh temporary directory, the Ubuntu seeder builds
    an image holding exactly the three files, the network one seeded, and
    touches nothing outside the directory; on a host whose [mkdosfs] and
    [mcopy] fail it still returns the image path, as their exit status is
    never read. *)

From S2P Require Import Prelude RustStr NetConfig Ssh World Linux.
From stdpp Require Import gmap.
From Stdlib Require Import Lia.
Local Open Scope string_scope.

Module CloudInit.
Import NetConfig World Linux Replace Fmt.

(** The placeholders the template files carry. *)
Definition PH_HOST_IP : string := "192.168.2.1".
Definition PH_GUEST_IP : string := "192.168.2.2".
Definition PH_MAC : string := "12:34:56:78:90:ab".

(** [s.replace("192.168.2.1", &network.host_ip)] and the two after it. *)
Definition substitute (net : GuestNetworkConfig) (s : string) : string :=
  let s := str_replace s PH_HOST_IP (host_ip net) in
  let s := str_replace s PH_GUEST_IP (guest_ip net) in
  str_replace s PH_MAC (guest_mac net).

(** ** Templates *)

Inductive slot := SHost | SGuest | SMac.
Inductive piece := Lit (s : string) | Slot (k : slot).

Definition placeholder (k : slot) : string :=
  match k with SHost => PH_HOST_IP | SGuest => PH_GUEST_IP | SMac => PH_MAC end.

Definition value (net : GuestNetworkConfig) (k : slot) : string :=
  match k with SHost => host_ip net | SGuest => guest_ip net | SMac => guest_mac net end.

Definition piece_text (vals : slot -> string) (p : piece) : string :=
  match p with Lit s => s | Slot k => vals k end.

Definition render (vals : slot -> string) (t : list piece) : string :=
  str_concat (map (piece_text vals) t).

(** The characters of addresses and MACs; any other one delimits. *)
Definition ADDR_CHARS : string := "0123456789abcdef.:".
Definition delim (c : ascii) : bool := negb (char_in c ADDR_CHARS).

Definition head_delim (s : string) : bool :=
  match str_head s with Some c => delim c | None => false end.
Definition last_delim (s : string) : bool :=
  match str_last s with Some c => delim c | None => false end.

Definition lit_ok (s : string) : bool :=
  negb (str_contains PH_HOST_IP s) && negb (str_contains PH_GUEST_IP s)
  && negb (str_contains PH_MAC s).

Fixpoint pieces_wf (t : list piece) : bool :=
  match t with
  | [] => true
  | [Lit s] => lit_ok s
  | [Slot _] => true
  | Lit s :: ((Slot _ :: _) as t') => lit_ok s && last_delim s && pieces_wf t'
  | Slot _ :: ((Lit s :: _) as t') => head_delim s && pieces_wf t'
  | _ => false
  end.

(** ** Lemmas *)

Lemma pieces_wf_tail (p : piece) (t : list piece) : pieces_wf (p :: t) = true -> pieces_wf t = true.
Proof.
  destruct p as [s|k], t as [|[s'|k'] t]; cbn [pieces_wf]; try done;
    rewrite ?andb_true_iff; naive_solver.
Qed.

Lemma pieces_wf_lit (s : string) (t : list piece) : pieces_wf (Lit s :: t) = true -> lit_ok s = true.
Proof.
  destruct t as [|[s'|k'] t]; cbn [pieces_wf]; try done; rewrite ?andb_true_iff; naive_solver.
Qed.

Lemma placeholder_not_delim (k : slot) (d : ascii) :
  char_in d (placeholder k) = true -> delim d = false.
Proof.
  unfold char_in. intros H%bool_decide_eq_true. apply list_elem_of_In in H.
  destruct k; simpl in H; repeat destruct H as [<-|H]; done.
Qed.

Lemma str_head_app (s r : string) (d : ascii) : str_head s = Some d -> str_head (s ++ r) = Some d.
Proof. by destruct s. Qed.

(** Each stage of [substitute] sees a text cut in safe segments. *)
Lemma segs_safe_pieces (k0 : slot) (vals : slot -> string) (t : list piece) :
  let pat := placeholder k0 in
  pieces_wf t = true ->
  (forall s, lit_ok s = true -> str_contains pat s = false) ->
  (forall k, String.eqb (vals k) pat = true \/ str_contains pat (vals k) = false) ->
  segs_safe pat (map (piece_text vals) t) = true.
Proof.
  intros pat. induction t as [|p t IH]; intros Hwf Hlit Hv; [done|].
  cbn [map segs_safe]. apply andb_true_iff. split; [|apply IH; eauto using pieces_wf_tail].
  unfold boundary_ok. destruct p as [s|k]; cbn [piece_text].
  - pose proof (pieces_wf_lit s t Hwf) as Hs.
    rewrite Hlit by done. apply orb_true_iff. right. simpl.
    destruct t as [|[s'|k'] t]; [by rewrite orb_true_r| |].
    + by cbn in Hwf.
    + apply andb_true_iff in Hwf as [[_ Hl]%andb_true_iff _]. unfold last_delim in Hl.
      destruct (str_last s) as [d|]; [|done]. apply orb_true_iff. left.
      destruct (char_in d pat) eqn:E; [|done]. by rewrite (placeholder_not_delim k0 d E) in Hl.
  - destruct (Hv k) as [->|Hc]; [done|]. rewrite Hc. apply orb_true_iff. right.
    simpl. destruct t as [|[s'|k'] t]; [by rewrite orb_true_r| |by cbn in Hwf].
    apply andb_true_iff in Hwf as [Hh _]. unfold head_delim in Hh.
    destruct (str_head s') as [d|] eqn:Ed; [|done]. cbn [map str_concat].
    rewrite (str_head_app _ _ d Ed). apply orb_true_iff. right.
    destruct (char_in d pat) eqn:E; [|done]. by rewrite (placeholder_not_delim k0 d E) in Hh.
Qed.

Lemma contains_self (p : string) : str_contains p p = true.
Proof. apply prefix_contains. rewrite <- (str_app_nil_r p) at 2. apply str_prefix_app. Qed.

Lemma lit_ok_ne (k : slot) (s : string) : lit_ok s = true -> s <> placeholder k.
Proof.
  intros H ->. destruct k; revert H; vm_compute; discriminate.
Qed.

Lemma lit_ok_contains (k : slot) (s : string) : lit_ok s = true -> str_contains (placeholder k) s = false.
Proof.
  unfold lit_ok. rewrite !andb_true_iff, !negb_true_iff. destruct k; naive_solver.
Qed.

(** Applying one stage to the segments is rendering with the stage applied
    to the slots' texts. *)
Lemma stage_map (k0 : slot) (to : string) (vals : slot -> string) (t : list piece) :
  pieces_wf t = true ->
  map (subst_seg (placeholder k0) to) (map (piece_text vals) t) =
  map (piece_text (fun k => subst_seg (placeholder k0) to (vals k))) t.
Proof.
  induction t as [|p t IH]; intros Hwf; [done|]. cbn [map].
  rewrite IH by eauto using pieces_wf_tail. f_equal.
  destruct p as [s|k]; [|done]. cbn [piece_text]. unfold subst_seg.
  destruct (String.eqb_spec s (placeholder k0)) as [E|]; [|done].
  exfalso. by apply (lit_ok_ne k0 s (pieces_wf_lit s t Hwf)).
Qed.

(** The addresses of a [u8] counter contain neither a later placeholder
    nor the MAC placeholder. *)
Definition values_ok (c : Z) : bool :=
  let h := "192.168." ++ fmt_dec c ++ ".1" in
  let g := "192.168." ++ fmt_dec c ++ ".2" in
  negb (str_contains PH_GUEST_IP h) && negb (str_contains PH_MAC h)
  && negb (str_contains PH_MAC g).

Lemma values_ok_all (c : Z) : (0 <= c < 256)%Z -> values_ok c = true.
Proof. apply (u8_forall (fun c => values_ok c = true) values_ok); [done|]. vm_compute. reflexivity. Qed.

Lemma contains_ne (p s : string) : str_contains p s = false -> s <> p.
Proof. intros H ->. by rewrite contains_self in H. Qed.

Lemma subst_seg_same (p to : string) : subst_seg p to p = to.
Proof. unfold subst_seg. by rewrite String.eqb_refl. Qed.

Lemma subst_seg_other (p to s : string) : s <> p -> subst_seg p to s = s.
Proof. intros Hne. unfold subst_seg. by destruct (String.eqb_spec s p). Qed.

(** ** The trait and its implementations *)

(** [trait CloudInit { fn prepare(&self, tmp_dir: &TempDir, network: &GuestNetworkConfig) -> String; }] *)
Class CloudInit (T : Type) := {
  prepare : T -> string -> GuestNetworkConfig -> ST world string
}.

(** [Command::new("mkdosfs").args(&["-n", label]).args(&["-C", path]).arg("8192")] *)
Definition mkdosfs_cmd (label path : string) : Command :=
  command_arg (command_args (command_args (command_new "mkdosfs") ["-n"; label]) ["-C"; path]) "8192".

(** [Command::new("mcopy").arg("-o").args(&["-i", img]).args(&["-s", src, "::"])] *)
Definition mcopy_cmd (img src : string) : Command :=
  command_args (command_args (command_arg (command_new "mcopy") "-o") ["-i"; img]) ["-s"; src; "::"].

Section Prepare.
Context `{Host}.

(** Reading a whole file: [fs::File::open(p).unwrap().read_to_string(&mut s).expect(msg)]. *)
Definition read_file (msg p : string) : ST world string :=
  f ← file_open p; f ← unwrap f;
  r ← read_to_string f; expect msg r.

(** Writing a whole file: [fs::File::create(p).unwrap().write_all(s).expect(msg)]. *)
Definition write_file (msg p s : string) : ST world unit :=
  f ← file_create p; f ← unwrap f;
  r ← write_all f s; expect msg r.

Inductive ClearCloudInit := ClearCloudInitV.
Inductive UbuntuCloudInit := UbuntuCloudInitV.

(** [impl CloudInit for ClearCloudInit] (lines 67-117). *)
Definition clear_prepare (tmp_dir : string) (network : GuestNetworkConfig) : ST world string :=
  let cloudinit_file_path := path_join tmp_dir "cloudinit" in
  let cloud_init_directory :=
    path_join (path_join (path_join tmp_dir "cloud-init") "clear") "openstack" in
  r ← create_dir_all (path_join cloud_init_directory "latest");
  expect "Expect creating cloud-init directory to succeed" r;;
  cwd ← current_dir; cwd ← unwrap cwd;
  let source_file_dir := path_join (path_join (path_join (path_join (path_join cwd
      "resources") "cloud-init") "clear") "openstack") "latest" in
  r ← fs_copy (path_join source_file_dir "meta_data.json")
              (path_join (path_join cloud_init_directory "latest") "meta_data.json");
  expect "Expect copying cloud-init meta_data.json to succeed" r;;
  user_data_string ← read_file "Expected reading user_data file in to succeed"
                       (path_join source_file_dir "user_data");
  write_file "Expected writing out user_data to succeed"
    (path_join (path_join cloud_init_directory "latest") "user_data")
    (substitute network user_data_string);;
  r ← command_output (mkdosfs_cmd "config-2" cloudinit_file_path);
  expect "Expect creating disk image to succeed" r;;
  r ← command_output (mcopy_cmd cloudinit_file_path cloud_init_directory);
  expect "Expect copying files to disk image to succeed" r;;
  mret cloudinit_file_path.

(** [impl CloudInit for UbuntuCloudInit] (lines 120-178). *)
Definition ubuntu_prepare (tmp_dir : string) (network : GuestNetworkConfig) : ST world string :=
  let cloudinit_file_path := path_join tmp_dir "cloudinit" in
  let cloud_init_directory := path_join (path_join tmp_dir "cloud-init") "ubuntu" in
  r ← create_dir_all cloud_init_directory;
  expect "Expect creating cloud-init directory to succeed" r;;
  cwd ← current_dir; cwd ← unwrap cwd;
  let source_file_dir := path_join (path_join (path_join cwd "resources") "cloud-init") "ubuntu" in
  st_for_each (fun x =>
    r ← fs_copy (path_join source_file_dir x) (path_join cloud_init_directory x);
    expect "Expect copying cloud-init meta-data to succeed" r;; mret tt)
    ["meta-data"; "user-data"];;
  network_config_string ← read_file "Expected reading network-config file in to succeed"
                            (path_join source_file_dir "network-config");
  write_file "Expected writing out network-config to succeed"
    (path_join cloud_init_directory "network-config")
    (substitute network network_config_string);;
  r ← command_output (mkdosfs_cmd "cidata" cloudinit_file_path);
  expect "Expect creating disk image to succeed" r;;
  st_for_each (fun x =>
    r ← command_output (mcopy_cmd cloudinit_file_path (path_join cloud_init_directory x));
    expect "Expect copying files to disk image to succeed" r;; mret tt)
    ["user-data"; "meta-data"; "network-config"];;
  mret cloudinit_file_path.

#[export] Instance clear_cloud_init : CloudInit ClearCloudInit :=
  {| prepare _ := clear_prepare |}.
#[export] Instance ubuntu_cloud_init : CloudInit UbuntuCloudInit :=
  {| prepare _ := ubuntu_prepare |}.

End Prepare.

(** ** Running the seeding steps *)

Section FileSteps.
Context `{Host}.

Lemma read_file_run (msg p c : string) (w : world) :
  w_fs w !! p = Some (NFile c) -> read_file msg p w = (Normal c, w).
Proof.
  intros Hp. unfold read_file.
  rewrite run_bind, (file_open_run _ _ _ Hp). cbn beta iota.
  rewrite run_bind, run_unwrap_ok. cbn beta iota.
  by rewrite run_bind, (read_to_string_run _ _ _ Hp).
Qed.

Lemma write_file_run (msg p s : string) (w : world) :
  is_dir w (path_parent p) = true -> w_fs w !! p = None ->
  write_file msg p s w = (Normal tt, set_fs (insert p (NFile s)) w).
Proof.
  intros Hd Hp. unfold write_file.
  rewrite run_bind, (file_create_run _ _ Hd Hp). cbn beta iota.
  rewrite run_bind, run_unwrap_ok. cbn beta iota.
  rewrite run_bind, write_all_fresh_run by (cbn; apply lookup_insert_eq).
  cbn beta iota. rewrite run_expect_ok. cbn.
  unfold set_fs; cbn. by rewrite insert_insert_eq.
Qed.

Lemma copy_step_run (msg src dst c : string) (w : world) :
  w_fs w !! src = Some (NFile c) -> is_dir w (path_parent dst) = true -> w_fs w !! dst = None ->
  (r ← fs_copy src dst; expect msg r;; mret tt) w = (Normal tt, set_fs (insert dst (NFile c)) w).
Proof. intros Hs Hd Hn. by rewrite run_bind, (fs_copy_run _ _ _ _ Hs Hd Hn). Qed.

End FileSteps.

(** A tool that runs and fails without effect. *)
Lemma command_output_fails_run `{Host} (c : Command) (w : world) :
  (forall c' w', program c' = "mkdosfs" \/ program c' = "mcopy" -> host_run c' w' = Some (1%Z, w')) ->
  program c = "mkdosfs" \/ program c = "mcopy" ->
  command_output c w = (Normal (Ok 1%Z), log_event (EvRun c 1) w).
Proof. intros Hf Hc. unfold command_output. by rewrite Hf. Qed.

Lemma command_fails_step `{Host} (msg : string) (c : Command) (w : world) :
  (forall c' w', program c' = "mkdosfs" \/ program c' = "mcopy" -> host_run c' w' = Some (1%Z, w')) ->
  program c = "mkdosfs" \/ program c = "mcopy" ->
  (r ← command_output c; expect msg r;; mret tt) w = (Normal tt, log_event (EvRun c 1) w).
Proof. intros Hf Hc. by rewrite run_bind, (command_output_fails_run _ _ Hf Hc). Qed.

(** [mkdosfs] and [mcopy] as the Linux host runs them. *)
Lemma linux_mkdosfs_run (label path : string) (w : world) :
  w_fs w !! path = None -> is_dir w (path_parent path) = true ->
  command_output (mkdosfs_cmd label path) w =
  (Normal (Ok 0%Z), log_event (EvRun (mkdosfs_cmd label path) 0) (set_fs (insert path (NImage label ∅)) w)).
Proof.
  intros Hp Hd. unfold command_output.
  change (host_run (mkdosfs_cmd label path) w) with (Some (run_mkdosfs ["-n"; label; "-C"; path; "8192"] w)).
  by rewrite run_mkdosfs_fresh.
Qed.

Lemma linux_mcopy_step (msg img src label : string) (files : gmap string string) (c : string) (w : world) :
  w_fs w !! img = Some (NImage label files) -> w_fs w !! src = Some (NFile c) ->
  (r ← command_output (mcopy_cmd img src); expect msg r;; mret tt) w =
  (Normal tt, log_event (EvRun (mcopy_cmd img src) 0)
                (set_fs (insert img (NImage label (<[basename src := c]> files))) w)).
Proof.
  intros Hi Hs. rewrite run_bind. unfold command_output.
  change (host_run (mcopy_cmd img src) w) with (Some (run_mcopy ["-o"; "-i"; img; "-s"; src; "::"] w)).
  by rewrite (run_mcopy_file _ _ _ _ _ _ Hi Hs).
Qed.

(** *** The Ubuntu seeder's file stage

    Under a temporary directory [tmp] that exists and is empty, with the
    three Ubuntu templates present under the working directory, the
    seeder creates [tmp/cloud-init/ubuntu], copies [meta-data] and
    [user-data] and writes the seeded [network-config], and nothing else,
    before it runs [mkdosfs]. *)

Section UbuntuFiles.
Context (tmp : string) (net : GuestNetworkConfig) (w : world) (md ud nc : string).

(** The entries under [tmp]. *)
Definition sub (r : string) : string := tmp ++ "/" ++ r.

Definition ubuntu_src (x : string) : string :=
  path_join (path_join (path_join (path_join (w_cwd w) "resources") "cloud-init") "ubuntu") x.

Hypothesis Htmp : tmp <> "".
Hypothesis Hdirs : Forall (fun d => w_fs w !! d = Some NDir) (dir_chain tmp).
Hypothesis Hempty : fresh_under (w_fs w) tmp = true.
Hypothesis Hmd : w_fs w !! ubuntu_src "meta-data" = Some (NFile md).
Hypothesis Hud : w_fs w !! ubuntu_src "user-data" = Some (NFile ud).
Hypothesis Hnc : w_fs w !! ubuntu_src "network-config" = Some (NFile nc).

Lemma path_join_sub (r c : string) : path_join (sub r) c = sub (r ++ "/" ++ c).
Proof. unfold path_join, sub. by rewrite !str_app_assoc. Qed.

Lemma sub_neq (r1 r2 : string) : String.eqb r1 r2 = false -> sub r1 <> sub r2.
Proof.
  intros E Heq. apply str_app_inv_l, (str_app_inv_l "/") in Heq. subst.
  by rewrite String.eqb_refl in E.
Qed.

Lemma sub_fresh (r : string) : w_fs w !! sub r = None.
Proof. by apply fresh_under_lookup. Qed.

Lemma sub_ne_existing (a : string) (n : node) (r : string) : w_fs w !! a = Some n -> sub r <> a.
Proof. intros Ha <-. by rewrite sub_fresh in Ha. Qed.

Lemma sub_ne_nil (r : string) : sub r <> "".
Proof. by intros [_ [? _]%str_app_eq_nil]%str_app_eq_nil. Qed.

Lemma sub_prefix (r : string) : String.prefix (tmp ++ "/") (sub r) = true.
Proof. unfold sub. rewrite <- str_app_assoc. apply str_prefix_app. Qed.

Lemma tmp_is_dir : w_fs w !! tmp = Some NDir.
Proof.
  destruct (dir_chain_go_last "" tmp) as [l Hl]. unfold dir_chain in Hdirs.
  rewrite Hl, Forall_app, Forall_singleton in Hdirs. apply Hdirs.
Qed.

Lemma sub_ne_outside (r k : string) : String.prefix (tmp ++ "/") k = false -> sub r <> k.
Proof. intros Hk <-. by rewrite sub_prefix in Hk. Qed.

Lemma path_join_sub_lit (r c rc : string) : r ++ "/" ++ c = rc -> path_join (sub r) c = sub rc.
Proof. intros <-. apply path_join_sub. Qed.

Ltac key_neq :=
  first [ apply sub_neq; reflexivity | eapply sub_ne_existing; eassumption
        | apply not_eq_sym; eapply sub_ne_existing; eassumption
        | eapply sub_ne_existing; apply tmp_is_dir ].

Ltac fs_simpl :=
  cbn [w_fs set_fs log_event]; rewrite ?(path_join_sub_lit _ _ _ eq_refl);
  repeat first [ rewrite lookup_insert_eq | rewrite lookup_insert_ne by key_neq ].

Lemma ubuntu_create_dirs `{Host} :
  create_dir_all (path_join (path_join tmp "cloud-init") "ubuntu") w =
  (Normal (Ok tt), set_fs (insert (sub "cloud-init/ubuntu") NDir) (set_fs (insert (sub "cloud-init") NDir) w)).
Proof.
  unfold create_dir_all.
  rewrite dir_chain_join, dir_chain_join; [|done|apply char_notin_lit; reflexivity|
    apply sub_ne_nil|apply char_notin_lit; reflexivity].
  rewrite <- app_assoc, mkdir_chain_app, run_bind, mkdir_chain_dirs by done. cbn beta iota.
  change (path_join tmp "cloud-init") with (sub "cloud-init").
  rewrite (path_join_sub_lit "cloud-init" "ubuntu" "cloud-init/ubuntu") by reflexivity.
  cbn [app mkdir_chain]. rewrite run_bind, mkdir_one_fresh by apply sub_fresh. cbn beta iota.
  rewrite run_bind, mkdir_one_fresh by (fs_simpl; apply sub_fresh). done.
Qed.

(** The host after the file stage. *)
Definition ubuntu_staged : world :=
  set_fs (insert (sub "cloud-init/ubuntu/network-config") (NFile (substitute net nc)))
   (set_fs (insert (sub "cloud-init/ubuntu/user-data") (NFile ud))
    (set_fs (insert (sub "cloud-init/ubuntu/meta-data") (NFile md))
     (set_fs (insert (sub "cloud-init/ubuntu") NDir)
      (set_fs (insert (sub "cloud-init") NDir) w)))).

Lemma ubuntu_prepare_files `{Host} :
  ubuntu_prepare tmp net w =
  (r ← command_output (mkdosfs_cmd "cidata" (path_join tmp "cloudinit"));
   expect "Expect creating disk image to succeed" r;;
   st_for_each (fun x =>
     r ← command_output (mcopy_cmd (path_join tmp "cloudinit") (path_join (sub "cloud-init/ubuntu") x));
     expect "Expect copying files to disk image to succeed" r;; mret tt)
     ["user-data"; "meta-data"; "network-config"];;
   mret (path_join tmp "cloudinit")) ubuntu_staged.
Proof.
  unfold ubuntu_prepare. cbv zeta.
  rewrite run_bind, ubuntu_create_dirs. cbn beta iota.
  rewrite run_bind, run_expect_ok. cbn beta iota.
  rewrite run_bind. cbn [current_dir]. cbn beta iota.
  rewrite run_bind, run_unwrap_ok. cbn beta iota.
  rewrite !w_cwd_set_fs. fold (ubuntu_src "meta-data") (ubuntu_src "user-data") (ubuntu_src "network-config").
  change (path_join tmp "cloud-init") with (sub "cloud-init").
  rewrite (path_join_sub_lit "cloud-init" "ubuntu" "cloud-init/ubuntu") by reflexivity.
  cbn [st_for_each]. rewrite bind_assoc, run_bind. cbn beta.
  rewrite (copy_step_run _ _ _ md); cycle 1.
  { fs_simpl. exact Hmd. }
  { rewrite path_parent_join; [|apply sub_ne_nil|apply char_notin_lit; reflexivity].
    unfold is_dir. fs_simpl. apply orb_true_r. }
  { rewrite (path_join_sub_lit _ _ _ eq_refl). fs_simpl. apply sub_fresh. }
  cbn beta iota. rewrite bind_assoc, run_bind. cbn beta.
  rewrite (copy_step_run _ _ _ ud); cycle 1.
  { fs_simpl. exact Hud. }
  { rewrite path_parent_join; [|apply sub_ne_nil|apply char_notin_lit; reflexivity].
    unfold is_dir. fs_simpl. apply orb_true_r. }
  { rewrite !(path_join_sub_lit _ _ _ eq_refl). fs_simpl. apply sub_fresh. }
  cbn beta iota. rewrite bind_ret_l, run_bind, (read_file_run _ _ nc); cycle 1.
  { fs_simpl. exact Hnc. }
  cbn beta iota. rewrite run_bind, write_file_run; cycle 1.
  { rewrite path_parent_join; [|apply sub_ne_nil|apply char_notin_lit; reflexivity].
    unfold is_dir. fs_simpl. apply orb_true_r. }
  { rewrite !(path_join_sub_lit _ _ _ eq_refl). fs_simpl. apply sub_fresh. }
  cbn beta iota. unfold ubuntu_staged. rewrite !(path_join_sub_lit _ _ _ eq_refl). reflexivity.
Qed.

(** The seed image the Linux host ends with. *)
Definition ubuntu_seed_files : gmap string string :=
  <["network-config" := substitute net nc]> (<["meta-data" := md]> (<["user-data" := ud]> ∅)).

Lemma ubuntu_prepare_linux :
  exists w', ubuntu_prepare tmp net w = (Normal (sub "cloudinit"), w') /\
    w_fs w' = (<[sub "cloudinit" := NImage "cidata" ubuntu_seed_files]> (w_fs ubuntu_staged)) /\
    w_log w' = (w_log w ++
      [EvRun (mkdosfs_cmd "cidata" (sub "cloudinit")) 0;
       EvRun (mcopy_cmd (sub "cloudinit") (sub "cloud-init/ubuntu/user-data")) 0;
       EvRun (mcopy_cmd (sub "cloudinit") (sub "cloud-init/ubuntu/meta-data")) 0;
       EvRun (mcopy_cmd (sub "cloudinit") (sub "cloud-init/ubuntu/network-config")) 0])%list /\
    fs_log_only w w'.
Proof.
  rewrite ubuntu_prepare_files. change (path_join tmp "cloudinit") with (sub "cloudinit").
  rewrite run_bind, linux_mkdosfs_run; cycle 1.
  { unfold ubuntu_staged. fs_simpl. apply sub_fresh. }
  { change (sub "cloudinit") with (path_join tmp "cloudinit").
    rewrite (path_parent_join tmp "cloudinit") by (done || (apply char_notin_lit; reflexivity)).
    unfold is_dir, ubuntu_staged. fs_simpl. by rewrite tmp_is_dir, orb_true_r. }
  rewrite run_bind, run_expect_ok. cbn beta iota. cbn [st_for_each].
  rewrite bind_assoc, run_bind. cbn beta.
  rewrite (linux_mcopy_step _ _ _ "cidata" ∅ ud); [|fs_simpl; done|unfold ubuntu_staged; fs_simpl; done].
  rewrite basename_join by (apply char_notin_lit; reflexivity).
  cbn beta iota. rewrite bind_assoc, run_bind. cbn beta.
  rewrite (linux_mcopy_step _ _ _ "cidata" (<["user-data" := ud]> ∅) md);
    [|fs_simpl; done|unfold ubuntu_staged; fs_simpl; done].
  rewrite basename_join by (apply char_notin_lit; reflexivity).
  cbn beta iota. rewrite bind_assoc, run_bind. cbn beta.
  rewrite (linux_mcopy_step _ _ _ "cidata" (<["meta-data" := md]> (<["user-data" := ud]> ∅)) (substitute net nc));
    [|fs_simpl; done|unfold ubuntu_staged; fs_simpl; done].
  cbn beta iota. rewrite bind_ret_l, run_ret.
  eexists. split; [reflexivity|]. split; [|split; [|reflexivity]];
    cbn [w_fs w_log w_taps w_procs w_net log_event set_fs].
  - rewrite !insert_insert_eq, basename_join by (apply char_notin_lit; reflexivity).
    by rewrite ?(path_join_sub_lit _ _ _ eq_refl).
  - rewrite <- !app_assoc. by rewrite ?(path_join_sub_lit _ _ _ eq_refl).
Qed.

(** C3: On the Linux host, with a fresh temporary directory and the
    three Ubuntu templates present, [UbuntuCloudInit::prepare] returns
    [<tmp>/cloudinit], which is then a FAT image labelled [cidata] holding
    exactly [user-data] and [meta-data] verbatim and [network-config]
    seeded with the identity; it runs [mkdosfs] once and [mcopy] once per
    file, in the order of the source; every path outside the temporary
    directory, the interfaces, the processes and the guest are untouched. *)
Theorem ubuntu_prepare_seeds :
  exists w', ubuntu_prepare tmp net w = (Normal (path_join tmp "cloudinit"), w') /\
    w_fs w' !! path_join tmp "cloudinit" =
      Some (NImage "cidata" (<["network-config" := substitute net nc]>
                              (<["meta-data" := md]> (<["user-data" := ud]> ∅)))) /\
    (forall k, String.prefix (tmp ++ "/") k = false -> w_fs w' !! k = w_fs w !! k) /\
    w_log w' = (w_log w ++
      [EvRun (mkdosfs_cmd "cidata" (sub "cloudinit")) 0;
       EvRun (mcopy_cmd (sub "cloudinit") (sub "cloud-init/ubuntu/user-data")) 0;
       EvRun (mcopy_cmd (sub "cloudinit") (sub "cloud-init/ubuntu/meta-data")) 0;
       EvRun (mcopy_cmd (sub "cloudinit") (sub "cloud-init/ubuntu/network-config")) 0])%list /\
    w_taps w' = w_taps w /\ w_procs w' = w_procs w /\ w_net w' = w_net w.
Proof.
  destruct ubuntu_prepare_linux as (w' & Hrun & Hfs & Hlog & (_ & _ & _ & Ht & Hp & _ & Hn)%fs_log_only_fields).
  exists w'. split; [exact Hrun|]. rewrite Hfs. split; [apply lookup_insert_eq|]. split; [|done].
  intros k Hk. unfold ubuntu_staged. cbn [w_fs set_fs].
  by rewrite !lookup_insert_ne by (apply sub_ne_outside; exact Hk).
Qed.

(** C14: The exit status of [mkdosfs] and [mcopy] is never looked at
    ([.output()] fails only when the program cannot be started): on a host
    where both tools run but fail, without effect, [prepare] still returns
    [<tmp>/cloudinit] normally, and no image exists there. *)
Theorem ubuntu_prepare_ignores_tool_failure `{Host} :
  (forall c w', program c = "mkdosfs" \/ program c = "mcopy" -> host_run c w' = Some (1%Z, w')) ->
  exists w', ubuntu_prepare tmp net w = (Normal (path_join tmp "cloudinit"), w') /\
    w_fs w' !! path_join tmp "cloudinit" = None.
Proof.
  intros Hfail. rewrite ubuntu_prepare_files.
  rewrite run_bind, (command_output_fails_run _ _ Hfail) by (left; reflexivity).
  rewrite run_bind, run_expect_ok. cbn beta iota. cbn [st_for_each].
  rewrite bind_assoc, run_bind. cbn beta. rewrite (command_fails_step _ _ _ Hfail) by (right; reflexivity).
  cbn beta iota. rewrite bind_assoc, run_bind. cbn beta.
  rewrite (command_fails_step _ _ _ Hfail) by (right; reflexivity).
  cbn beta iota. rewrite bind_assoc, run_bind. cbn beta.
  rewrite (command_fails_step _ _ _ Hfail) by (right; reflexivity).
  cbn beta iota. rewrite bind_ret_l, run_ret.
  eexists. split; [reflexivity|]. unfold ubuntu_staged.
  change (path_join tmp "cloudinit") with (sub "cloudinit"). fs_simpl. apply sub_fresh.
Qed.

End UbuntuFiles.

(** ** Theorems *)

(** C9: Seeding a template is exact: for every [u8] counter and every
    MAC, the three substitutions turn a well-formed template with
    placeholders into the same template with the identity's host address,
    guest address and MAC in the slots, and no other byte changed. *)
Theorem substitute_template (c : Z) (rand : list Z) (t : list piece) :
  (0 <= c < 256)%Z -> pieces_wf t = true ->
  substitute (new c rand) (render placeholder t) = render (value (new c rand)) t.
Proof.
  intros Hc Hwf. pose proof (values_ok_all c Hc) as Hv. unfold values_ok in Hv.
  rewrite !andb_true_iff, !negb_true_iff in Hv. destruct Hv as [[H1 H2] H3].
  unfold substitute, render.
  change PH_HOST_IP with (placeholder SHost).
  rewrite replace_segments; [|done|].
  2: { apply (segs_safe_pieces SHost); [done|apply lit_ok_contains|].
       intros []; [left; apply String.eqb_refl|right; reflexivity|right; reflexivity]. }
  rewrite stage_map by done.
  change PH_GUEST_IP with (placeholder SGuest).
  rewrite replace_segments; [|done|].
  2: { apply (segs_safe_pieces SGuest); [done|apply lit_ok_contains|].
       intros []; cbn [placeholder].
       - right. rewrite subst_seg_same. exact H1.
       - left. rewrite subst_seg_other by discriminate. apply String.eqb_refl.
       - right. rewrite subst_seg_other by discriminate. reflexivity. }
  rewrite stage_map by done.
  change PH_MAC with (placeholder SMac).
  rewrite replace_segments; [|done|].
  2: { apply (segs_safe_pieces SMac); [done|apply lit_ok_contains|].
       intros []; cbn [placeholder].
       - right. rewrite subst_seg_same, subst_seg_other by (apply contains_ne; exact H1).
         exact H2.
       - right. rewrite (subst_seg_other PH_HOST_IP) by discriminate. rewrite subst_seg_same.
         exact H3.
       - left. rewrite (subst_seg_other PH_HOST_IP), (subst_seg_other PH_GUEST_IP) by discriminate.
         apply String.eqb_refl. }
  rewrite stage_map by done.
  f_equal. apply map_ext. intros [s|[]]; [done| | |]; cbn [piece_text placeholder value].
  - rewrite subst_seg_same, (subst_seg_other PH_GUEST_IP), (subst_seg_other PH_MAC); [done|..].
    + apply contains_ne. exact H2.
    + apply contains_ne. exact H1.
  - rewrite (subst_seg_other PH_HOST_IP) by discriminate. rewrite subst_seg_same.
    rewrite (subst_seg_other PH_MAC); [done|]. apply contains_ne. exact H3.
  - rewrite (subst_seg_other PH_HOST_IP), (subst_seg_other PH_GUEST_IP) by discriminate.
    by rewrite subst_seg_same.
Qed.

(** ** Witnesses *)

(** A network-config template in the shape section 6 of the spec
    describes: an address line, a gateway line and a MAC match line. *)
Definition sample_template : list piece :=
  [Lit "addresses: ["; Slot SGuest; Lit "/24]
gateway4: "; Slot SHost; Lit "
macaddress: "; Slot SMac; Lit "
"].

Lemma substitute_template_witness :
  (0 <= 6 < 256)%Z /\ pieces_wf sample_template = true /\
  substitute (new 6 sample_rand) (render placeholder sample_template) =
  render (value (new 6 sample_rand)) sample_template.
Proof.
  split; [lia|]. split; [vm_compute; reflexivity|].
  apply substitute_template; [lia|vm_compute; reflexivity].
Defined.

(** A host with a fresh temporary directory [/tmp/t0] and the Ubuntu
    templates under its working directory. *)
Definition seed_fs : gmap string node :=
  <["/tmp" := NDir]> (<["/tmp/t0" := NDir]>
  (<["/work/resources/cloud-init/ubuntu/meta-data" := NFile "instance-id: cloud"]>
  (<["/work/resources/cloud-init/ubuntu/user-data" := NFile "#cloud-config"]>
  (<["/work/resources/cloud-init/ubuntu/network-config" := NFile (render placeholder sample_template)]> ∅)))).

Definition seed_host : world :=
  sample_world seed_fs (GuestSsh.mkNet 0 "" (fun _ => GuestSsh.Refuse (Ssh.IoError "down")) GuestSsh.NoAuth []).

(** Tools that start but always exit with status 1. *)
Definition failing_tools : Host := {| host_run _ w := Some (1%Z, w); host_spawn _ w := Some w |}.

Lemma ubuntu_prepare_seeds_witness :
  fresh_under (w_fs seed_host) "/tmp/t0" = true /\
  exists w', ubuntu_prepare "/tmp/t0" (new 6 sample_rand) seed_host = (Normal "/tmp/t0/cloudinit", w') /\
    w_fs w' !! "/tmp/t0/cloudinit" =
      Some (NImage "cidata" (<["network-config" := substitute (new 6 sample_rand) (render placeholder sample_template)]>
                              (<["meta-data" := "instance-id: cloud"]> (<["user-data" := "#cloud-config"]> ∅)))).
Proof.
  split; [vm_compute; reflexivity|].
  destruct (ubuntu_prepare_seeds "/tmp/t0" (new 6 sample_rand) seed_host
              "instance-id: cloud" "#cloud-config" (render placeholder sample_template))
    as (w' & Hrun & Himg & _); [discriminate|repeat constructor|vm_compute; reflexivity
                                |reflexivity..|].
  exists w'. split; [exact Hrun|exact Himg].
Defined.

Lemma ubuntu_prepare_ignores_tool_failure_witness :
  (forall c w', program c = "mkdosfs" \/ program c = "mcopy" -> host_run (Host := failing_tools) c w' = Some (1%Z, w')) /\
  exists w', ubuntu_prepare (H := failing_tools) "/tmp/t0" (new 6 sample_rand) seed_host =
               (Normal "/tmp/t0/cloudinit", w') /\
    w_fs w' !! "/tmp/t0/cloudinit" = None.
Proof.
  split; [reflexivity|].
  apply (ubuntu_prepare_ignores_tool_failure "/tmp/t0" (new 6 sample_rand) seed_host
           "instance-id: cloud" "#cloud-config" (render placeholder sample_template));
    [discriminate|repeat constructor|vm_compute; reflexivity|reflexivity..].
Defined.


End CloudInit.
