(* ===== verification/ClearSeed.v ===== *)
(** * The Clear Linux seeder, run on the Linux host

    [ClearCloudInit::prepare] (src/src/integration.rs lines 67-117) lays
    out an OpenStack config drive: it creates
    [<tmp>/cloud-init/clear/openstack/latest], copies [meta_data.json]
    there, writes [user_data] seeded with the identity, makes the FAT
    image [<tmp>/cloudinit] labelled [config-2] and copies the whole
    [openstack] directory into it with one [mcopy -s].  Under a fresh
    temporary directory, with the two templates present, the image ends
    up holding exactly [openstack/latest/meta_data.json] verbatim and
    [openstack/latest/user_data] seeded, which is the layout a config
    drive has. *)

From S2P Require Import Prelude RustStr NetConfig Ssh World Linux CloudInit.
From stdpp Require Import gmap.
From Stdlib Require Import Lia.
Local Open Scope string_scope.

Module ClearSeed.
Import NetConfig World Linux Replace CloudInit.

Section ClearFiles.
Context (tmp : string) (net : GuestNetworkConfig) (w : world) (md ud : string).

(** The templates under the working directory. *)
Definition clear_src (x : string) : string :=
  path_join (path_join (path_join (path_join (path_join (path_join (w_cwd w) "resources")
    "cloud-init") "clear") "openstack") "latest") x.

Hypothesis Htmp : tmp <> "".
Hypothesis Hdirs : Forall (fun d => w_fs w !! d = Some NDir) (dir_chain tmp).
Hypothesis Hempty : fresh_under (w_fs w) tmp = true.
Hypothesis Hmd : w_fs w !! clear_src "meta_data.json" = Some (NFile md).
Hypothesis Hud : w_fs w !! clear_src "user_data" = Some (NFile ud).

(** The directory [mcopy] copies. *)
Definition cid : string := sub tmp "cloud-init/clear/openstack".

(** The host after the file stage. *)
Definition clear_staged : world :=
  set_fs (insert (sub tmp "cloud-init/clear/openstack/latest/user_data") (NFile (substitute net ud)))
   (set_fs (insert (sub tmp "cloud-init/clear/openstack/latest/meta_data.json") (NFile md))
    (set_fs (insert (sub tmp "cloud-init/clear/openstack/latest") NDir)
     (set_fs (insert (sub tmp "cloud-init/clear/openstack") NDir)
      (set_fs (insert (sub tmp "cloud-init/clear") NDir)
       (set_fs (insert (sub tmp "cloud-init") NDir) w))))).

(** The config drive's files. *)
Definition clear_seed_files : gmap string string :=
  <["openstack/latest/user_data" := substitute net ud]> (<["openstack/latest/meta_data.json" := md]> ∅).

Ltac key_neq :=
  first [ apply sub_neq; reflexivity
        | eapply (sub_ne_existing tmp w Hempty); eassumption
        | apply not_eq_sym; eapply (sub_ne_existing tmp w Hempty); eassumption
        | eapply (sub_ne_existing tmp w Hempty); apply (tmp_is_dir tmp w Hdirs) ].

(** The seeder's paths, as entries under [tmp]. *)
Ltac sub_lits :=
  rewrite ?(path_join_sub_lit tmp "cloud-init" "clear" "cloud-init/clear" eq_refl),
    ?(path_join_sub_lit tmp "cloud-init/clear" "openstack" "cloud-init/clear/openstack" eq_refl),
    ?(path_join_sub_lit tmp "cloud-init/clear/openstack" "latest" "cloud-init/clear/openstack/latest" eq_refl),
    ?(path_join_sub_lit tmp "cloud-init/clear/openstack/latest" "meta_data.json"
        "cloud-init/clear/openstack/latest/meta_data.json" eq_refl),
    ?(path_join_sub_lit tmp "cloud-init/clear/openstack/latest" "user_data"
        "cloud-init/clear/openstack/latest/user_data" eq_refl).

Ltac fs_simpl :=
  cbn [w_fs set_fs log_event];
  repeat first [ rewrite lookup_insert_eq | rewrite lookup_insert_ne by key_neq ].

Lemma dir_chain_sub_lit (r c rc : string) :
  r ++ "/" ++ c = rc -> "/"%char ∉ str_chars c ->
  dir_chain (sub tmp rc) = (dir_chain (sub tmp r) ++ [sub tmp rc])%list.
Proof.
  intros <- Hc. rewrite <- (path_join_sub_lit tmp r c _ eq_refl).
  apply dir_chain_join; [apply sub_ne_nil|done].
Qed.

Lemma path_parent_sub_lit (r c rc : string) :
  r ++ "/" ++ c = rc -> "/"%char ∉ str_chars c -> path_parent (sub tmp rc) = sub tmp r.
Proof.
  intros <- Hc. rewrite <- (path_join_sub_lit tmp r c _ eq_refl).
  apply path_parent_join; [apply sub_ne_nil|done].
Qed.

Ltac lit := first [reflexivity | apply char_notin_lit; reflexivity].

Lemma clear_create_dirs `{Host} :
  create_dir_all (sub tmp "cloud-init/clear/openstack/latest") w =
  (Normal (Ok tt),
   set_fs (insert (sub tmp "cloud-init/clear/openstack/latest") NDir)
    (set_fs (insert (sub tmp "cloud-init/clear/openstack") NDir)
     (set_fs (insert (sub tmp "cloud-init/clear") NDir)
      (set_fs (insert (sub tmp "cloud-init") NDir) w)))).
Proof.
  unfold create_dir_all.
  rewrite (dir_chain_sub_lit "cloud-init/clear/openstack" "latest"),
    (dir_chain_sub_lit "cloud-init/clear" "openstack"), (dir_chain_sub_lit "cloud-init" "clear") by lit.
  change (sub tmp "cloud-init") with (path_join tmp "cloud-init").
  rewrite dir_chain_join by (done || lit). change (path_join tmp "cloud-init") with (sub tmp "cloud-init").
  rewrite <- !app_assoc, mkdir_chain_app, run_bind, mkdir_chain_dirs by done. cbn beta iota.
  cbn [app mkdir_chain].
  rewrite run_bind, mkdir_one_fresh by apply (sub_fresh tmp w Hempty). cbn beta iota.
  do 3 (rewrite run_bind, mkdir_one_fresh by (fs_simpl; apply (sub_fresh tmp w Hempty)); cbn beta iota).
  done.
Qed.

Lemma is_dir_staged (r : string) (w' : world) :
  w_fs w' !! sub tmp r = Some NDir -> is_dir w' (sub tmp r) = true.
Proof. intros E. unfold is_dir. by rewrite E, orb_true_r. Qed.

Lemma clear_prepare_files `{Host} :
  clear_prepare tmp net w =
  (r ← command_output (mkdosfs_cmd "config-2" (sub tmp "cloudinit"));
   expect "Expect creating disk image to succeed" r;;
   r ← command_output (mcopy_cmd (sub tmp "cloudinit") cid);
   expect "Expect copying files to disk image to succeed" r;;
   mret (sub tmp "cloudinit")) clear_staged.
Proof.
  unfold clear_prepare. cbv zeta.
  change (path_join tmp "cloudinit") with (sub tmp "cloudinit").
  change (path_join tmp "cloud-init") with (sub tmp "cloud-init").
  sub_lits. rewrite run_bind, clear_create_dirs. cbn beta iota.
  rewrite run_bind, run_expect_ok. cbn beta iota.
  rewrite run_bind. cbn [current_dir]. cbn beta iota.
  rewrite run_bind, run_unwrap_ok. cbn beta iota.
  rewrite !w_cwd_set_fs. fold (clear_src "meta_data.json") (clear_src "user_data").
  rewrite run_bind, (fs_copy_run _ _ md); cycle 1.
  { fs_simpl. exact Hmd. }
  { rewrite (path_parent_sub_lit "cloud-init/clear/openstack/latest" "meta_data.json") by lit.
    apply is_dir_staged. fs_simpl. done. }
  { fs_simpl. apply (sub_fresh tmp w Hempty). }
  cbn beta iota. rewrite run_bind, run_expect_ok. cbn beta iota.
  rewrite run_bind, (read_file_run _ _ ud) by (fs_simpl; exact Hud). cbn beta iota.
  rewrite run_bind, write_file_run; cycle 1.
  { rewrite (path_parent_sub_lit "cloud-init/clear/openstack/latest" "user_data") by lit.
    apply is_dir_staged. fs_simpl. done. }
  { fs_simpl. apply (sub_fresh tmp w Hempty). }
  cbn beta iota. reflexivity.
Qed.

(** *** What [mcopy -s] copies into the image *)

Lemma sub_under_cid (x rc : string) :
  "cloud-init/clear/openstack/" ++ x = rc -> sub tmp rc = (cid ++ "/") ++ x.
Proof. intros <-. unfold cid, sub. rewrite !str_app_assoc. reflexivity. Qed.

Lemma image_key (x rc : string) :
  "cloud-init/clear/openstack/" ++ x = rc ->
  basename cid ++ "/" ++ str_drop (String.length (cid ++ "/")) (sub tmp rc) = "openstack/" ++ x.
Proof.
  intros E. rewrite (sub_under_cid x rc E), str_drop_app. unfold cid.
  rewrite <- (path_join_sub_lit tmp "cloud-init/clear" "openstack" "cloud-init/clear/openstack" eq_refl).
  rewrite basename_join by lit.
  reflexivity.
Qed.

Lemma prefix_cid_tmp (k : string) : String.prefix (cid ++ "/") k = true -> String.prefix (tmp ++ "/") k = true.
Proof.
  intros [r ->]%str_prefix_inv. unfold cid, sub. rewrite !str_app_assoc, <- str_app_assoc.
  apply str_prefix_app.
Qed.

(** The files once [mkdosfs] has made the empty image. *)
Definition clear_imaged : gmap string node :=
  <[sub tmp "cloudinit" := NImage "config-2" ∅]> (w_fs clear_staged).

Lemma clear_under (k c : string) :
  clear_imaged !! k = Some (NFile c) -> String.prefix (cid ++ "/") k = true ->
  (k = sub tmp "cloud-init/clear/openstack/latest/meta_data.json" /\ c = md) \/
  (k = sub tmp "cloud-init/clear/openstack/latest/user_data" /\ c = substitute net ud).
Proof.
  intros Hk Hp. assert (Hw : w_fs w !! k = None).
  { destruct (w_fs w !! k) as [n|] eqn:E; [|done]. exfalso.
    apply (proj1 (fresh_under_spec _ _) Hempty) in E. by rewrite prefix_cid_tmp in E. }
  unfold clear_imaged, clear_staged in Hk. cbn [w_fs set_fs] in Hk.
  rewrite !lookup_insert_Some in Hk. naive_solver.
Qed.

Lemma clear_tree_elem (i c : string) :
  (i, c) ∈ tree_files clear_imaged cid <->
  (i = "openstack/latest/meta_data.json" /\ c = md) \/ (i = "openstack/latest/user_data" /\ c = substitute net ud).
Proof.
  rewrite tree_files_elem. split.
  - intros (k & Hk & Hp & ->). destruct (clear_under k c Hk Hp) as [[-> ->]|[-> ->]].
    + left. split; [|done]. by rewrite (image_key "latest/meta_data.json").
    + right. split; [|done]. by rewrite (image_key "latest/user_data").
  - assert (Hne : forall r, sub tmp r <> sub tmp "cloudinit" -> clear_imaged !! sub tmp r = w_fs clear_staged !! sub tmp r)
      by (intros r Hr; unfold clear_imaged; by rewrite lookup_insert_ne by congruence).
    intros [[-> ->]|[-> ->]].
    + exists (sub tmp "cloud-init/clear/openstack/latest/meta_data.json").
      rewrite Hne by key_neq. unfold clear_staged. split_and!; [by fs_simpl| |].
      * rewrite (sub_under_cid "latest/meta_data.json") by reflexivity. apply str_prefix_app.
      * by rewrite (image_key "latest/meta_data.json").
    + exists (sub tmp "cloud-init/clear/openstack/latest/user_data").
      rewrite Hne by key_neq. unfold clear_staged. split_and!; [by fs_simpl| |].
      * rewrite (sub_under_cid "latest/user_data") by reflexivity. apply str_prefix_app.
      * by rewrite (image_key "latest/user_data").
Qed.

Lemma clear_image_files : (list_to_map (tree_files clear_imaged cid) : gmap string string) = clear_seed_files.
Proof.
  apply map_eq. intros i. unfold clear_seed_files.
  destruct (decide (i = "openstack/latest/meta_data.json")) as [->|H1];
    [|destruct (decide (i = "openstack/latest/user_data")) as [->|H2]].
  - rewrite lookup_insert_ne, lookup_insert_eq by done.
    apply elem_of_list_to_map_1'; [intros y Hy%clear_tree_elem; naive_solver|].
    apply clear_tree_elem. by left.
  - rewrite lookup_insert_eq.
    apply elem_of_list_to_map_1'; [intros y Hy%clear_tree_elem; naive_solver|].
    apply clear_tree_elem. by right.
  - rewrite !lookup_insert_ne, lookup_empty by done. apply not_elem_of_list_to_map_1.
    intros ([i' y] & -> & Hy%clear_tree_elem)%list_elem_of_fmap. naive_solver.
Qed.

(** The whole run on the Linux host: the seed image over the staged
    files, the two tool runs logged, nothing else changed. *)
Lemma clear_prepare_linux :
  exists w', clear_prepare tmp net w = (Normal (sub tmp "cloudinit"), w') /\
    w_fs w' = <[sub tmp "cloudinit" := NImage "config-2" clear_seed_files]> (w_fs clear_staged) /\
    w_log w' = (w_log w ++ [EvRun (mkdosfs_cmd "config-2" (sub tmp "cloudinit")) 0;
                            EvRun (mcopy_cmd (sub tmp "cloudinit") cid) 0])%list /\
    fs_log_only w w'.
Proof.
  rewrite clear_prepare_files. change (path_join tmp "cloudinit") with (sub tmp "cloudinit").
  rewrite run_bind, linux_mkdosfs_run; cycle 1.
  { unfold clear_staged. fs_simpl. apply (sub_fresh tmp w Hempty). }
  { change (sub tmp "cloudinit") with (path_join tmp "cloudinit").
    rewrite path_parent_join by (done || lit). unfold is_dir, clear_staged. fs_simpl.
    by rewrite (tmp_is_dir tmp w Hdirs), orb_true_r. }
  rewrite run_bind, run_expect_ok. cbn beta iota. rewrite run_bind. unfold command_output at 1.
  change (host_run (mcopy_cmd (sub tmp "cloudinit") cid) ?w')
    with (Some (run_mcopy ["-o"; "-i"; sub tmp "cloudinit"; "-s"; cid; "::"] w')).
  rewrite (run_mcopy_dir _ _ "config-2" ∅); cycle 1.
  { cbn. apply lookup_insert_eq. }
  { cbn [w_fs log_event set_fs]. rewrite lookup_insert_ne by key_neq. unfold clear_staged, cid. by fs_simpl. }
  cbn beta iota. rewrite run_bind, run_expect_ok. cbn beta iota. rewrite run_ret.
  eexists. split; [reflexivity|]. cbn [w_fs w_log log_event set_fs].
  split_and!; [|by rewrite <- app_assoc|reflexivity].
  rewrite insert_insert_eq, map_union_empty. fold clear_imaged. by rewrite clear_image_files.
Qed.

(** C4: On the Linux host, with a fresh temporary directory and the two
    Clear templates present, [ClearCloudInit::prepare] returns
    [<tmp>/cloudinit], which is then a FAT image labelled [config-2]
    holding exactly [openstack/latest/meta_data.json] verbatim and
    [openstack/latest/user_data] seeded with the identity: the one
    [mcopy -s] of the [openstack] directory carries both files under the
    directory's name.  It runs [mkdosfs] then [mcopy], and every path
    outside the temporary directory, the interfaces, the processes and the
    guest are untouched. *)
Theorem clear_prepare_seeds :
  exists w', clear_prepare tmp net w = (Normal (path_join tmp "cloudinit"), w') /\
    w_fs w' !! path_join tmp "cloudinit" =
      Some (NImage "config-2" (<["openstack/latest/user_data" := substitute net ud]>
                                (<["openstack/latest/meta_data.json" := md]> ∅))) /\
    (forall k, String.prefix (tmp ++ "/") k = false -> w_fs w' !! k = w_fs w !! k) /\
    w_log w' = (w_log w ++ [EvRun (mkdosfs_cmd "config-2" (sub tmp "cloudinit")) 0;
                            EvRun (mcopy_cmd (sub tmp "cloudinit") cid) 0])%list /\
    w_taps w' = w_taps w /\ w_procs w' = w_procs w /\ w_net w' = w_net w.
Proof.
  destruct clear_prepare_linux as (w' & Hrun & Hfs & Hlog & (_ & _ & _ & Ht & Hp & _ & Hn)%fs_log_only_fields).
  exists w'. split; [exact Hrun|]. rewrite Hfs. split_and!; [apply lookup_insert_eq| |done..].
  intros k Hk. rewrite lookup_insert_ne by (apply sub_ne_outside; exact Hk).
  unfold clear_staged. cbn [w_fs set_fs]. by rewrite !lookup_insert_ne by (apply sub_ne_outside; exact Hk).
Qed.


End ClearFiles.

(** ** Witness *)

Definition clear_fs : gmap string node :=
  <["/tmp" := NDir]> (<["/tmp/t0" := NDir]>
  (<["/work/resources/cloud-init/clear/openstack/latest/meta_data.json" := NFile "uuid: 0"]>
  (<["/work/resources/cloud-init/clear/openstack/latest/user_data" := NFile (render placeholder sample_template)]> ∅))).

Definition clear_host : world := sample_world clear_fs (seed_host.(w_net)).

Lemma clear_prepare_seeds_witness :
  fresh_under (w_fs clear_host) "/tmp/t0" = true /\
  exists w', clear_prepare "/tmp/t0" (new 6 sample_rand) clear_host = (Normal "/tmp/t0/cloudinit", w') /\
    w_fs w' !! "/tmp/t0/cloudinit" =
      Some (NImage "config-2" (<["openstack/latest/user_data" := substitute (new 6 sample_rand) (render placeholder sample_template)]>
                                (<["openstack/latest/meta_data.json" := "uuid: 0"]> ∅))).
Proof.
  split; [vm_compute; reflexivity|].
  destruct (clear_prepare_seeds "/tmp/t0" (new 6 sample_rand) clear_host
              "uuid: 0" (render placeholder sample_template))
    as (w' & Hrun & Himg & _); [discriminate|repeat constructor|vm_compute; reflexivity|reflexivity..|].
  exists w'. split; [exact Hrun|exact Himg].
Defined.

End ClearSeed.
