(* ===== verification/Seeder.v ===== *)
(** * What the boot test needs of a seeder

    [test_boot] (src/src/integration.rs lines 343-360) holds its seeder as
    a [&dyn CloudInit] and relies on three things of [prepare]: it returns
    [<tmp>/cloudinit], the image the VMM gets as its second disk; it
    writes under the temporary directory only, so that dropping the
    [TempDir] undoes it; and it leaves free every name of that directory
    but [cloudinit] and [cloud-init], so that [prepare_os_disk] can copy
    the OS image beside it.  [seeder_spec] states that contract for a
    [prepare] and the templates it needs ([ready]); both implementations
    of the trait meet it on the Linux host, [ubuntu_seeder] and
    [clear_seeder], and the boot test's theorems are proved against the
    contract, so they hold for both. *)

From S2P Require Import Prelude RustStr NetConfig World Linux CloudInit ClearSeed.
From stdpp Require Import gmap.
Local Open Scope string_scope.

Module Seeder.
Import NetConfig World Linux CloudInit ClearSeed.

(** An event of the log that is a run of an external tool. *)
Definition tool_run (e : event) : Prop := exists c code, e = EvRun c code.

(** A [CloudInit::prepare] under a fresh temporary directory [tmp], on a
    host where its templates are [ready]. *)
Record seeder_spec (prep : string -> GuestNetworkConfig -> ST world string) (ready : world -> Prop) : Prop := {
  seed_ready_frame : forall w w', ready w -> w_cwd w' = w_cwd w ->
    (forall k n, w_fs w !! k = Some n -> w_fs w' !! k = Some n) -> ready w';
  seed_run : forall tmp net w, tmp <> "" -> Forall (fun d => w_fs w !! d = Some NDir) (dir_chain tmp) ->
    fresh_under (w_fs w) tmp = true -> ready w ->
    exists w', prep tmp net w = (Normal (path_join tmp "cloudinit"), w') /\ fs_log_only w w' /\
      (exists l, w_log w' = (w_log w ++ l)%list /\ Forall tool_run l) /\
      (forall k, String.prefix (tmp ++ "/") k = false -> w_fs w' !! k = w_fs w !! k) /\
      (forall r, "/"%char ∉ str_chars r -> String.eqb r "cloudinit" = false ->
         String.eqb r "cloud-init" = false -> w_fs w' !! path_join tmp r = None)
}.

(** The templates of each seeder, under the working directory. *)
Definition ubuntu_ready (w : world) : Prop :=
  exists md ud nc, w_fs w !! ubuntu_src w "meta-data" = Some (NFile md) /\
    w_fs w !! ubuntu_src w "user-data" = Some (NFile ud) /\
    w_fs w !! ubuntu_src w "network-config" = Some (NFile nc).

Definition clear_ready (w : world) : Prop :=
  exists md ud, w_fs w !! clear_src w "meta_data.json" = Some (NFile md) /\
    w_fs w !! clear_src w "user_data" = Some (NFile ud).

(** A name without a slash is none of the seeder's nested paths. *)
Lemma slash_name_ne (img r : string) :
  "/"%char ∉ str_chars img -> existsb (fun c => Ascii.eqb c "/") (str_chars r) = true -> String.eqb img r = false.
Proof.
  intros Hi Hr. destruct (String.eqb_spec img r) as [->|]; [|done]. exfalso. apply Hi.
  apply existsb_exists in Hr as (c & Hc & Hc'). apply Ascii.eqb_eq in Hc' as ->.
  by apply list_elem_of_In.
Qed.

Ltac child_ne :=
  apply sub_neq;
  first [ assumption | rewrite String.eqb_sym; assumption
        | apply slash_name_ne; [assumption|reflexivity]
        | rewrite String.eqb_sym; apply slash_name_ne; [assumption|reflexivity] ].

Ltac tool_runs := repeat constructor; eexists _, _; reflexivity.

Lemma ubuntu_seeder : seeder_spec (@ubuntu_prepare linux) ubuntu_ready.
Proof.
  split.
  - intros w w' (md & ud & nc & Hmd & Hud & Hnc) Hcwd Hfs. unfold ubuntu_ready, ubuntu_src. rewrite Hcwd.
    exists md, ud, nc. split_and!; by apply Hfs.
  - intros tmp net w Htmp Hdirs Hempty (md & ud & nc & Hmd & Hud & Hnc).
    destruct (ubuntu_prepare_linux tmp net w md ud nc) as (w' & Hrun & Hfs & Hlog & Hfl); [done..|].
    exists w'. split_and!; [exact Hrun|exact Hfl|eexists; split; [exact Hlog|tool_runs]| |].
    + intros k Hk. rewrite Hfs. unfold ubuntu_staged. cbn [w_fs set_fs].
      by rewrite !lookup_insert_ne by (apply sub_ne_outside; exact Hk).
    + intros r Hr Hci Hcid. change (path_join tmp r) with (sub tmp r). rewrite Hfs.
      unfold ubuntu_staged. cbn [w_fs set_fs]. rewrite !lookup_insert_ne by child_ne.
      by apply fresh_under_lookup.
Qed.

Lemma clear_seeder : seeder_spec (@clear_prepare linux) clear_ready.
Proof.
  split.
  - intros w w' (md & ud & Hmd & Hud) Hcwd Hfs. unfold clear_ready, clear_src. rewrite Hcwd.
    exists md, ud. split; by apply Hfs.
  - intros tmp net w Htmp Hdirs Hempty (md & ud & Hmd & Hud).
    destruct (clear_prepare_linux tmp net w md ud) as (w' & Hrun & Hfs & Hlog & Hfl); [done..|].
    exists w'. split_and!; [exact Hrun|exact Hfl|eexists; split; [exact Hlog|tool_runs]| |].
    + intros k Hk. rewrite Hfs. unfold clear_staged. cbn [w_fs set_fs].
      by rewrite !lookup_insert_ne by (apply sub_ne_outside; exact Hk).
    + intros r Hr Hci Hcid. change (path_join tmp r) with (sub tmp r). rewrite Hfs.
      unfold clear_staged. cbn [w_fs set_fs]. rewrite !lookup_insert_ne by child_ne.
      by apply fresh_under_lookup.
Qed.

End Seeder.
