(* ===== verification/Frame.v ===== *)
(** * What the filesystem steps leave alone

    The seeders and the file operations of the harness act on the files
    and the log only: whatever they do, and whether they return or panic,
    the tap interfaces and the child processes stay as they were.  The
    boot test relies on it to know that the interfaces [prepare_tap] finds
    are the ones the test started with. *)

From S2P Require Import Prelude RustStr NetConfig Ssh World Linux CloudInit.
From stdpp Require Import gmap.
From Stdlib Require Import Lia.
Local Open Scope string_scope.
Local Open Scope harness_scope.

Module Frame.
Import NetConfig World Linux CloudInit.

(** The interfaces are [T] and the children [Pr]. *)
Definition keeps_tp (T : gmap string tap) (Pr : gmap nat proc) (w : world) : Prop :=
  w_taps w = T /\ w_procs w = Pr.

Lemma preserves_tp {A : Type} (m : ST world A) (T : gmap string tap) (Pr : gmap nat proc) :
  (forall w, w_taps (snd (m w)) = w_taps w /\ w_procs (snd (m w)) = w_procs w) ->
  {{ keeps_tp T Pr }} m.
Proof. intros Hm w [<- <-]. apply Hm. Qed.

(** Solve [preserves_tp]'s premise for an operation whose every branch
    returns the world or an update of its files, counters or log. *)
Ltac frame_ops := apply preserves_tp; intros ?; repeat case_match; split; reflexivity.

Section Ops.
Context `{Host} (T : gmap string tap) (Pr : gmap nat proc).

Lemma mkdir_chain_tp (ds : list string) : {{ keeps_tp T Pr }} (mkdir_chain ds).
Proof.
  induction ds as [|d ds IH]; [apply preserves_ret|].
  apply preserves_bind; [unfold mkdir_one; frame_ops|intros [?|?]; [exact IH|apply preserves_ret]].
Qed.

Lemma create_dir_all_tp (p : string) : {{ keeps_tp T Pr }} (create_dir_all p).
Proof. apply mkdir_chain_tp. Qed.

Lemma fs_copy_tp (src dst : string) : {{ keeps_tp T Pr }} (fs_copy src dst).
Proof. unfold fs_copy. frame_ops. Qed.

Lemma file_open_tp (p : string) : {{ keeps_tp T Pr }} (file_open p).
Proof. unfold file_open. frame_ops. Qed.

Lemma read_to_string_tp (h : string) : {{ keeps_tp T Pr }} (read_to_string h).
Proof. unfold read_to_string. frame_ops. Qed.

Lemma file_create_tp (p : string) : {{ keeps_tp T Pr }} (file_create p).
Proof. unfold file_create. frame_ops. Qed.

Lemma write_all_tp (h bytes : string) : {{ keeps_tp T Pr }} (write_all h bytes).
Proof. unfold write_all. frame_ops. Qed.

Lemma current_dir_tp : {{ keeps_tp T Pr }} current_dir.
Proof. frame_ops. Qed.

Lemma home_dir_tp : {{ keeps_tp T Pr }} home_dir.
Proof. frame_ops. Qed.

Lemma remove_dir_all_tp (p : string) : {{ keeps_tp T Pr }} (remove_dir_all p).
Proof. frame_ops. Qed.

Lemma tempdir_new_tp (prefix : string) : {{ keeps_tp T Pr }} (tempdir_new prefix).
Proof. unfold tempdir_new. frame_ops. Qed.

Lemma counter_fetch_add_tp (delta : Z) : {{ keeps_tp T Pr }} (counter_fetch_add delta).
Proof. frame_ops. Qed.

Lemma gen_u8_6_tp : {{ keeps_tp T Pr }} gen_u8_6.
Proof. frame_ops. Qed.

Lemma eprintln_tp (line : string) : {{ keeps_tp T Pr }} (eprintln line).
Proof. frame_ops. Qed.
End Ops.

(** [mkdosfs] and [mcopy] on the Linux host touch files only. *)
Lemma linux_mkdosfs_tp (label path : string) (T : gmap string tap) (Pr : gmap nat proc) :
  {{ keeps_tp T Pr }} (@command_output linux (mkdosfs_cmd label path)).
Proof.
  apply preserves_tp. intros w. unfold command_output.
  change (@host_run linux (mkdosfs_cmd label path) w) with (Some (run_mkdosfs ["-n"; label; "-C"; path; "8192"] w)).
  unfold run_mkdosfs. repeat case_match; simplify_eq/=; split; reflexivity.
Qed.

Lemma linux_mcopy_tp (img src : string) (T : gmap string tap) (Pr : gmap nat proc) :
  {{ keeps_tp T Pr }} (@command_output linux (mcopy_cmd img src)).
Proof.
  apply preserves_tp. intros w. unfold command_output.
  change (@host_run linux (mcopy_cmd img src) w) with (Some (run_mcopy ["-o"; "-i"; img; "-s"; src; "::"] w)).
  unfold run_mcopy. repeat case_match; simplify_eq/=; split; reflexivity.
Qed.

#[export] Hint Resolve create_dir_all_tp fs_copy_tp file_open_tp read_to_string_tp file_create_tp
  write_all_tp current_dir_tp home_dir_tp remove_dir_all_tp tempdir_new_tp counter_fetch_add_tp
  gen_u8_6_tp eprintln_tp linux_mkdosfs_tp linux_mcopy_tp : preserves.

(** Both seeders, on the Linux host. *)
Section Seeders.
Context (T : gmap string tap) (Pr : gmap nat proc).

Lemma read_file_tp `{Host} (msg p : string) : {{ keeps_tp T Pr }} (read_file msg p).
Proof. unfold read_file. preserves_solve. Qed.

Lemma write_file_tp `{Host} (msg p s : string) : {{ keeps_tp T Pr }} (write_file msg p s).
Proof. unfold write_file. preserves_solve. Qed.

#[local] Hint Resolve read_file_tp write_file_tp : preserves.

Lemma clear_prepare_tp (tmp : string) (net : GuestNetworkConfig) :
  {{ keeps_tp T Pr }} (@clear_prepare linux tmp net).
Proof. unfold clear_prepare. preserves_solve. Qed.

Lemma ubuntu_prepare_tp (tmp : string) (net : GuestNetworkConfig) :
  {{ keeps_tp T Pr }} (@ubuntu_prepare linux tmp net).
Proof. unfold ubuntu_prepare. preserves_solve. Qed.
End Seeders.

End Frame.
