(* ===== verification/Hypervisor.v ===== *)
(** * The VMM launchers: [spawn_ch], [spawn_qemu] and [HypervisorSpawn]

    Models src/src/integration.rs lines 283-341.  Each launcher builds a
    [Command] with a fixed argument list into which it formats the OS disk
    path, the seed image path and the identity's tap name and MAC, prints
    it with [eprintln!("Spawning: {:?}", c)] and spawns it, panicking when
    the program cannot be started.  The VMMs' option parsers are modelled
    from their documentation and sources, not from this repository:
    QEMU's [QemuOpts] lexer ([qemu_lex]: [,,] is an escaped comma inside
    a value) and Cloud Hypervisor's 2020 [OptionParser] ([ch_opts]: split
    at every comma, then at ['=']).  The theorems show which options each
    VMM receives: the identity's tap and MAC always arrive intact, and
    QEMU reads the OS disk path intact only when it has no comma, since
    the launcher does not double its commas.  [spawn_ok] is the contract
    the boot test needs of a launcher; both launchers meet it on the
    Linux host. *)

From S2P Require Import Prelude RustStr NetConfig Ssh World Linux.
From stdpp Require Import gmap.
From Stdlib Require Import Lia.
Local Open Scope string_scope.

Module Hypervisor.
Import NetConfig World Linux Fmt.

Definition FIRMWARE : string := "target/target/release/hypervisor-fw".

(** The arguments of [spawn_ch] (lines 285-297). *)
Definition ch_args (os ci : string) (net : GuestNetworkConfig) : list string :=
  ["--console"; "off"; "--serial"; "tty"; "--kernel"; FIRMWARE;
   "--disk"; "path=" ++ os; "path=" ++ ci;
   "--net"; "tap=" ++ tap_name net ++ ",mac=" ++ guest_mac net].

(** The arguments of [spawn_qemu] (lines 306-335). *)
Definition qemu_args (os ci : string) (net : GuestNetworkConfig) : list string :=
  ["-machine"; "q35,accel=kvm"; "-cpu"; "host,-vmx"; "-kernel"; FIRMWARE;
   "-display"; "none"; "-nodefaults"; "-serial"; "stdio";
   "-drive"; "id=os,file=" ++ os ++ ",if=none";
   "-device"; "virtio-blk-pci,drive=os,disable-legacy=on";
   "-drive"; "id=ci,file=" ++ ci ++ ",if=none,format=raw";
   "-device"; "virtio-blk-pci,drive=ci,disable-legacy=on";
   "-m"; "1G";
   "-netdev"; "tap,id=net0,ifname=" ++ tap_name net ++ ",script=no,downscript=no";
   "-device"; "virtio-net-pci,netdev=net0,mac=" ++ guest_mac net].

(** [{:?}] of a [Command] on Unix: each of the program and the arguments
    as a quoted C string, separated by spaces; a byte is shown as
    [ascii::escape_default] shows it. *)
Definition BACKSLASH : ascii := "092".
Definition QUOTE : ascii := "034".
Definition APOSTROPHE : ascii := "039".

Definition escape_byte (c : ascii) : string :=
  let n := nat_of_ascii c in
  if Ascii.eqb c "009" then String BACKSLASH "t"
  else if Ascii.eqb c "013" then String BACKSLASH "r"
  else if Ascii.eqb c "010" then String BACKSLASH "n"
  else if Ascii.eqb c BACKSLASH then String BACKSLASH (String BACKSLASH "")
  else if Ascii.eqb c APOSTROPHE then String BACKSLASH (String APOSTROPHE "")
  else if Ascii.eqb c QUOTE then String BACKSLASH (String QUOTE "")
  else if (32 <=? n)%nat && (n <? 127)%nat then String c ""
  else String BACKSLASH (String "x" (fmt_02x (Z.of_nat n))).

Fixpoint escape_default (s : string) : string :=
  match s with
  | EmptyString => ""
  | String c s' => escape_byte c ++ escape_default s'
  end.

Definition debug_str (s : string) : string := String QUOTE (escape_default s ++ String QUOTE "").

Definition debug_command (c : Command) : string :=
  String.concat " " (map debug_str (program c :: args c)).

Definition ch_command (os ci : string) (net : GuestNetworkConfig) : Command :=
  command_args (command_new "./cloud-hypervisor") (ch_args os ci net).

Definition qemu_command (os ci : string) (net : GuestNetworkConfig) : Command :=
  command_args (command_new "qemu-system-x86_64") (qemu_args os ci net).

Section Spawn.
Context `{Host}.

(** [spawn_ch] (lines 283-302): the child's pid. *)
Definition spawn_ch (os ci : string) (net : GuestNetworkConfig) : ST world nat :=
  let c := ch_command os ci net in
  eprintln ("Spawning: " ++ debug_command c);;
  r ← command_spawn c; expect "Expect launching Cloud Hypervisor to succeed" r.

(** [spawn_qemu] (lines 304-339). *)
Definition spawn_qemu (os ci : string) (net : GuestNetworkConfig) : ST world nat :=
  let c := qemu_command os ci net in
  eprintln ("Spawning: " ++ debug_command c);;
  r ← command_spawn c; expect "Expect launching QEMU to succeed" r.

End Spawn.

(** [type HypervisorSpawn = fn(os: &str, ci: &str, net: &GuestNetworkConfig) -> Child]. *)
Definition HypervisorSpawn : Type := string -> string -> GuestNetworkConfig -> ST world nat.

(** ** The contract the boot test relies on

    A launcher that logs the line [Spawning: <command>], starts that
    command as one child under the next pid, live and not yet reaped, and
    changes nothing else. *)
Definition spawn_ok (sp : HypervisorSpawn) (cmd : string -> string -> GuestNetworkConfig -> Command) : Prop :=
  forall os ci net w,
    let c := cmd os ci net in
    sp os ci net w =
    (Normal (w_next_pid w),
     log_event (EvSpawn (w_next_pid w) c)
       (set_procs (insert (w_next_pid w) (mkProc c true false)) (S (w_next_pid w))
          (log_event (EvStderr ("Spawning: " ++ debug_command c)) w))).

(** ** The VMMs' option strings *)

(** [key=value]: split at the first ['=']; a bare word has an empty value. *)
Fixpoint split_kv_go (acc s : string) : string * string :=
  match s with
  | EmptyString => (acc, "")
  | String c s' => if Ascii.eqb c "=" then (acc, s') else split_kv_go (acc ++ String c "") s'
  end.

(** Cloud Hypervisor's [OptionParser] of the releases this harness ran
    against (2020): the option string is split at every [','] and each
    piece at its ['=']. *)
Definition ch_opts (s : string) : list (string * string) :=
  map (split_kv_go "") (split_on "," s).

(** QEMU's [QemuOpts] syntax ([opts_do_parse], [get_opt_name],
    [get_opt_value] of util/qemu-option.c): a name runs up to ['='] or
    [','], a value up to a single [','], and [,,] inside a value stands
    for one comma.  The lexer's state is the name being read, or the name
    and the value being read. *)
Inductive qstate := QName (k : string) | QVal (k v : string).

Fixpoint qemu_lex (st : qstate) (s : string) : list (string * string) :=
  match s with
  | EmptyString =>
      match st with
      | QName k => if String.eqb k "" then [] else [(k, "")]
      | QVal k v => [(k, v)]
      end
  | String c s' =>
      match st with
      | QName k =>
          if Ascii.eqb c "=" then qemu_lex (QVal k "") s'
          else if Ascii.eqb c "," then (k, "") :: qemu_lex (QName "") s'
          else qemu_lex (QName (k ++ String c "")) s'
      | QVal k v =>
          if Ascii.eqb c "," then
            match s' with
            | String d s'' =>
                if Ascii.eqb d "," then qemu_lex (QVal k (v ++ ",")) s''
                else (k, v) :: qemu_lex (QName "") s'
            | EmptyString => [(k, v)]
            end
          else qemu_lex (QVal k (v ++ String c "")) s'
      end
  end.

Definition qemu_opts (s : string) : list (string * string) := qemu_lex (QName "") s.

(** How a value with commas has to be written for QEMU: each [','] doubled. *)
Fixpoint qemu_escape (s : string) : string :=
  match s with
  | EmptyString => ""
  | String c s' => if Ascii.eqb c "," then String "," (String "," (qemu_escape s')) else String c (qemu_escape s')
  end.

Definition opt_value (k : string) (opts : list (string * string)) : option string :=
  option_map snd (List.find (fun kv => String.eqb kv.1 k) opts).

(** The values following each occurrence of a flag. *)
Fixpoint args_after (flag : string) (l : list string) : list string :=
  match l with
  | x :: ((y :: _) as l') => if String.eqb x flag then y :: args_after flag l' else args_after flag l'
  | _ => []
  end.

(** ** Lemmas *)

Lemma split_kv_go_noeq (acc k : string) : "="%char ∉ str_chars k -> split_kv_go acc k = (acc ++ k, "").
Proof.
  revert acc. induction k as [|c k IH]; intros acc Hk; cbn [split_kv_go].
  - by rewrite str_app_nil_r.
  - simpl in Hk. apply not_elem_of_cons in Hk as [Hc Hk].
    rewrite (proj2 (Ascii.eqb_neq c "=")) by done. rewrite IH by done. by rewrite str_app_assoc.
Qed.

Lemma split_kv_go_eq (acc k v : string) :
  "="%char ∉ str_chars k -> split_kv_go acc (k ++ String "=" v) = (acc ++ k, v).
Proof.
  revert acc. induction k as [|c k IH]; intros acc Hk.
  - rewrite str_app_nil_l. cbn [split_kv_go Ascii.eqb]. by rewrite str_app_nil_r.
  - rewrite str_app_cons. cbn [split_kv_go]. simpl in Hk. apply not_elem_of_cons in Hk as [Hc Hk].
    rewrite (proj2 (Ascii.eqb_neq c "=")) by done. rewrite IH by done. by rewrite str_app_assoc.
Qed.

(** An option [k=v] whose key has no ['=']. *)
Lemma split_kv_lit (k v : string) : "="%char ∉ str_chars k -> split_kv_go "" (k ++ "=" ++ v) = (k, v).
Proof. intros Hk. change ("=" ++ v) with (String "=" v). by rewrite split_kv_go_eq. Qed.

Lemma ch_opts_concat (ws : list string) :
  Forall (fun w => ","%char ∉ str_chars w) ws -> ws <> [] ->
  ch_opts (String.concat "," ws) = map (split_kv_go "") ws.
Proof. intros Hf Hne. unfold ch_opts. by rewrite split_on_concat. Qed.

Lemma notin_lit_app (c : ascii) (l t : string) :
  forallb (fun d => negb (Ascii.eqb d c)) (str_chars l) = true -> c ∉ str_chars t ->
  c ∉ str_chars (l ++ t).
Proof. intros Hl Ht. apply str_notin_app; [by apply char_notin_lit|done]. Qed.

(** A generated identity's names contain neither [','] nor ['=']. *)
Lemma new_names_plain (c : Z) (r : list Z) (d : ascii) :
  is_u8_array 6 r -> d = ","%char \/ d = "="%char ->
  d ∉ str_chars (tap_name (new c r)) /\ d ∉ str_chars (guest_mac (new c r)).
Proof.
  intros Hr Hd. destruct (new_chars c r Hr) as (Hm & Ht & _).
  split; [eapply chars_in_notin; [exact Ht|]|eapply chars_in_notin; [exact Hm|]];
    destruct Hd as [->| ->]; apply char_notin_lit; reflexivity.
Qed.

Lemma split_kv_pre (kq k v : string) :
  kq = k ++ "=" -> "="%char ∉ str_chars k -> split_kv_go "" (kq ++ v) = (k, v).
Proof. intros -> Hk. rewrite str_app_assoc. by apply split_kv_lit. Qed.

(** The value of an option of [k=v,...] whose earlier keys differ. *)
Lemma opt_value_skip (k : string) (kv : string * string) (l : list (string * string)) :
  String.eqb kv.1 k = false -> opt_value k (kv :: l) = opt_value k l.
Proof. intros E. unfold opt_value. cbn. by rewrite E. Qed.

Lemma opt_value_here (k v : string) (l : list (string * string)) :
  opt_value k ((k, v) :: l) = Some v.
Proof. unfold opt_value. cbn. by rewrite String.eqb_refl. Qed.

(** Splitting [x ++ v ++ post] at commas, [x] having none: the first
    piece is [x ++ v] when [v] has no comma, a shorter cut of it else. *)
Lemma split_on_cut (x v post : string) :
  ","%char ∉ str_chars x -> (post = "" \/ exists p, post = String "," p) ->
  exists y rest, split_on "," (x ++ v ++ post) = (x ++ y) :: rest /\
    ((","%char ∉ str_chars v /\ y = v) \/ (","%char ∈ str_chars v /\ String.length y < String.length v)).
Proof.
  intros Hx Hpost. destruct (decide (","%char ∈ str_chars v)) as [Hin|Hnin].
  - destruct (str_first_occurrence _ _ Hin) as (a & b & -> & Ha).
    exists a, (split_on "," (b ++ post)). split.
    + rewrite !str_app_assoc, str_app_cons, <- str_app_assoc. apply split_on_app_sep.
      by apply str_notin_app.
    + right. split; [done|]. rewrite str_length_app. simpl. lia.
  - exists v. destruct Hpost as [->|[p ->]].
    + exists []. rewrite str_app_nil_r. split; [|by left]. apply split_on_nosep.
      by apply str_notin_app.
    + exists (split_on "," p). rewrite <- str_app_assoc. split; [|by left].
      apply split_on_app_sep. by apply str_notin_app.
Qed.

(** The option [k] is read back as [v] exactly when [v] has no comma. *)
Lemma opt_value_cut_iff (k v y : string) (l : list (string * string)) :
  opt_value k l = Some y ->
  ((","%char ∉ str_chars v /\ y = v) \/ (","%char ∈ str_chars v /\ String.length y < String.length v)) ->
  opt_value k l = Some v <-> ","%char ∉ str_chars v.
Proof.
  intros Hl [[Hv ->]|[Hv Hlen]]; rewrite Hl; [done|]. split; [|done].
  intros [= ->]. lia.
Qed.

(** *** QEMU's lexer *)

(** The number of commas of a string. *)
Fixpoint commas (s : string) : nat :=
  match s with
  | EmptyString => 0
  | String c s' => (if Ascii.eqb c "," then 1 else 0) + commas s'
  end.

Lemma commas_app (s t : string) : commas (s ++ t) = commas s + commas t.
Proof. induction s as [|c s IH]; [done|]. rewrite str_app_cons. cbn. rewrite IH. lia. Qed.

Lemma commas_escape (s : string) : commas (qemu_escape s) = 2 * commas s.
Proof. induction s as [|c s IH]; [done|]. cbn. destruct (Ascii.eqb c ",") eqn:E; cbn; rewrite ?E, IH; lia. Qed.

Lemma length_escape (s : string) : String.length (qemu_escape s) = String.length s + commas s.
Proof. induction s as [|c s IH]; [done|]. cbn. destruct (Ascii.eqb c ","); cbn; rewrite IH; lia. Qed.

Lemma commas_zero (s : string) : commas s = 0 <-> ","%char ∉ str_chars s.
Proof.
  induction s as [|c s IH]; cbn; [split; [intros _; apply not_elem_of_nil|done]|].
  rewrite not_elem_of_cons, <- IH. destruct (Ascii.eqb_spec c ","); subst; cbn; split.
  - lia.
  - by intros [? _].
  - done.
  - by intros [_ ->].
Qed.

(** A value without commas is read through. *)
Lemma qemu_val_plain (k acc v t : string) :
  ","%char ∉ str_chars v -> qemu_lex (QVal k acc) (v ++ t) = qemu_lex (QVal k (acc ++ v)) t.
Proof.
  revert acc. induction v as [|c v IH]; intros acc Hv; [by rewrite str_app_nil_l, str_app_nil_r|].
  cbn in Hv. apply not_elem_of_cons in Hv as [Hc Hv]. rewrite str_app_cons. cbn.
  rewrite (proj2 (Ascii.eqb_neq c ",")) by done. rewrite IH by done. by rewrite str_app_assoc.
Qed.

(** A single comma ends the value. *)
Lemma qemu_val_end (k v r : string) :
  String.prefix "," r = false -> qemu_lex (QVal k v) (String "," r) = (k, v) :: qemu_lex (QName "") r.
Proof.
  intros Hr. destruct r as [|d r]; [done|]. destruct (Ascii.eqb_spec d ",") as [->|Hd].
  { change (String "," r) with ("," ++ r) in Hr. by rewrite str_prefix_app in Hr. }
  cbn [qemu_lex]. by rewrite Ascii.eqb_refl, (proj2 (Ascii.eqb_neq d ",") Hd).
Qed.

(** An escaped value is read back as the value. *)
Lemma qemu_val_escape (k acc y t : string) :
  qemu_lex (QVal k acc) (qemu_escape y ++ t) = qemu_lex (QVal k (acc ++ y)) t.
Proof.
  revert acc. induction y as [|c y IH]; intros acc; [by rewrite str_app_nil_l, str_app_nil_r|].
  cbn [qemu_escape]. destruct (Ascii.eqb_spec c ",") as [->|Hc]; rewrite !str_app_cons; cbn.
  - rewrite IH. by rewrite str_app_assoc.
  - rewrite (proj2 (Ascii.eqb_neq c ",")) by done. rewrite IH. by rewrite str_app_assoc.
Qed.

(** Whatever the text, the value read is some [y] that the text spells
    escaped, up to the end or to a single comma. *)
Lemma prefix_comma_cons (d : ascii) (w : string) : d <> ","%char -> String.prefix "," (String d w) = false.
Proof. intros Hd. cbn [String.prefix]. by destruct (ascii_dec "," d) as [<-|]. Qed.

(** Whatever the text, the value read is some [y] that the text spells
    escaped, up to the end or to a single comma. *)
Lemma qemu_val_decomp (k acc w : string) :
  exists y, (w = qemu_escape y /\ qemu_lex (QVal k acc) w = [(k, acc ++ y)]) \/
    (exists r, w = qemu_escape y ++ String "," r /\ String.prefix "," r = false /\
       qemu_lex (QVal k acc) w = (k, acc ++ y) :: qemu_lex (QName "") r).
Proof.
  remember (String.length w) as n eqn:Hn. revert w acc Hn.
  induction n as [n IH] using lt_wf_ind. intros w acc ->.
  destruct w as [|c w]; [exists ""; left; by rewrite str_app_nil_r|].
  destruct (Ascii.eqb_spec c ",") as [->|Hc].
  - destruct w as [|d w]; [exists ""; right; exists ""; by rewrite str_app_nil_r|].
    destruct (Ascii.eqb_spec d ",") as [->|Hd].
    + destruct (IH (String.length w) ltac:(cbn; lia) w (acc ++ ",") eq_refl) as (y & [[-> Hl]|(r & -> & Hr & Hl)]);
        exists (String "," y); [left|right; exists r]; cbn [qemu_escape qemu_lex]; rewrite Ascii.eqb_refl, ?str_app_cons;
        split_and!; try done; by rewrite Hl, str_app_assoc.
    + exists "". right. exists (String d w).
      split_and!; [done|by apply prefix_comma_cons|]. rewrite qemu_val_end by (by apply prefix_comma_cons).
      by rewrite str_app_nil_r.
  - destruct (IH (String.length w) ltac:(cbn; lia) w (acc ++ String c "") eq_refl) as (y & [[-> Hl]|(r & -> & Hr & Hl)]);
      exists (String c y); [left|right; exists r]; cbn [qemu_escape qemu_lex];
      rewrite (proj2 (Ascii.eqb_neq c ",")) by done; rewrite ?str_app_cons;
      split_and!; try done; by rewrite Hl, str_app_assoc.
Qed.


Lemma prefix_comma_word (w r : string) :
  ","%char ∉ str_chars w -> w <> "" -> String.prefix "," (w ++ r) = false.
Proof.
  intros Hw Hne. destruct w as [|c w]; [done|]. cbn in Hw. apply not_elem_of_cons in Hw as [Hc _].
  rewrite str_app_cons. by apply prefix_comma_cons.
Qed.

(** The options of the OS drive, up to its path. *)
Lemma qemu_drive_head (t : string) :
  qemu_opts ("id=os,file=" ++ t) = ("id", "os") :: qemu_lex (QVal "file" "") t.
Proof. reflexivity. Qed.

Lemma lit_app_ne_nil (l t : string) : l <> "" -> l ++ t <> "".
Proof. intros Hl [? _]%str_app_eq_nil. done. Qed.

Lemma comma_not_eq : Ascii.eqb "," "=" = false.
Proof. reflexivity. Qed.

(** A word [k=v] or [k] without commas, followed by a comma. *)
Lemma qemu_word (acc w r : string) :
  ","%char ∉ str_chars w -> String.prefix "," r = false ->
  qemu_lex (QName acc) (w ++ String "," r) = split_kv_go acc w :: qemu_lex (QName "") r.
Proof.
  revert acc. induction w as [|c w IH]; intros acc Hw Hr.
  - rewrite str_app_nil_l. cbn [qemu_lex split_kv_go]. by rewrite comma_not_eq, Ascii.eqb_refl.
  - simpl in Hw. apply not_elem_of_cons in Hw as [Hc Hw]. rewrite str_app_cons. cbn [qemu_lex split_kv_go].
    rewrite (proj2 (Ascii.eqb_neq c ",") (not_eq_sym Hc)). destruct (Ascii.eqb c "="); [|by apply IH].
    rewrite qemu_val_plain, qemu_val_end by done. by rewrite str_app_nil_l.
Qed.

Lemma qemu_word_last (acc w : string) :
  ","%char ∉ str_chars w -> acc ++ w <> "" -> qemu_lex (QName acc) w = [split_kv_go acc w].
Proof.
  revert acc. induction w as [|c w IH]; intros acc Hw Hne.
  - rewrite str_app_nil_r in Hne. cbn [qemu_lex split_kv_go]. by destruct (String.eqb_spec acc "").
  - simpl in Hw. apply not_elem_of_cons in Hw as [Hc Hw]. cbn [qemu_lex split_kv_go].
    rewrite (proj2 (Ascii.eqb_neq c ",") (not_eq_sym Hc)). destruct (Ascii.eqb c "=").
    + rewrite <- (str_app_nil_r w) at 1. rewrite qemu_val_plain by done. done.
    + apply IH; [done|]. rewrite str_app_assoc. by intros [_ ?]%str_app_eq_nil.
Qed.

(** Words without commas, joined by commas, are read back word by word. *)
Lemma qemu_opts_concat (ws : list string) :
  Forall (fun w => ","%char ∉ str_chars w /\ w <> "") ws -> ws <> [] ->
  qemu_opts (String.concat "," ws) = map (split_kv_go "") ws.
Proof.
  unfold qemu_opts. induction ws as [|w [|w' ws] IH]; intros Hf Hne; [done| |].
  - inversion_clear Hf as [|? ? [Hw Hw0] _]. cbn. by apply qemu_word_last.
  - inversion_clear Hf as [|? ? [Hw _] Hf']. inversion Hf' as [|? ? [Hw' Hw'0] _]; subst.
    change (String.concat "," (w :: w' :: ws)) with (w ++ String "," (String.concat "," (w' :: ws))).
    rewrite qemu_word; [|done|].
    2: { destruct ws as [|w'' ws].
         - change (String.concat "," [w']) with w'. rewrite <- (str_app_nil_r w'). by apply prefix_comma_word.
         - change (String.concat "," (w' :: w'' :: ws)) with (w' ++ "," ++ String.concat "," (w'' :: ws)).
           by apply prefix_comma_word. }
    cbn [map]. f_equal. by apply IH.
Qed.

Lemma spawn_ch_ok : spawn_ok spawn_ch ch_command.
Proof. intros os ci net w. reflexivity. Qed.

Lemma spawn_qemu_ok : spawn_ok spawn_qemu qemu_command.
Proof. intros os ci net w. reflexivity. Qed.

Ltac lit_ok := first [reflexivity | apply char_notin_lit; reflexivity].
Ltac no_comma :=
  repeat constructor; first [done | apply char_notin_lit; reflexivity | apply notin_lit_app; done].
Ltac no_comma_word :=
  repeat constructor; first [done | apply char_notin_lit; reflexivity | apply notin_lit_app; done
                            | apply lit_app_ne_nil; discriminate].

(** ** Theorems *)

(** C15: For every generated identity, both VMMs receive its tap name
    and MAC intact: Cloud Hypervisor's [--net] value parses to exactly
    [tap=<tap_name>] and [mac=<guest_mac>], QEMU's [-netdev] value binds
    [ifname=<tap_name>] with scripts off, and its third [-device] gives
    the virtio-net device that MAC, whatever the disk paths. *)
Theorem vmm_net_options_carry_identity (c : Z) (rand : list Z) (os ci : string) :
  is_u8_array 6 rand ->
  let net := new c rand in
  map ch_opts (args_after "--net" (ch_args os ci net)) =
    [[("tap", tap_name net); ("mac", guest_mac net)]] /\
  map qemu_opts (args_after "-netdev" (qemu_args os ci net)) =
    [[("tap", ""); ("id", "net0"); ("ifname", tap_name net); ("script", "no"); ("downscript", "no")]] /\
  map qemu_opts (args_after "-device" (qemu_args os ci net)) =
    [[("virtio-blk-pci", ""); ("drive", "os"); ("disable-legacy", "on")];
     [("virtio-blk-pci", ""); ("drive", "ci"); ("disable-legacy", "on")];
     [("virtio-net-pci", ""); ("netdev", "net0"); ("mac", guest_mac net)]].
Proof.
  intros Hr net.
  destruct (new_names_plain c rand "," Hr (or_introl eq_refl)) as [Htc Hmc].
  destruct (new_names_plain c rand "=" Hr (or_intror eq_refl)) as [Hte Hme].
  fold net in Htc, Hmc, Hte, Hme.
  split_and!.
  - change (args_after "--net" (ch_args os ci net))
      with [String.concat "," ["tap=" ++ tap_name net; "mac=" ++ guest_mac net]].
    cbn [map]. rewrite ch_opts_concat by no_comma.
    cbn [map]. rewrite (split_kv_pre "tap=" "tap"), (split_kv_pre "mac=" "mac") by lit_ok. done.
  - change (args_after "-netdev" (qemu_args os ci net))
      with [String.concat "," ["tap"; "id=net0"; "ifname=" ++ tap_name net; "script=no"; "downscript=no"]].
    cbn [map]. rewrite qemu_opts_concat by no_comma_word.
    cbn [map]. rewrite (split_kv_pre "ifname=" "ifname") by lit_ok. done.
  - change (args_after "-device" (qemu_args os ci net))
      with [String.concat "," ["virtio-blk-pci"; "drive=os"; "disable-legacy=on"];
            String.concat "," ["virtio-blk-pci"; "drive=ci"; "disable-legacy=on"];
            String.concat "," ["virtio-net-pci"; "netdev=net0"; "mac=" ++ guest_mac net]].
    cbn [map]. rewrite !qemu_opts_concat by no_comma_word.
    cbn [map]. rewrite (split_kv_pre "mac=" "mac") by lit_ok. done.
Qed.

(** C16: QEMU reads the OS drive's options as the launcher means them,
    [id=os], [file=<os>] and [if=none], exactly when the path has no
    comma: [spawn_qemu] formats the path as it is, while QEMU reads [,,]
    as one comma and a single [','] as the end of the value.  The same
    path with its commas doubled would be read back intact whatever it
    holds. *)
Theorem qemu_disk_path_intact_iff (os ci : string) (net : GuestNetworkConfig) :
  exists s, head (args_after "-drive" (qemu_args os ci net)) = Some s /\
    (qemu_opts s = [("id", "os"); ("file", os); ("if", "none")] <-> ","%char ∉ str_chars os) /\
    qemu_opts ("id=os,file=" ++ qemu_escape os ++ ",if=none") = [("id", "os"); ("file", os); ("if", "none")].
Proof.
  exists ("id=os,file=" ++ os ++ ",if=none"). split; [reflexivity|]. rewrite !qemu_drive_head. split.
  - split.
    + destruct (qemu_val_decomp "file" "" (os ++ ",if=none")) as (y & [[Hw ->]|(r & Hw & _ & ->)]);
        intros [= <-]; apply commas_zero; pose proof (f_equal String.length Hw) as Hl;
        apply (f_equal commas) in Hw; rewrite ?commas_app, ?commas_escape, ?str_length_app, ?length_escape in *;
        cbn in *; lia.
    + intros Hos. rewrite qemu_val_plain, qemu_val_end by done. done.
  - by rewrite qemu_val_escape, qemu_val_end.
Qed.

(** ** Witnesses *)

Lemma vmm_net_options_carry_identity_witness :
  is_u8_array 6 sample_rand /\
  let net := new 6 sample_rand in
  map ch_opts (args_after "--net" (ch_args "/tmp/t0/os.img" "/tmp/t0/cloudinit" net)) =
    [[("tap", tap_name net); ("mac", guest_mac net)]] /\
  map qemu_opts (args_after "-netdev" (qemu_args "/tmp/t0/os.img" "/tmp/t0/cloudinit" net)) =
    [[("tap", ""); ("id", "net0"); ("ifname", tap_name net); ("script", "no"); ("downscript", "no")]] /\
  map qemu_opts (args_after "-device" (qemu_args "/tmp/t0/os.img" "/tmp/t0/cloudinit" net)) =
    [[("virtio-blk-pci", ""); ("drive", "os"); ("disable-legacy", "on")];
     [("virtio-blk-pci", ""); ("drive", "ci"); ("disable-legacy", "on")];
     [("virtio-net-pci", ""); ("netdev", "net0"); ("mac", guest_mac net)]].
Proof.
  split; [exact sample_rand_ok|].
  exact (vmm_net_options_carry_identity 6 sample_rand "/tmp/t0/os.img" "/tmp/t0/cloudinit" sample_rand_ok).
Defined.

End Hypervisor.
