(* ===== verification/TestBoot.v ===== *)
(** * The boot test: [prepare_os_disk], [test_boot] and the test cases

    Models src/src/integration.rs lines 180-189 and 343-395.  [test_boot]
    makes a temporary directory, draws an identity from [COUNTER] and the
    random source, has the seeder build the seed image, copies the OS disk
    image, brings the tap up, launches the VMM, waits 20 seconds, shuts
    the guest down over SSH, kills and reaps the VMM and removes the tap.
    The [TempDir] is dropped when [test_boot] returns and also while a
    panic unwinds through it ([st_finally]); the [Child] has no such
    [Drop].  The theorems, on the Linux host, follow one test through,
    for any seeder that meets [seeder_spec] (both do) and any launcher
    that meets [spawn_ok] (both do):
    with a guest that answers SSH it succeeds and leaves the host's
    files and interfaces as they were, with the VMM reaped; with a guest
    that never answers it panics at the SSH step and leaves the tap up
    and the VMM running, which makes the next process's test with the
    same counter fail.  On any Linux host, a test whose tap name is taken
    panics before it starts its VMM. *)

From S2P Require Import Prelude RustStr NetConfig Ssh World Linux Tap CloudInit ClearSeed Seeder Frame Hypervisor.
From stdpp Require Import gmap.
From Stdlib Require Import Lia.
Local Open Scope string_scope.
Local Open Scope harness_scope.

Module TestBoot.
Import NetConfig Ssh GuestSsh World Linux Tap CloudInit ClearSeed Seeder Frame Hypervisor Fmt.

Section Boot.
Context `{Host}.

(** [prepare_os_disk] (lines 180-189). *)
Definition prepare_os_disk (tmp_dir image_name : string) : ST world string :=
  h ← home_dir; h ← expect_option "Expect getting home directory to succeed" h;
  let src_osdisk := path_join (path_join h "workloads") image_name in
  let dest_osdisk := path_join tmp_dir image_name in
  r ← fs_copy src_osdisk dest_osdisk; expect "Expect copying OS disk to succeed" r;;
  mret dest_osdisk.

(** The scope of [tmp_dir] in [test_boot] (lines 345-359); the seeder is
    [&dyn CloudInit]. *)
Definition test_boot_body {T : Type} `{CloudInit T} (image_name : string) (cloud_init : T)
    (spawn : HypervisorSpawn) (tmp_dir : string) : ST world unit :=
  c ← counter_fetch_add 1; m ← gen_u8_6;
  let net := new (as_u8 c) m in
  ci ← prepare cloud_init tmp_dir net;
  os ← prepare_os_disk tmp_dir image_name;
  prepare_tap net;;
  child ← spawn os ci net;
  thread_sleep 20;;
  r ← ssh_command (guest_ip net) "sudo shutdown -h now"; expect "Expect SSH command to work" r;;
  r ← child_kill child; unwrap r;;
  r ← child_wait child; unwrap r;;
  cleanup_tap net.

(** [test_boot] (lines 343-360): the [TempDir] is dropped, removing the
    directory, when the scope ends and while a panic unwinds from it. *)
Definition test_boot {T : Type} `{CloudInit T} (image_name : string) (cloud_init : T)
    (spawn : HypervisorSpawn) : ST world unit :=
  r ← tempdir_new "rhfw"; tmp_dir ← expect "Expect creating temporary directory to succeed" r;
  st_finally (test_boot_body image_name cloud_init spawn tmp_dir) (remove_dir_all tmp_dir).

End Boot.

(** The image names (lines 362-364). *)
Definition BIONIC_IMAGE_NAME : string := "bionic-server-cloudimg-amd64-raw.img".
Definition FOCAL_IMAGE_NAME : string := "focal-server-cloudimg-amd64-raw.img".
Definition CLEAR_IMAGE_NAME : string := "clear-31311-cloudguest.img".

(** The seeder a test case passes. *)
Inductive seeder := SeedUbuntu | SeedClear.

Inductive vmm := VmmQemu | VmmCh.

Definition vmm_spawn `{Host} (v : vmm) : HypervisorSpawn :=
  match v with VmmQemu => spawn_qemu | VmmCh => spawn_ch end.

(** A test function of lines 366-395: its name, whether it carries
    [#[test]], and the [test_boot] call it makes. *)
Record test_case := mkTest {
  tc_name : string;
  tc_enabled : bool;
  tc_image : string;
  tc_seeder : seeder;
  tc_vmm : vmm;
}.

Definition tests : list test_case :=
  [mkTest "test_boot_qemu_bionic" true BIONIC_IMAGE_NAME SeedUbuntu VmmQemu;
   mkTest "test_boot_qemu_focal" false FOCAL_IMAGE_NAME SeedUbuntu VmmQemu;
   mkTest "test_boot_qemu_clear" true CLEAR_IMAGE_NAME SeedClear VmmQemu;
   mkTest "test_boot_ch_bionic" true BIONIC_IMAGE_NAME SeedUbuntu VmmCh;
   mkTest "test_boot_ch_focal" true FOCAL_IMAGE_NAME SeedUbuntu VmmCh;
   mkTest "test_boot_ch_clear" true CLEAR_IMAGE_NAME SeedClear VmmCh].

(** The body of a test function. *)
Definition run_test `{Host} (t : test_case) : ST world unit :=
  match tc_seeder t with
  | SeedUbuntu => test_boot (tc_image t) UbuntuCloudInitV (vmm_spawn (tc_vmm t))
  | SeedClear => test_boot (tc_image t) ClearCloudInitV (vmm_spawn (tc_vmm t))
  end.

(** ** Running the steps of a test *)

Lemma sleep_run (secs : Z) (w : world) :
  thread_sleep secs w =
  (Normal tt, set_net (ns_set (ns_cur (w_net w)) [EvSleep secs] secs (w_net w)) w).
Proof. reflexivity. Qed.

Lemma ssh_world_run (ip command : string) (w : world) (r : outcome (result string SSHCommandError))
    (st' : net_state) :
  ssh_command ip command (w_net w) = (r, st') -> ssh_command ip command w = (r, set_net st' w).
Proof. intros E. rewrite ssh_command_on_net. unfold on_net. by rewrite E. Qed.

Lemma kill_run (pid : nat) (c : Command) (w : world) :
  w_procs w !! pid = Some (mkProc c true false) ->
  child_kill pid w =
  (Normal (Ok tt), log_event (EvKill pid) (set_procs (insert pid (mkProc c false false)) (w_next_pid w) w)).
Proof. intros Hp. unfold child_kill. by rewrite Hp. Qed.

Lemma wait_run (pid : nat) (c : Command) (alive : bool) (w : world) :
  w_procs w !! pid = Some (mkProc c alive false) ->
  child_wait pid w =
  (Normal (Ok tt), log_event (EvWait pid) (set_procs (insert pid (mkProc c false true)) (w_next_pid w) w)).
Proof. intros Hp. unfold child_wait. by rewrite Hp. Qed.

Lemma os_disk_run (tmp img h disk : string) (w : world) :
  tmp <> "" -> "/"%char ∉ str_chars img ->
  w_home w = Some h ->
  w_fs w !! path_join (path_join h "workloads") img = Some (NFile disk) ->
  w_fs w !! tmp = Some NDir -> w_fs w !! path_join tmp img = None ->
  prepare_os_disk tmp img w =
  (Normal (path_join tmp img), set_fs (insert (path_join tmp img) (NFile disk)) w).
Proof.
  intros Ht Hi Hh Hs Hd Hn. unfold prepare_os_disk.
  rewrite run_bind. cbn [home_dir]. rewrite Hh. cbn beta iota.
  rewrite run_bind. cbn [expect_option]. rewrite run_ret. cbn beta iota zeta.
  rewrite run_bind, (fs_copy_run _ _ disk); [done|done| |done].
  rewrite path_parent_join by done. unfold is_dir. by rewrite Hd, orb_true_r.
Qed.

Lemma os_disk_missing (tmp img h : string) (w : world) :
  w_home w = Some h -> w_fs w !! path_join (path_join h "workloads") img = None ->
  prepare_os_disk tmp img w = (Panic "Expect copying OS disk to succeed", w).
Proof.
  intros Hh Hs. unfold prepare_os_disk.
  rewrite run_bind. cbn [home_dir]. rewrite Hh. cbn beta iota.
  rewrite run_bind. cbn [expect_option]. rewrite run_ret. cbn beta iota zeta.
  rewrite run_bind. unfold fs_copy at 1. by rewrite Hs.
Qed.

(** *** The virtual machine phase: from the tap to its removal *)

Section VmPhase.
Context (sp : HypervisorSpawn) (cmd : string -> string -> GuestNetworkConfig -> Command).
Hypothesis Hsp : spawn_ok sp cmd.
Context (net : GuestNetworkConfig) (os ci : string).
Hypothesis Hwf : net_wf net.

(** The host once the tap is up and the VMM started. *)
Definition vm_started (w : world) : world :=
  let w1 := tap_up_world net w in
  let c := cmd os ci net in
  log_event (EvSpawn (w_next_pid w1) c)
    (set_procs (insert (w_next_pid w1) (mkProc c true false)) (S (w_next_pid w1))
       (log_event (EvStderr ("Spawning: " ++ debug_command c)) w1)).

Lemma vm_start_run (w : world) (k : nat -> ST world unit) :
  w_taps w !! tap_name net = None ->
  (prepare_tap net;; child ← sp os ci net; k child) w = k (w_next_pid w) (vm_started w).
Proof.
  intros Hn. rewrite run_bind, (prepare_tap_run net Hwf w Hn). cbn beta iota.
  pose proof (Hsp os ci net (tap_up_world net w)) as E. cbv zeta in E.
  by rewrite run_bind, E.
Qed.

(** The guest's network after the 20 second wait. *)
Definition after_sleep (w : world) : net_state :=
  ns_set (ns_cur (w_net w)) [EvSleep 20] 20 (w_net w).

Lemma vm_finish_served (pid : nat) (c : Command) (w : world) (out : string) (st' : net_state) :
  w_procs w !! pid = Some (mkProc c true false) ->
  ssh_command (guest_ip net) "sudo shutdown -h now" (after_sleep w) = (Normal (Ok out), st') ->
  exists w', (thread_sleep 20;;
     r ← ssh_command (guest_ip net) "sudo shutdown -h now"; expect "Expect SSH command to work" r;;
     r ← child_kill pid; unwrap r;;
     r ← child_wait pid; unwrap r;;
     cleanup_tap net) w = (Normal tt, w') /\
    w_taps w' = delete (tap_name net) (w_taps w) /\
    w_procs w' = <[pid := mkProc c false true]> (w_procs w) /\
    w_fs w' = w_fs w /\ w_counter w' = w_counter w /\ w_net w' = st' /\
    w_log w' = (w_log w ++ [EvKill pid; EvWait pid; EvRun (bash_c (tuntap_del net)) 0])%list.
Proof.
  intros Hp Hs. rewrite run_bind, sleep_run. cbn beta iota. fold (after_sleep w).
  rewrite run_bind, (ssh_world_run _ _ (set_net (after_sleep w) w) _ _ Hs). cbn beta iota.
  rewrite run_bind, run_expect_ok. cbn beta iota.
  rewrite run_bind, (kill_run pid c) by done. cbn beta iota. rewrite run_bind, run_unwrap_ok. cbn beta iota.
  rewrite run_bind, (wait_run pid c false) by (cbn; apply lookup_insert_eq). cbn beta iota.
  rewrite run_bind, run_unwrap_ok. cbn beta iota.
  rewrite (cleanup_tap_run net Hwf). eexists. split; [reflexivity|].
  cbn. by rewrite insert_insert_eq, <- !app_assoc.
Qed.

Lemma vm_finish_refused (pid : nat) (w : world) (e : SSHCommandError) (st' : net_state) :
  ssh_command (guest_ip net) "sudo shutdown -h now" (after_sleep w) = (Normal (Err e), st') ->
  (thread_sleep 20;;
     r ← ssh_command (guest_ip net) "sudo shutdown -h now"; expect "Expect SSH command to work" r;;
     r ← child_kill pid; unwrap r;;
     r ← child_wait pid; unwrap r;;
     cleanup_tap net) w =
  (Panic "Expect SSH command to work", set_net st' (set_net (after_sleep w) w)).
Proof.
  intros Hs. rewrite run_bind, sleep_run. cbn beta iota. fold (after_sleep w).
  by rewrite run_bind, (ssh_world_run _ _ (set_net (after_sleep w) w) _ _ Hs).
Qed.

End VmPhase.

(** *** A test whose tap name is taken

    Whatever the host's files, a test whose tap name already exists never
    reaches its launcher: every step before [prepare_tap] leaves the
    interfaces and the children alone, and [prepare_tap] then fails its
    first assertion.  The seeder only has to keep to its files, as both
    do ([Frame]). *)

Lemma prepare_os_disk_tp `{Host} (Tp : gmap string tap) (Pr : gmap nat proc) (tmp img : string) :
  {{ keeps_tp Tp Pr }} (prepare_os_disk tmp img).
Proof. unfold prepare_os_disk. preserves_solve. Qed.

(** A panic that keeps [P] still does once a [Drop] that keeps [P] has run. *)
Lemma finally_panic_keeps {A : Type} (P : world -> Prop) (m : ST world A) (fin : ST world unit) (w : world) :
  (exists msg w1, m w = (Panic msg, w1) /\ P w1) -> preserves P fin ->
  exists msg w2, st_finally m fin w = (Panic msg, w2) /\ P w2.
Proof.
  intros (msg & w1 & Hm & H1) Hf. unfold st_finally. rewrite Hm.
  specialize (Hf w1 H1). destruct (fin w1) as [[]] eqn:E; cbn in Hf; eauto.
Qed.

Section Busy.
Context {T : Type} `{CloudInit T} (cloud_init : T) (spawn : HypervisorSpawn) (img : string).
Hypothesis Hprep : forall Tp Pr tmp net, {{ keeps_tp Tp Pr }} (prepare cloud_init tmp net).

Lemma test_boot_body_busy (tmp : string) (w : world) (t0 : tap) :
  w_taps w !! ("fwtap" ++ fmt_dec (as_u8 (w_counter w))) = Some t0 ->
  exists msg w', @test_boot_body linux _ _ img cloud_init spawn tmp w = (Panic msg, w') /\
    keeps_tp (w_taps w) (w_procs w) w'.
Proof.
  intros Hb. set (Tp := w_taps w). set (Pr := w_procs w). unfold test_boot_body.
  rewrite run_bind. cbn [counter_fetch_add]. cbn beta iota.
  rewrite run_bind. cbn [gen_u8_6]. cbn beta iota zeta.
  set (net := new _ _). set (w2 := next_rng _).
  assert (K2 : keeps_tp Tp Pr w2) by done.
  rewrite run_bind. pose proof (Hprep Tp Pr tmp net w2 K2) as K3.
  destruct (prepare cloud_init tmp net w2) as [[ci|m] w3]; cbn in K3; [|eauto].
  rewrite run_bind. pose proof (prepare_os_disk_tp Tp Pr tmp img w3 K3) as K4.
  destruct (prepare_os_disk tmp img w3) as [[os|m] w4]; cbn in K4; [|eauto].
  destruct K4 as [Ht4 Hp4].
  rewrite run_bind, (prepare_tap_busy_run net (new_wf _ _) w4 t0) by (rewrite Ht4; exact Hb).
  eexists _, _. split; [reflexivity|done].
Qed.

Lemma test_boot_busy (w : world) (t0 : tap) :
  w_taps w !! ("fwtap" ++ fmt_dec (as_u8 (w_counter w))) = Some t0 ->
  exists msg w', @test_boot linux _ _ img cloud_init spawn w = (Panic msg, w') /\
    w_taps w' = w_taps w /\ w_procs w' = w_procs w.
Proof.
  intros Hb. unfold test_boot. rewrite run_bind.
  pose proof (tempdir_new_tp (w_taps w) (w_procs w) "rhfw" w (conj eq_refl eq_refl)) as K1.
  destruct (tempdir_new "rhfw" w) as [[[tmp|e]|m] w1] eqn:E1; cbn in K1.
  - assert (C1 : w_counter w1 = w_counter w) by (unfold tempdir_new in E1; repeat case_match; by simplify_eq).
    rewrite run_bind, run_expect_ok. cbn beta iota.
    destruct (finally_panic_keeps (keeps_tp (w_taps w) (w_procs w)) (test_boot_body img cloud_init spawn tmp)
                (remove_dir_all tmp) w1) as (msg & w2 & -> & K2).
    + destruct K1 as [Ht1 Hp1]. rewrite <- Ht1, <- Hp1. apply (test_boot_body_busy tmp w1 t0).
      rewrite C1, Ht1. exact Hb.
    + apply remove_dir_all_tp.
    + exists msg, w2. split; [done|apply K2].
  - rewrite run_bind. cbn. eexists _, _. split; [reflexivity|apply K1].
  - eexists _, _. split; [reflexivity|apply K1].
Qed.
End Busy.

(** *** One test on a prepared Linux host

    The host has [/tmp], a fresh temporary name, the seeder's templates
    under the working directory, the OS image under [~/workloads], no
    interface with the test's tap name, and the guest network at the
    test's guest address.  The seeder is any [prepare] that meets
    [seeder_spec], so both of them. *)

Lemma ne_by_lookup (fs : gmap string node) (a b : string) (n : node) :
  fs !! a = Some n -> fs !! b = None -> b <> a.
Proof. intros Ha Hb ->. congruence. Qed.

Lemma prefix_slash_self (p : string) : String.prefix (p ++ "/") p = false.
Proof.
  destruct (String.prefix _ _) eqn:E; [|done]. apply str_prefix_inv in E as [r E].
  apply (f_equal String.length) in E. rewrite !str_length_app in E. simpl in E. lia.
Qed.

Section Healthy.
Context (img h disk : string) (w : world) {CI : Type} `{CloudInit CI} (ci : CI) (ready : world -> Prop).

(** The directory [TempDir::new("rhfw")] makes, and the identity drawn. *)
Definition boot_tmp : string := "/tmp/" ++ "rhfw" ++ "." ++ w_tmp_names w (w_tmp_next w).
Definition boot_net : GuestNetworkConfig := new (as_u8 (w_counter w)) (w_rng w (w_rng_next w)).

Hypothesis Hname : "/"%char ∉ str_chars (w_tmp_names w (w_tmp_next w)).
Hypothesis Hroot : w_fs w !! "/tmp" = Some NDir.
Hypothesis Hnone : w_fs w !! boot_tmp = None.
Hypothesis Hempty : fresh_under (w_fs w) boot_tmp = true.
Hypothesis Hseed : seeder_spec (prepare ci) ready.
Hypothesis Hready : ready w.
Hypothesis Hhome : w_home w = Some h.
Hypothesis Himg : "/"%char ∉ str_chars img.
Hypothesis Himg_ci : String.eqb img "cloudinit" = false.
Hypothesis Himg_cid : String.eqb img "cloud-init" = false.

(** The host once the directory exists and the identity is drawn. *)
Definition boot_drawn : world :=
  next_rng (set_counter (wrap 64 (w_counter w + 1)) (set_fs (insert boot_tmp NDir) (next_tmp w))).

Lemma boot_tmp_join : boot_tmp = path_join "/tmp" ("rhfw." ++ w_tmp_names w (w_tmp_next w)).
Proof. reflexivity. Qed.

Lemma boot_tmp_ne : boot_tmp <> "".
Proof. rewrite boot_tmp_join. apply sub_ne_nil. Qed.

Lemma boot_tmp_parent : is_dir w (path_parent boot_tmp) = true.
Proof.
  rewrite boot_tmp_join, path_parent_join; [unfold is_dir; by rewrite Hroot, orb_true_r|discriminate|].
  apply str_notin_app; [apply char_notin_lit; reflexivity|exact Hname].
Qed.

(** Enter [test_boot]: the directory is made and the body runs under
    the [TempDir]'s drop. *)
Ltac boot_enter :=
  unfold test_boot; rewrite run_bind, tempdir_new_run by (exact Hnone || exact boot_tmp_parent);
  fold boot_tmp; cbn beta iota; rewrite run_bind, run_expect_ok; cbn beta iota.

Lemma boot_drawn_dirs : Forall (fun d => w_fs boot_drawn !! d = Some NDir) (dir_chain boot_tmp).
Proof.
  rewrite boot_tmp_join. rewrite dir_chain_join; [|discriminate|].
  2: { apply str_notin_app; [apply char_notin_lit; reflexivity|exact Hname]. }
  rewrite <- boot_tmp_join. cbn. repeat constructor.
  - rewrite lookup_insert_ne; [exact Hroot|]. apply (ne_by_lookup (w_fs w) _ _ NDir); done.
  - apply lookup_insert_eq.
Qed.

Lemma boot_drawn_fresh : fresh_under (w_fs boot_drawn) boot_tmp = true.
Proof. apply fresh_under_insert; [exact Hempty|apply prefix_self_slash]. Qed.

Lemma boot_drawn_old (k : string) (n : node) : w_fs w !! k = Some n -> w_fs boot_drawn !! k = Some n.
Proof.
  intros Hk. cbn [w_fs boot_drawn next_rng set_counter set_fs next_tmp].
  rewrite lookup_insert_ne; [exact Hk|]. by apply (ne_by_lookup (w_fs w) _ _ n).
Qed.

(** The files once the seed image is built. *)
Definition boot_seeded_fs : gmap string node := w_fs (prepare ci boot_tmp boot_net boot_drawn).2.

(** The events the seeder adds to the log. *)
Definition boot_seed_log : list event :=
  drop (length (w_log w)) (w_log (prepare ci boot_tmp boot_net boot_drawn).2).

Lemma boot_seed_run :
  exists w4, prepare ci boot_tmp boot_net boot_drawn = (Normal (path_join boot_tmp "cloudinit"), w4) /\
    w_fs w4 = boot_seeded_fs /\ fs_log_only boot_drawn w4 /\
    (forall k, String.prefix (boot_tmp ++ "/") k = false -> w_fs w4 !! k = w_fs boot_drawn !! k) /\
    w_fs w4 !! path_join boot_tmp img = None /\
    w_log w4 = (w_log w ++ boot_seed_log)%list /\ Forall tool_run boot_seed_log.
Proof.
  destruct (seed_run _ _ Hseed boot_tmp boot_net boot_drawn) as (w4 & Hrun & Hfl & (l & Hl & Hlt) & Hout & Hfree);
    [apply boot_tmp_ne|apply boot_drawn_dirs|apply boot_drawn_fresh|..].
  { apply (seed_ready_frame _ _ Hseed w); [exact Hready|reflexivity|apply boot_drawn_old]. }
  assert (Hsl : boot_seed_log = l).
  { unfold boot_seed_log. rewrite Hrun. cbn [snd]. rewrite Hl. apply drop_app_length. }
  exists w4. unfold boot_seeded_fs. rewrite Hrun, Hsl. split_and!; auto.
Qed.

Lemma boot_seeded_old (k : string) (n : node) : w_fs w !! k = Some n -> boot_seeded_fs !! k = Some n.
Proof.
  intros Hk. destruct boot_seed_run as (w4 & _ & <- & _ & Hout & _).
  rewrite Hout; [by apply boot_drawn_old|]. exact (proj1 (fresh_under_spec _ _) Hempty k n Hk).
Qed.

Lemma boot_seeded_tmp : boot_seeded_fs !! boot_tmp = Some NDir.
Proof.
  destruct boot_seed_run as (w4 & _ & <- & _ & Hout & _).
  rewrite Hout by apply prefix_slash_self. apply lookup_insert_eq.
Qed.

Lemma boot_seeded_disk_free : boot_seeded_fs !! path_join boot_tmp img = None.
Proof. by destruct boot_seed_run as (w4 & _ & <- & _ & _ & Hfree & _). Qed.

(** Dropping the [TempDir] removes everything the seeder put under it. *)
Lemma boot_cleanup_seeded :
  filter (fun kv : string * node => in_tree boot_tmp kv.1 = false) boot_seeded_fs = w_fs w.
Proof.
  apply map_eq. intros k. destruct (in_tree boot_tmp k) eqn:E.
  - assert (Hk : w_fs w !! k = None).
    { unfold in_tree in E. apply orb_true_iff in E as [->%String.eqb_eq|[r ->]%str_prefix_inv];
        [exact Hnone|]. rewrite str_app_assoc. by apply fresh_under_lookup. }
    rewrite Hk. apply map_lookup_filter_None_2. right. intros n _. cbn. by rewrite E.
  - rewrite map_lookup_filter. unfold in_tree in E. apply orb_false_iff in E as [Hne Hp].
    apply String.eqb_neq in Hne. destruct boot_seed_run as (w4 & _ & <- & _ & Hout & _).
    rewrite Hout by exact Hp. cbn [w_fs boot_drawn next_rng set_counter set_fs next_tmp].
    rewrite lookup_insert_ne by congruence.
    destruct (w_fs w !! k); cbn; [|done]. rewrite option_guard_True; [done|]. cbn. unfold in_tree.
    by rewrite Hp, (proj2 (String.eqb_neq _ _) Hne).
Qed.

(** ... and the OS disk copied beside it. *)
Lemma boot_cleanup_fs :
  filter (fun kv : string * node => in_tree boot_tmp kv.1 = false)
    (<[path_join boot_tmp img := NFile disk]> boot_seeded_fs) = w_fs w.
Proof.
  rewrite map_filter_insert_not; [apply boot_cleanup_seeded|]. intros n. cbn. unfold in_tree.
  change (path_join boot_tmp img) with (boot_tmp ++ "/" ++ img).
  by rewrite <- str_app_assoc, str_prefix_app, orb_true_r.
Qed.

(** What the test does once the VMM runs as [child]. *)
Definition boot_rest (child : nat) : ST world unit :=
  thread_sleep 20;;
  r ← ssh_command (guest_ip boot_net) "sudo shutdown -h now"; expect "Expect SSH command to work" r;;
  r ← child_kill child; unwrap r;;
  r ← child_wait child; unwrap r;;
  cleanup_tap boot_net.

(** Up to [prepare_os_disk], for any launcher: the seed image is in place
    and nothing else has changed but [COUNTER]. *)
Lemma boot_body_seeded (sp : HypervisorSpawn) :
  exists w4, test_boot_body img ci sp boot_tmp (set_fs (insert boot_tmp NDir) (next_tmp w)) =
    (os ← prepare_os_disk boot_tmp img; prepare_tap boot_net;;
     child ← sp os (path_join boot_tmp "cloudinit") boot_net; boot_rest child) w4 /\
    w_fs w4 = boot_seeded_fs /\ fs_log_only boot_drawn w4 /\ w_log w4 = (w_log w ++ boot_seed_log)%list.
Proof.
  unfold test_boot_body. rewrite run_bind. cbn [counter_fetch_add]. cbn beta iota.
  rewrite run_bind. cbn [gen_u8_6]. cbn beta iota zeta.
  set (net := new _ _). change net with boot_net. clear net.
  change (next_rng _) with boot_drawn.
  destruct boot_seed_run as (w4 & Hrun & Hfs4 & Hfl4 & _ & _ & Hlog4 & _).
  rewrite run_bind, Hrun. cbn beta iota. by exists w4.
Qed.

Section MissingImage.
Hypothesis Hnodisk : w_fs w !! path_join (path_join h "workloads") img = None.
Hypothesis Hsrc : in_tree boot_tmp (path_join (path_join h "workloads") img) = false.

(** C7: When the OS image is missing from [~/workloads], the test
    panics with "Expect copying OS disk to succeed" before it touches the
    network: the [TempDir] is dropped while the panic unwinds and takes
    the seed image with it, so the host keeps its files, interfaces and
    children; only [COUNTER] has moved on. *)
Theorem test_boot_missing_image_cleans_up (sp : HypervisorSpawn) :
  exists w', test_boot img ci sp w = (Panic "Expect copying OS disk to succeed", w') /\
    w_fs w' = w_fs w /\ w_taps w' = w_taps w /\ w_procs w' = w_procs w /\
    w_counter w' = wrap 64 (w_counter w + 1).
Proof.
  boot_enter.
  destruct (boot_body_seeded sp) as (w4 & Hrun & Hfs4 & Hfl4 & _).
  pose proof (fs_log_only_fields _ _ Hfl4) as (_ & Hhome4 & Hc4 & Ht4 & Hp4 & _).
  rewrite (run_bind_panic _ _ _ w4 "Expect copying OS disk to succeed") in Hrun.
  2: { apply os_disk_missing with h; [by rewrite Hhome4|].
       unfold in_tree in Hsrc. apply orb_false_iff in Hsrc as [Hne Hp].
       destruct boot_seed_run as (w4' & _ & Hfs' & _ & Hout & _). rewrite Hfs4, <- Hfs', Hout by exact Hp.
       cbn [w_fs boot_drawn next_rng set_counter set_fs next_tmp].
       rewrite lookup_insert_ne; [exact Hnodisk|]. intros E. by rewrite E, String.eqb_refl in Hne. }
  eexists. split; [eapply run_finally; [exact Hrun|reflexivity]|].
  cbn [w_fs w_taps w_procs w_counter set_fs]. rewrite Hfs4, boot_cleanup_seeded, Ht4, Hp4, Hc4.
  split_and!; reflexivity.
Qed.
End MissingImage.

Section Disk.
Hypothesis Hdisk : w_fs w !! path_join (path_join h "workloads") img = Some (NFile disk).
Hypothesis Htap : w_taps w !! tap_name boot_net = None.

(** Up to [prepare_tap], for any launcher: the seed image and the OS disk
    are in place, and nothing else has changed but [COUNTER]. *)
Lemma boot_body_prepared (sp : HypervisorSpawn) :
  exists w5, test_boot_body img ci sp boot_tmp (set_fs (insert boot_tmp NDir) (next_tmp w)) =
    (prepare_tap boot_net;; child ← sp (path_join boot_tmp img) (path_join boot_tmp "cloudinit") boot_net;
     boot_rest child) w5 /\
    w_fs w5 = <[path_join boot_tmp img := NFile disk]> boot_seeded_fs /\
    w_taps w5 = w_taps w /\ w_procs w5 = w_procs w /\ w_next_pid w5 = w_next_pid w /\
    w_net w5 = w_net w /\ w_counter w5 = wrap 64 (w_counter w + 1) /\
    w_log w5 = (w_log w ++ boot_seed_log)%list.
Proof.
  destruct (boot_body_seeded sp) as (w4 & -> & Hfs4 & Hfl4 & Hlog4).
  pose proof (fs_log_only_fields _ _ Hfl4) as (_ & Hhome4 & Hc4 & Ht4 & Hp4 & Hn4 & Hnet4).
  rewrite run_bind, (os_disk_run boot_tmp img h disk w4);
    [|apply boot_tmp_ne|done|rewrite Hhome4; exact Hhome|rewrite Hfs4; by apply boot_seeded_old
    |rewrite Hfs4; apply boot_seeded_tmp|rewrite Hfs4; apply boot_seeded_disk_free].
  cbn beta iota. eexists. split; [reflexivity|].
  cbn [w_fs w_taps w_procs w_next_pid w_net w_counter w_log set_fs].
  rewrite Hfs4, Ht4, Hp4, Hn4, Hnet4, Hc4, Hlog4. split_and!; reflexivity.
Qed.

Section Launch.
Context (sp : HypervisorSpawn) (cmd : string -> string -> GuestNetworkConfig -> Command).
Hypothesis Hsp : spawn_ok sp cmd.

(** The VMM command the test starts. *)
Definition boot_cmd : Command := cmd (path_join boot_tmp img) (path_join boot_tmp "cloudinit") boot_net.

(** Up to the 20 second wait: the seed image and the OS disk are in
    place, the tap is up and the VMM runs as the next pid. *)
Lemma boot_body_started :
  exists ws, test_boot_body img ci sp boot_tmp (set_fs (insert boot_tmp NDir) (next_tmp w)) =
    boot_rest (w_next_pid w) ws /\
    w_fs ws = <[path_join boot_tmp img := NFile disk]> boot_seeded_fs /\
    w_taps ws = <[tap_name boot_net := mkTap [host_ip boot_net ++ "/24"] true]> (w_taps w) /\
    w_procs ws = <[w_next_pid w := mkProc boot_cmd true false]> (w_procs w) /\
    w_net ws = w_net w /\ w_counter ws = wrap 64 (w_counter w + 1) /\
    w_log ws = (w_log w ++ boot_seed_log ++
      [EvRun (bash_c (tuntap_add boot_net)) 0; EvRun (bash_c (addr_add boot_net)) 0;
       EvRun (bash_c (link_up boot_net)) 0; EvStderr ("Spawning: " ++ debug_command boot_cmd);
       EvSpawn (w_next_pid w) boot_cmd])%list.
Proof.
  destruct (boot_body_prepared sp) as (w5 & -> & Hfs5 & Ht5 & Hp5 & Hn5 & Hnet5 & Hc5 & Hlog5).
  rewrite (vm_start_run sp cmd Hsp boot_net _ _ (new_wf _ _) w5) by (rewrite Ht5; exact Htap).
  rewrite Hn5. eexists. split; [reflexivity|]. unfold vm_started, tap_up_world.
  cbn [w_taps w_procs w_fs w_counter w_net w_next_pid w_log log_event set_taps set_procs set_fs].
  rewrite Hfs5, Ht5, Hp5, Hn5, Hnet5, Hc5, Hlog5, !insert_insert_eq, <- !app_assoc. split_and!; reflexivity.
Qed.

Section Served.
Context (T : Z) (out : string).
Hypothesis Haddr : ns_addr (w_net w) = guest_ip boot_net ++ ":22".
Hypothesis Hbefore : forall t, (t < T)%Z -> exists e, ns_reply (w_net w) t = Refuse e.
Hypothesis Hafter : forall t, (T <= t)%Z -> ns_reply (w_net w) t = Serve out.
Hypothesis Hwindow : (T <= ns_clock (w_net w) + 20 + 150)%Z.

Lemma boot_body_served :
  exists w6, test_boot_body img ci sp boot_tmp (set_fs (insert boot_tmp NDir) (next_tmp w)) =
    (Normal tt, w6) /\
    w_fs w6 = <[path_join boot_tmp img := NFile disk]> boot_seeded_fs /\
    w_taps w6 = w_taps w /\
    w_procs w6 = <[w_next_pid w := mkProc boot_cmd false true]> (w_procs w) /\
    w_counter w6 = wrap 64 (w_counter w + 1) /\
    w_log w6 = (w_log w ++ boot_seed_log ++
      [EvRun (bash_c (tuntap_add boot_net)) 0; EvRun (bash_c (addr_add boot_net)) 0;
       EvRun (bash_c (link_up boot_net)) 0; EvStderr ("Spawning: " ++ debug_command boot_cmd);
       EvSpawn (w_next_pid w) boot_cmd; EvKill (w_next_pid w); EvWait (w_next_pid w);
       EvRun (bash_c (tuntap_del boot_net)) 0])%list.
Proof.
  destruct boot_body_started as (ws & -> & Hfs & Ht & Hp & Hnet & Hc & Hlog). unfold boot_rest.
  destruct (retry_ready (guest_ip boot_net) "sudo shutdown -h now" 5 1 T out (after_sleep ws))
    as [st' Hst']; cbn [after_sleep ns_set ns_addr ns_reply ns_clock backoff_total]; rewrite ?Hnet;
    [done|done|done|unfold DEFAULT_SSH_TIMEOUT; lia|].
  rewrite <- ssh_command_retry in Hst'.
  destruct (vm_finish_served boot_net (new_wf _ _) (w_next_pid w) boot_cmd ws out st')
    as (w6 & -> & Ht6 & Hp6 & Hf6 & Hc6 & _ & Hl6); [rewrite Hp; apply lookup_insert_eq|exact Hst'|].
  exists w6. rewrite Ht6, Hp6, Hf6, Hc6, Hl6, Ht, Hp, Hfs, Hc, Hlog, delete_insert_eq, insert_insert_eq, <- !app_assoc.
  split_and!; [done|done|by apply delete_id|done|done|done].
Qed.

(** C1: One boot test on a prepared Linux host, with either seeder (any
    [prepare] that meets [seeder_spec]) and a guest
    whose SSH service comes up within the 170 seconds after the VMM starts
    that the 20 second wait and the SSH retries cover, succeeds; and it
    leaves the host as it found it: the same files (the temporary
    directory and everything in it removed), the same interfaces (the tap
    added and deleted), one more child, the VMM, killed and reaped, and
    [COUNTER] advanced by one.  It holds for every launcher that meets
    [spawn_ok], so for both VMMs, and so for all six test functions. *)
Theorem test_boot_succeeds :
  exists w', test_boot img ci sp w = (Normal tt, w') /\
    w_fs w' = w_fs w /\ w_taps w' = w_taps w /\
    w_procs w' = <[w_next_pid w := mkProc boot_cmd false true]> (w_procs w) /\
    w_counter w' = wrap 64 (w_counter w + 1).
Proof.
  boot_enter.
  destruct boot_body_served as (w6 & Hrun & Hfs & Ht & Hp & Hc & _).
  eexists. split; [eapply run_finally; [exact Hrun|reflexivity]|].
  cbn [w_fs w_taps w_procs w_counter set_fs]. rewrite Hfs, boot_cleanup_fs. done.
Qed.
(** C8: In a successful test the harness acts on the host in the order
    of the lifecycle: after the seeder's tool runs, the three [ip]
    commands that create, address and raise the tap, then the VMM's start
    (announced on stderr); after the SSH shutdown, [kill] and [wait] on
    the VMM, and only then the tap's deletion. *)
Theorem test_boot_event_order :
  exists w', test_boot img ci sp w = (Normal tt, w') /\ Forall tool_run boot_seed_log /\
    w_log w' = (w_log w ++ boot_seed_log ++
      [EvRun (bash_c (tuntap_add boot_net)) 0; EvRun (bash_c (addr_add boot_net)) 0;
       EvRun (bash_c (link_up boot_net)) 0; EvStderr ("Spawning: " ++ debug_command boot_cmd);
       EvSpawn (w_next_pid w) boot_cmd; EvKill (w_next_pid w); EvWait (w_next_pid w);
       EvRun (bash_c (tuntap_del boot_net)) 0])%list.
Proof.
  boot_enter.
  destruct boot_body_served as (w6 & Hrun & _ & _ & _ & _ & Hlog).
  destruct boot_seed_run as (_ & _ & _ & _ & _ & _ & _ & Htools).
  eexists. split; [eapply run_finally; [exact Hrun|reflexivity]|]. split; [exact Htools|].
  exact Hlog.
Qed.


End Served.

Section Refused.
Context (e : io_error).
Hypothesis Haddr : ns_addr (w_net w) = guest_ip boot_net ++ ":22".
Hypothesis Hdown : forall t, ns_reply (w_net w) t = Refuse e.

(** C2: When the guest never answers SSH, the test (with either
    seeder) panics with "Expect
    SSH command to work" after the six attempts; the [TempDir] is removed
    while the panic unwinds, but [child.kill()], [child.wait()] and
    [cleanup_tap] never run: the tap stays up with its address and the
    VMM keeps running, unreaped.  The leak outlives the process: [COUNTER]
    starts again at 6 in the next [cargo test] run, and every test there
    that draws the same counter value (any seeder, any VMM) panics at
    [prepare_tap] without starting its VMM, the leaked tap and VMM still
    in place. *)
Theorem test_boot_ssh_failure_leaks :
  exists w', test_boot img ci sp w = (Panic "Expect SSH command to work", w') /\
    w_fs w' = w_fs w /\
    w_taps w' = <[tap_name boot_net := mkTap [host_ip boot_net ++ "/24"] true]> (w_taps w) /\
    w_procs w' = <[w_next_pid w := mkProc boot_cmd true false]> (w_procs w) /\
    (forall t, exists msg w'', @run_test linux t (set_counter (w_counter w) w') = (Panic msg, w'') /\
       w_taps w'' = w_taps w' /\ w_procs w'' = w_procs w').
Proof.
  boot_enter.
  destruct boot_body_started as (ws & Hrun & Hfs & Ht & Hp & Hnet & Hc & _). unfold boot_rest in Hrun.
  destruct (retry_all_refused (guest_ip boot_net) "sudo shutdown -h now" 5 1 (after_sleep ws) e)
    as [cur Hst']; cbn [after_sleep ns_set ns_addr ns_reply]; rewrite ?Hnet; [done|done|].
  rewrite <- ssh_command_retry in Hst'.
  eexists. split.
  { eapply run_finally; [|reflexivity]. rewrite Hrun. apply (vm_finish_refused boot_net _ _ (Connection e)).
    exact Hst'. }
  split_and!; [cbn [w_fs w_taps w_procs set_fs set_net]; by rewrite ?Hfs, ?boot_cleanup_fs, ?Ht, ?Hp..|].
  intros t. match goal with |- exists _ _, run_test t ?w2 = _ /\ _ =>
    assert (Hb : w_taps w2 !! ("fwtap" ++ fmt_dec (as_u8 (w_counter w2))) = Some (mkTap [host_ip boot_net ++ "/24"] true))
      by (cbn [w_taps w_counter set_counter set_fs set_net]; rewrite Ht; apply lookup_insert_eq) end.
  unfold run_test. destruct (tc_seeder t).
  - destruct (@test_boot_busy _ (@ubuntu_cloud_init linux) UbuntuCloudInitV (@vmm_spawn linux (tc_vmm t)) (tc_image t)
                (fun Tp Pr => ubuntu_prepare_tp Tp Pr) _ _ Hb) as (msg & w'' & Hr & Ht' & Hp'). eauto.
  - destruct (@test_boot_busy _ (@clear_cloud_init linux) ClearCloudInitV (@vmm_spawn linux (tc_vmm t)) (tc_image t)
                (fun Tp Pr => clear_prepare_tp Tp Pr) _ _ Hb) as (msg & w'' & Hr & Ht' & Hp'). eauto.
Qed.

End Refused.

End Launch.

Section SpawnFails.
Context (sp : HypervisorSpawn).
(** A launcher whose VMM cannot be started: it panics, touching neither
    files, interfaces nor children. *)
Hypothesis Hfail : forall os ci net w', exists msg w'', sp os ci net w' = (Panic msg, w'') /\
  w_fs w'' = w_fs w' /\ w_taps w'' = w_taps w' /\ w_procs w'' = w_procs w'.

(** C6: When the VMM cannot be started (its binary missing, say), the
    test panics right after [prepare_tap]: the [TempDir] is removed while
    the panic unwinds, but [cleanup_tap] never runs, so the tap stays up
    with its address; no child is left. *)
Theorem test_boot_spawn_failure_leaks_tap :
  exists msg w', test_boot img ci sp w = (Panic msg, w') /\
    w_fs w' = w_fs w /\
    w_taps w' = <[tap_name boot_net := mkTap [host_ip boot_net ++ "/24"] true]> (w_taps w) /\
    w_procs w' = w_procs w.
Proof.
  boot_enter.
  destruct (boot_body_prepared sp) as (w5 & Hrun & Hfs5 & Ht5 & Hp5 & _).
  rewrite run_bind, (prepare_tap_run boot_net (new_wf _ _) w5) in Hrun by (rewrite Ht5; exact Htap).
  cbn beta iota in Hrun.
  destruct (Hfail (path_join boot_tmp img) (path_join boot_tmp "cloudinit") boot_net (tap_up_world boot_net w5))
    as (msg & w6 & Hs & Hf6 & Ht6 & Hp6).
  rewrite run_bind, Hs in Hrun.
  exists msg. eexists. split; [eapply run_finally; [exact Hrun|reflexivity]|].
  cbn [w_fs w_taps w_procs set_fs]. rewrite Hf6, Ht6, Hp6. unfold tap_up_world.
  cbn [w_fs w_taps w_procs log_event set_taps]. rewrite Hfs5, boot_cleanup_fs, Ht5, Hp5, !insert_insert_eq.
  split_and!; reflexivity.
Qed.
End SpawnFails.
End Disk.

End Healthy.

(** C5: On the Linux host, a test function whose tap name
    [fwtap<COUNTER as u8>] is already taken never starts its VMM: whatever
    the host's files, it panics (at the latest at [prepare_tap]'s first
    assertion, after [ip tuntap add] fails), and leaves the interfaces and
    the children as they were. *)
Theorem tests_never_spawn_on_busy_tap (t : test_case) (w : world) (t0 : tap) :
  w_taps w !! ("fwtap" ++ fmt_dec (as_u8 (w_counter w))) = Some t0 ->
  exists msg w', @run_test linux t w = (Panic msg, w') /\ w_taps w' = w_taps w /\ w_procs w' = w_procs w.
Proof.
  intros Hb. unfold run_test. destruct (tc_seeder t).
  - exact (@test_boot_busy _ (@ubuntu_cloud_init linux) UbuntuCloudInitV (@vmm_spawn linux (tc_vmm t)) (tc_image t)
             (fun Tp Pr => ubuntu_prepare_tp Tp Pr) w t0 Hb).
  - exact (@test_boot_busy _ (@clear_cloud_init linux) ClearCloudInitV (@vmm_spawn linux (tc_vmm t)) (tc_image t)
             (fun Tp Pr => clear_prepare_tp Tp Pr) w t0 Hb).
Qed.

(** ** Witnesses *)

(** A Linux host ready for the bionic and the Clear tests: [/tmp], the
    templates of both seeders under [/work], the two images under
    [~/workloads]. *)
Definition boot_fs : gmap string node :=
  <["/tmp" := NDir]>
  (<["/work/resources/cloud-init/clear/openstack/latest/meta_data.json" := NFile "uuid: 0"]>
  (<["/work/resources/cloud-init/clear/openstack/latest/user_data" := NFile (render placeholder sample_template)]>
  (<["/home/cloud/workloads/clear-31311-cloudguest.img" := NFile "clear disk"]>
  (<["/work/resources/cloud-init/ubuntu/meta-data" := NFile "instance-id: cloud"]>
  (<["/work/resources/cloud-init/ubuntu/user-data" := NFile "#cloud-config"]>
  (<["/work/resources/cloud-init/ubuntu/network-config" := NFile (render placeholder sample_template)]>
  (<["/home/cloud/workloads/bionic-server-cloudimg-amd64-raw.img" := NFile "disk"]> ∅))))))).

(** A guest at 192.168.6.2 whose SSH service answers from time [T] on. *)
Definition guest_up_at (T : Z) : net_state :=
  mkNet 0 "192.168.6.2:22" (fun t => if (t <? T)%Z then Refuse (IoError "connection refused") else Serve "")
    NoAuth [].

(** A guest whose SSH service never answers. *)
Definition guest_down : net_state :=
  mkNet 0 "192.168.6.2:22" (fun _ => Refuse (IoError "connection refused")) NoAuth [].

Definition boot_host (n : net_state) : world := sample_world boot_fs n.

Lemma boot_host_ubuntu_ready (n : net_state) : ubuntu_ready (boot_host n).
Proof. eexists _, _, _. split_and!; reflexivity. Qed.

Lemma boot_host_clear_ready (n : net_state) : clear_ready (boot_host n).
Proof. eexists _, _. split; reflexivity. Qed.

Lemma test_boot_succeeds_witness :
  fresh_under (w_fs (boot_host (guest_up_at 40))) (boot_tmp (boot_host (guest_up_at 40))) = true /\
  exists w', test_boot BIONIC_IMAGE_NAME UbuntuCloudInitV spawn_ch (boot_host (guest_up_at 40)) = (Normal tt, w') /\
    w_fs w' = w_fs (boot_host (guest_up_at 40)) /\ w_taps w' = w_taps (boot_host (guest_up_at 40)) /\
    w_procs w' = <[w_next_pid (boot_host (guest_up_at 40)) :=
                   mkProc (boot_cmd BIONIC_IMAGE_NAME (boot_host (guest_up_at 40)) ch_command) false true]>
                   (w_procs (boot_host (guest_up_at 40))) /\
    w_counter w' = wrap 64 (w_counter (boot_host (guest_up_at 40)) + 1).
Proof.
  split; [vm_compute; reflexivity|].
  refine (test_boot_succeeds BIONIC_IMAGE_NAME "/home/cloud" "disk" (boot_host (guest_up_at 40)) UbuntuCloudInitV ubuntu_ready
            _ _ _ _ ubuntu_seeder (boot_host_ubuntu_ready _) _ _ _ _ _ _
            spawn_ch ch_command spawn_ch_ok 40 "" _ _ _ _);
    try (apply char_notin_lit; reflexivity); try (vm_compute; reflexivity); try reflexivity.
  - intros t Ht. eexists. cbn. by rewrite (proj2 (Z.ltb_lt t 40) Ht).
  - intros t Ht. cbn. by rewrite (proj2 (Z.ltb_ge t 40) Ht).
  - cbn. lia.
Defined.

(** The same host running [test_boot_qemu_clear]. *)
Definition up_host : world := boot_host (guest_up_at 40).

Lemma test_boot_event_order_witness :
  fresh_under (w_fs up_host) (boot_tmp up_host) = true /\
  exists w', test_boot CLEAR_IMAGE_NAME ClearCloudInitV spawn_qemu up_host = (Normal tt, w') /\
    Forall tool_run (boot_seed_log up_host ClearCloudInitV) /\
    w_log w' = (w_log up_host ++ boot_seed_log up_host ClearCloudInitV ++
      [EvRun (bash_c (tuntap_add (boot_net up_host))) 0; EvRun (bash_c (addr_add (boot_net up_host))) 0;
       EvRun (bash_c (link_up (boot_net up_host))) 0;
       EvStderr ("Spawning: " ++ debug_command (boot_cmd CLEAR_IMAGE_NAME up_host qemu_command));
       EvSpawn (w_next_pid up_host) (boot_cmd CLEAR_IMAGE_NAME up_host qemu_command);
       EvKill (w_next_pid up_host); EvWait (w_next_pid up_host);
       EvRun (bash_c (tuntap_del (boot_net up_host))) 0])%list.
Proof.
  split; [vm_compute; reflexivity|].
  refine (test_boot_event_order CLEAR_IMAGE_NAME "/home/cloud" "clear disk" up_host ClearCloudInitV clear_ready
            _ _ _ _ clear_seeder (boot_host_clear_ready _) _ _ _ _ _ _
            spawn_qemu qemu_command spawn_qemu_ok 40 "" _ _ _ _);
    try (apply char_notin_lit; reflexivity); try (vm_compute; reflexivity); try reflexivity.
  - intros t Ht. eexists. cbn. by rewrite (proj2 (Z.ltb_lt t 40) Ht).
  - intros t Ht. cbn. by rewrite (proj2 (Z.ltb_ge t 40) Ht).
  - cbn. lia.
Defined.

Lemma test_boot_ssh_failure_leaks_witness :
  fresh_under (w_fs (boot_host guest_down)) (boot_tmp (boot_host guest_down)) = true /\
  exists w', test_boot BIONIC_IMAGE_NAME UbuntuCloudInitV spawn_qemu (boot_host guest_down) =
    (Panic "Expect SSH command to work", w') /\
    w_fs w' = w_fs (boot_host guest_down) /\
    w_taps w' = <[tap_name (boot_net (boot_host guest_down)) :=
                  mkTap [host_ip (boot_net (boot_host guest_down)) ++ "/24"] true]> (w_taps (boot_host guest_down)) /\
    w_procs w' = <[w_next_pid (boot_host guest_down) :=
                   mkProc (boot_cmd BIONIC_IMAGE_NAME (boot_host guest_down) qemu_command) true false]>
                   (w_procs (boot_host guest_down)) /\
    (forall t, exists msg w'', @run_test linux t (set_counter (w_counter (boot_host guest_down)) w') =
       (Panic msg, w'') /\ w_taps w'' = w_taps w' /\ w_procs w'' = w_procs w').
Proof.
  split; [vm_compute; reflexivity|].
  refine (test_boot_ssh_failure_leaks BIONIC_IMAGE_NAME "/home/cloud" "disk" (boot_host guest_down) UbuntuCloudInitV ubuntu_ready
            _ _ _ _ ubuntu_seeder (boot_host_ubuntu_ready _) _ _ _ _ _ _
            spawn_qemu qemu_command spawn_qemu_ok (IoError "connection refused") _ _);
    try (apply char_notin_lit; reflexivity); try (vm_compute; reflexivity); try reflexivity.
Defined.

Lemma test_boot_missing_image_cleans_up_witness :
  w_fs (boot_host guest_down) !! path_join (path_join "/home/cloud" "workloads") FOCAL_IMAGE_NAME = None /\
  exists w', test_boot FOCAL_IMAGE_NAME UbuntuCloudInitV spawn_qemu (boot_host guest_down) =
    (Panic "Expect copying OS disk to succeed", w') /\
    w_fs w' = w_fs (boot_host guest_down) /\ w_taps w' = w_taps (boot_host guest_down) /\
    w_procs w' = w_procs (boot_host guest_down) /\
    w_counter w' = wrap 64 (w_counter (boot_host guest_down) + 1).
Proof.
  split; [vm_compute; reflexivity|].
  refine (test_boot_missing_image_cleans_up FOCAL_IMAGE_NAME "/home/cloud" (boot_host guest_down) UbuntuCloudInitV
            ubuntu_ready _ _ _ _ ubuntu_seeder (boot_host_ubuntu_ready _) _ _ _ _ _ _ spawn_qemu);
    try (apply char_notin_lit; reflexivity); try (vm_compute; reflexivity); try reflexivity.
Defined.

(** A host where an earlier run left [fwtap6] behind. *)
Definition leaked_host : world :=
  set_taps (insert "fwtap6" (mkTap ["192.168.6.1/24"] true)) (boot_host guest_down).

Lemma tests_never_spawn_on_busy_tap_witness :
  w_taps leaked_host !! ("fwtap" ++ fmt_dec (as_u8 (w_counter leaked_host))) = Some (mkTap ["192.168.6.1/24"] true) /\
  exists msg w', @run_test linux (mkTest "test_boot_ch_bionic" true BIONIC_IMAGE_NAME SeedUbuntu VmmCh) leaked_host =
    (Panic msg, w') /\ w_taps w' = w_taps leaked_host /\ w_procs w' = w_procs leaked_host.
Proof.
  assert (Hb : w_taps leaked_host !! ("fwtap" ++ fmt_dec (as_u8 (w_counter leaked_host))) =
                 Some (mkTap ["192.168.6.1/24"] true)) by (vm_compute; reflexivity).
  split; [exact Hb|]. exact (tests_never_spawn_on_busy_tap _ _ _ Hb).
Defined.

(** A Linux host on which no VMM binary can be started. *)
Definition no_vmm_host : Host := {| host_run := linux_run; host_spawn _ _ := None |}.

Lemma no_vmm_spawn_fails (os ci : string) (net : GuestNetworkConfig) (w' : world) :
  exists msg w'', @spawn_ch no_vmm_host os ci net w' = (Panic msg, w'') /\
    w_fs w'' = w_fs w' /\ w_taps w'' = w_taps w' /\ w_procs w'' = w_procs w'.
Proof. eexists _, _. split; [reflexivity|done]. Qed.

Lemma test_boot_spawn_failure_leaks_tap_witness :
  fresh_under (w_fs (boot_host guest_down)) (boot_tmp (boot_host guest_down)) = true /\
  exists msg w', test_boot CLEAR_IMAGE_NAME ClearCloudInitV (@spawn_ch no_vmm_host) (boot_host guest_down) =
    (Panic msg, w') /\ w_fs w' = w_fs (boot_host guest_down) /\
    w_taps w' = <[tap_name (boot_net (boot_host guest_down)) :=
                  mkTap [host_ip (boot_net (boot_host guest_down)) ++ "/24"] true]> (w_taps (boot_host guest_down)) /\
    w_procs w' = w_procs (boot_host guest_down).
Proof.
  split; [vm_compute; reflexivity|].
  refine (test_boot_spawn_failure_leaks_tap CLEAR_IMAGE_NAME "/home/cloud" "clear disk" (boot_host guest_down) ClearCloudInitV clear_ready
            _ _ _ _ clear_seeder (boot_host_clear_ready _) _ _ _ _ _ _
            (@spawn_ch no_vmm_host) no_vmm_spawn_fails);
    try (apply char_notin_lit; reflexivity); try (vm_compute; reflexivity); try reflexivity.
Defined.

End TestBoot.
